(** * The virt-handler metrics collector (Go package [prometheus])

    A shallow embedding of the collector of per-VMI metrics of KubeVirt's
    virt-handler, and the properties its specification states about it.

    Conventions of the embedding.
    - Go strings are [string] (sequences of bytes).  Strings that reach the
      collector come from decoded API objects and from build constants, so
      they hold valid UTF-8; the UTF-8 test of the metrics library on label
      values is therefore not part of the model.
    - [uint64], [int] and [time.Duration] values are [Z].  [float64(x)] of
      an unsigned 64-bit [x] is the integer the double holds after rounding
      (see [float64]); every sample value of this collector is such an
      integer-valued double, so a sample value is a [Z] as well.
    - A Go map is a [gmap]; [for k, v := range m] visits [map_to_list m].
      Go leaves the order unspecified; the statements below either hold for
      the list whatever its order or are stated up to position.
    - The output channel [ch] that every function receives is the one sink
      of the cycle; it lives in the state ([Chan]).  Package-level variables
      live in the state too ([PkgVars]). *)

From Stdlib Require Import ZArith QArith String Ascii List Lia DecimalString.
From stdpp Require Import gmap strings list fin_maps.

Local Open Scope Z_scope.

(** ** Go's [strings] package: what the collector uses of it *)

Module strings.

(** [strings.NewReplacer] whose old and new strings are single bytes is a
    byte replacer; with several pairs for one byte the first one wins. *)
Definition Replacer := list (ascii * ascii).

Definition NewReplacer (oldnew : list (ascii * ascii)) : Replacer := oldnew.

Fixpoint replaceByte (r : Replacer) (c : ascii) : ascii :=
  match r with
  | [] => c
  | (o, n) :: r' => if Ascii.eqb o c then n else replaceByte r' c
  end.

Fixpoint Replace (r : Replacer) (s : string) : string :=
  match s with
  | EmptyString => EmptyString
  | String c s' => String (replaceByte r c) (Replace r s')
  end.

Definition isUpper (c : ascii) : bool :=
  let n := N_of_ascii c in ((65 <=? n) && (n <=? 90))%N.

Definition lowerByte (c : ascii) : ascii :=
  if isUpper c then ascii_of_N (N_of_ascii c + 32) else c.

(** [strings.ToLower] on ASCII text (lifecycle phases are ASCII words):
    'A'..'Z' go to 'a'..'z', every other byte stays. *)
Fixpoint ToLower (s : string) : string :=
  match s with
  | EmptyString => EmptyString
  | String c s' => String (lowerByte c) (ToLower s')
  end.

Definition HasPrefix (s p : string) : bool := String.prefix p s.

End strings.

(** [fmt.Sprintf("%v", n)] for an integer [n]. *)
Definition Sprintf_v (n : Z) : string := NilZero.string_of_int (Z.to_int n).

(** [float64(x)] for [x] an unsigned 64-bit integer: exact below [2^53],
    otherwise rounded to the 53 leading bits, ties to even. *)
Definition float64 (x : Z) : Z :=
  if x <? 2 ^ 53 then x
  else
    let e := Z.log2 x - 52 in
    let q := Z.shiftr x e in
    let r := Z.land x (Z.ones e) in
    let half := 2 ^ (e - 1) in
    let q' := if r <? half then q
              else if half <? r then q + 1
              else if Z.even q then q else q + 1 in
    Z.shiftl q' e.

(** ** The metrics library (client_golang): descriptors and constant metrics *)

Module prometheus.

Inductive ValueType := CounterValue | GaugeValue.

Inductive Error :=
| errInvalidMetricName
| errInvalidLabelName (l : string)
| errDuplicateLabelNames
| errInconsistentCardinality.

Record Desc := mkDesc {
  fqName : string;
  help : string;
  variableLabels : list string;
  err : option Error
}.

Definition isLetter (c : ascii) : bool :=
  let n := N_of_ascii c in
  (((97 <=? n) && (n <=? 122)) || ((65 <=? n) && (n <=? 90)) || (n =? 95))%N.

Definition isDigit (c : ascii) : bool :=
  let n := N_of_ascii c in ((48 <=? n) && (n <=? 57))%N.

Fixpoint allChars (p : ascii -> bool) (s : string) : bool :=
  match s with
  | EmptyString => true
  | String c s' => p c && allChars p s'
  end.

(** [model.LabelName.IsValid]: [[a-zA-Z_][a-zA-Z0-9_]*]. *)
Definition IsValid (l : string) : bool :=
  match l with
  | EmptyString => false
  | String c s' => isLetter c && allChars (fun c => isLetter c || isDigit c) s'
  end.

(** [model.IsValidMetricName]: [[a-zA-Z_:][a-zA-Z0-9_:]*]. *)
Definition IsValidMetricName (n : string) : bool :=
  let colon c := (N_of_ascii c =? 58)%N in
  match n with
  | EmptyString => false
  | String c s' =>
      (isLetter c || colon c) &&
      allChars (fun c => isLetter c || isDigit c || colon c) s'
  end.

Definition checkLabelName (l : string) : bool :=
  IsValid l && negb (strings.HasPrefix l "__").

(** [NewDesc fqName help variableLabels nil].  An invalid descriptor is
    returned with its error set, as the library does. *)
Definition NewDesc (fqName help : string) (variableLabels : list string) : Desc :=
  let d := mkDesc fqName help variableLabels in
  if negb (IsValidMetricName fqName) then d (Some errInvalidMetricName)
  else
    match List.find (fun l => negb (checkLabelName l)) variableLabels with
    | Some l => d (Some (errInvalidLabelName l))
    | None =>
        if Nat.eqb (length variableLabels)
                   (size (list_to_set variableLabels : gset string))
        then d None
        else d (Some errDuplicateLabelNames)
    end.

(** A constant metric: what [NewConstMetric] builds. *)
Record Metric := mkMetric {
  desc : Desc;
  valType : ValueType;
  val : Z;
  labelValues : list string
}.

Definition NewConstMetric (d : Desc) (t : ValueType) (v : Z)
    (labelValues : list string) : Metric + Error :=
  match err d with
  | Some e => inr e
  | None =>
      if Nat.eqb (length labelValues) (length (variableLabels d))
      then inl (mkMetric d t v labelValues)
      else inr errInconsistentCardinality
  end.

End prometheus.

Import prometheus.

(** ** The API object and the domain statistics: the fields the collector reads *)

Module k6tv1.

Record VirtualMachineInstanceStatus := {
  NodeName : string;
  Phase : string
}.

Record VirtualMachineInstance := {
  Namespace : string;
  Name : string;
  Labels : gmap string string;
  Annotations : gmap string string;
  Status : VirtualMachineInstanceStatus
}.

End k6tv1.

Module stats.

Record DomainStatsMemory := {
  RSSSet : bool; RSS : Z;
  AvailableSet : bool; Available : Z;
  SwapInSet : bool; SwapIn : Z;
  SwapOutSet : bool; SwapOut : Z
}.

Record DomainStatsVcpu := {
  StateSet : bool; State : Z;
  TimeSet : bool; Time : Z
}.

Module Block.
Record DomainStatsBlock := {
  NameSet : bool; Name : string;
  RdReqsSet : bool; RdReqs : Z;
  WrReqsSet : bool; WrReqs : Z;
  RdBytesSet : bool; RdBytes : Z;
  WrBytesSet : bool; WrBytes : Z;
  RdTimesSet : bool; RdTimes : Z;
  WrTimesSet : bool; WrTimes : Z
}.
End Block.

Module Net.
Record DomainStatsNet := {
  NameSet : bool; Name : string;
  RxBytesSet : bool; RxBytes : Z;
  RxPktsSet : bool; RxPkts : Z;
  RxErrsSet : bool; RxErrs : Z;
  TxBytesSet : bool; TxBytes : Z;
  TxPktsSet : bool; TxPkts : Z;
  TxErrsSet : bool; TxErrs : Z
}.
End Net.

Record DomainStats := {
  Name : string;
  Memory : DomainStatsMemory;
  Vcpu : list DomainStatsVcpu;
  Block : list Block.DomainStatsBlock;
  Net : list Net.DomainStatsNet
}.

End stats.

Import k6tv1 stats.

(** ** Package-level variables

    The [var ( ... )] block declares, for each of ten metric families, a
    label-name slice and a descriptor: [storageIopsLabels] and
    [storageIopsDesc], ..., [swapTrafficLabels] and [swapTrafficDesc].
    [varLabels (get f g)] is the variable [<f>Labels] and
    [varDesc (get f g)] is the variable [<f>Desc].  [versionDesc] and
    [vmiCountDesc] are never assigned and are plain constants. *)

Inductive Family :=
| storageIops | storageTraffic | storageTimes | vcpuUsage
| networkTrafficBytes | networkTrafficPkts | networkErrors
| memoryAvailable | memoryResident | swapTraffic.

#[global] Instance Family_eq_dec : EqDecision Family.
Proof. solve_decision. Defined.

Record Var := mkVar { varLabels : list string; varDesc : Desc }.

Record PkgVars := mkPkg {
  v_storageIops : Var; v_storageTraffic : Var; v_storageTimes : Var;
  v_vcpuUsage : Var;
  v_networkTrafficBytes : Var; v_networkTrafficPkts : Var; v_networkErrors : Var;
  v_memoryAvailable : Var; v_memoryResident : Var; v_swapTraffic : Var
}.

Definition get (f : Family) (g : PkgVars) : Var :=
  match f with
  | storageIops => v_storageIops g
  | storageTraffic => v_storageTraffic g
  | storageTimes => v_storageTimes g
  | vcpuUsage => v_vcpuUsage g
  | networkTrafficBytes => v_networkTrafficBytes g
  | networkTrafficPkts => v_networkTrafficPkts g
  | networkErrors => v_networkErrors g
  | memoryAvailable => v_memoryAvailable g
  | memoryResident => v_memoryResident g
  | swapTraffic => v_swapTraffic g
  end.

Definition upd (f : Family) (h : Var -> Var) (g : PkgVars) : PkgVars :=
  let '(mkPkg a b c d e i j k l m) := g in
  match f with
  | storageIops => mkPkg (h a) b c d e i j k l m
  | storageTraffic => mkPkg a (h b) c d e i j k l m
  | storageTimes => mkPkg a b (h c) d e i j k l m
  | vcpuUsage => mkPkg a b c (h d) e i j k l m
  | networkTrafficBytes => mkPkg a b c d (h e) i j k l m
  | networkTrafficPkts => mkPkg a b c d e (h i) j k l m
  | networkErrors => mkPkg a b c d e i (h j) k l m
  | memoryAvailable => mkPkg a b c d e i j (h k) l m
  | memoryResident => mkPkg a b c d e i j k (h l) m
  | swapTraffic => mkPkg a b c d e i j k l (h m)
  end.

Definition labelFormatter : strings.Replacer :=
  strings.NewReplacer [("."%char, "_"%char); ("/"%char, "_"%char); ("-"%char, "_"%char)].

Definition versionDesc : Desc :=
  NewDesc "kubevirt_info" "Version information" ["goversion"; "kubeversion"].

Definition vmiCountDesc : Desc :=
  NewDesc "kubevirt_vmi_phase_count" "VMI phase." ["node"; "phase"].

Definition familyName (f : Family) : string :=
  match f with
  | storageIops => "kubevirt_vmi_storage_iops_total"
  | storageTraffic => "kubevirt_vmi_storage_traffic_bytes_total"
  | storageTimes => "kubevirt_vmi_storage_times_ms_total"
  | vcpuUsage => "kubevirt_vmi_vcpu_seconds"
  | networkTrafficBytes => "kubevirt_vmi_network_traffic_bytes_total"
  | networkTrafficPkts => "kubevirt_vmi_network_traffic_packets_total"
  | networkErrors => "kubevirt_vmi_network_errors_total"
  | memoryAvailable => "kubevirt_vmi_memory_available_bytes"
  | memoryResident => "kubevirt_vmi_memory_resident_bytes"
  | swapTraffic => "kubevirt_vmi_memory_swap_traffic_bytes_total"
  end.

Definition familyHelp (f : Family) : string :=
  match f with
  | storageIops => "I/O operation performed."
  | storageTraffic => "storage traffic."
  | storageTimes => "storage operation time."
  | vcpuUsage => "Vcpu elapsed time."
  | networkTrafficBytes => "network traffic."
  | networkTrafficPkts => "network traffic."
  | networkErrors => "network errors."
  | memoryAvailable => "amount of usable memory as seen by the domain."
  | memoryResident => "resident set size of the process running the domain"
  | swapTraffic => "swap memory traffic."
  end.

(** The label names each family starts from, in the [var] block and again
    at every reset inside the update functions. *)
Definition baseLabels (f : Family) : list string :=
  match f with
  | storageIops | storageTraffic | storageTimes =>
      ["node"; "namespace"; "name"; "drive"; "type"]
  | vcpuUsage => ["node"; "namespace"; "name"; "id"; "state"]
  | networkTrafficBytes | networkTrafficPkts | networkErrors =>
      ["node"; "namespace"; "name"; "interface"; "type"]
  | memoryAvailable | memoryResident => ["node"; "namespace"; "name"]
  | swapTraffic => ["node"; "namespace"; "name"; "type"]
  end.

(** The values of the [var] block when the package is initialised. *)
Definition initVar (f : Family) : Var :=
  mkVar (baseLabels f) (NewDesc (familyName f) (familyHelp f) (baseLabels f)).

Definition initPkg : PkgVars :=
  mkPkg (initVar storageIops) (initVar storageTraffic) (initVar storageTimes)
        (initVar vcpuUsage)
        (initVar networkTrafficBytes) (initVar networkTrafficPkts)
        (initVar networkErrors)
        (initVar memoryAvailable) (initVar memoryResident) (initVar swapTraffic).

(** ** State, panics and the primitives of the embedding *)

Inductive Severity := INFO | WARNING | ERROR.

(** An operand of a log line that the model keeps. *)
Inductive Operand :=
| OpDesc (d : Desc)
| OpError (e : Error).

(** A log line: the verbosity given with [V(n)] if any, the severity, the
    fixed part of the message, and those operands of the format that are
    read from package-level variables or computed from them.  The other
    operands (arguments of the call, errors and names that come from
    outside) are not kept. *)
Record LogEntry := mkLogOf {
  verbosity : option nat;
  severity : Severity;
  message : string;
  operands : list Operand
}.

(** A log line without kept operands. *)
Definition mkLog (v : option nat) (sev : Severity) (msg : string) : LogEntry :=
  mkLogOf v sev msg [].

(** The output sink.  [sent] is what it has received so far.  [open_for]
    says when whoever owns the sink closes it: [None] never,
    [Some n] after [n] more samples. *)
Record Chan := mkChan { sent : list Metric; open_for : option nat }.

Record GoState := mkState { pkg : PkgVars; ch : Chan; logs : list LogEntry }.

Inductive Outcome (A : Type) :=
| Returned (a : A) (s : GoState)
| Panicked (reason : string) (s : GoState).
Arguments Returned {A} a s.
Arguments Panicked {A} reason s.

Definition stateOf {A} (o : Outcome A) : GoState :=
  match o with Returned _ s => s | Panicked _ s => s end.

Definition resultOf {A} (o : Outcome A) : option A :=
  match o with Returned a _ => Some a | Panicked _ _ => None end.

Definition M (A : Type) : Type := GoState -> Outcome A.

#[global] Instance M_ret : MRet M := fun A a s => Returned a s.
#[global] Instance M_bind : MBind M := fun A B k m s =>
  match m s with
  | Returned a s' => k a s'
  | Panicked r s' => Panicked r s'
  end.

(** [ch <- mv]: a send on a closed channel panics. *)
Definition send (mv : Metric) : M unit := fun s =>
  match open_for (ch s) with
  | Some O => Panicked "send on closed channel" s
  | Some (S n) =>
      Returned tt (mkState (pkg s) (mkChan (sent (ch s) ++ [mv]) (Some n)) (logs s))
  | None =>
      Returned tt (mkState (pkg s) (mkChan (sent (ch s) ++ [mv]) None) (logs s))
  end.

Definition logf (v : option nat) (sev : Severity) (msg : string) : M unit :=
  fun s => Returned tt (mkState (pkg s) (ch s) (logs s ++ [mkLog v sev msg])).

Definition logfOf (v : option nat) (sev : Severity) (msg : string)
    (ops : list Operand) : M unit :=
  fun s => Returned tt (mkState (pkg s) (ch s) (logs s ++ [mkLogOf v sev msg ops])).

Definition modifyPkg (h : PkgVars -> PkgVars) : M unit :=
  fun s => Returned tt (mkState (h (pkg s)) (ch s) (logs s)).

(** [<f>Labels = l] *)
Definition setLabels (f : Family) (l : list string) : M unit :=
  modifyPkg (upd f (fun v => mkVar l (varDesc v))).

(** [<f>Labels = append(<f>Labels, x)] *)
Definition appendLabel (f : Family) (x : string) : M unit :=
  modifyPkg (upd f (fun v => mkVar (varLabels v ++ [x]) (varDesc v))).

(** [<f>Desc = prometheus.NewDesc(name, help, <f>Labels, nil)] *)
Definition setNewDesc (f : Family) (name help : string) : M unit :=
  modifyPkg (upd f (fun v => mkVar (varLabels v) (NewDesc name help (varLabels v)))).

Definition readDesc (f : Family) : M Desc :=
  fun s => Returned (varDesc (get f (pkg s))) s.

(** [for i, x := range l { body }] *)
Fixpoint forRangeFrom {A} (i : nat) (l : list A) (body : nat -> A -> M unit) : M unit :=
  match l with
  | [] => mret tt
  | x :: l' => body i x ;; forRangeFrom (S i) l' body
  end.

Definition forRange {A} (l : list A) (body : nat -> A -> M unit) : M unit :=
  forRangeFrom 0 l body.

(** [for k, v := range m { body }] where the body updates local variables
    [acc] besides the state. *)
Fixpoint forRangeAcc {A L} (l : list A) (acc : L) (body : A -> L -> M L) : M L :=
  match l with
  | [] => mret acc
  | x :: l' => acc' ← body x acc ; forRangeAcc l' acc' body
  end.

Definition rangeMap {L} (m : gmap string string) (acc : L)
    (body : string * string -> L -> M L) : M L :=
  forRangeAcc (map_to_list m) acc body.

(** ** The collector *)

(** [tryToPushMetric(desc, mv, err, ch)]: on an error the sample is dropped
    with a warning at verbosity 4.  The warning prints the package-level
    variable [memoryAvailableDesc], whatever [desc] is, and the error. *)
Definition tryToPushMetric (d : Desc) (r : Metric + Error) : M unit :=
  match r with
  | inr e =>
      memoryAvailableDesc ← readDesc memoryAvailable ;
      logfOf (Some 4%nat) WARNING "Error creating the new const metric for %s: %s"
        [OpDesc memoryAvailableDesc; OpError e]
  | inl mv => send mv
  end.

(** [mv, err := NewConstMetric(<f>Desc, t, v, values...);
    tryToPushMetric(<f>Desc, mv, err, ch)] *)
Definition push (f : Family) (t : ValueType) (v : Z) (values : list string) : M unit :=
  d ← readDesc f ;
  tryToPushMetric d (NewConstMetric d t v values).

(** [if set { ... push ... }] *)
Definition pushIf (set : bool) (f : Family) (t : ValueType) (v : Z)
    (values : list string) : M unit :=
  if set then push f t v values else mret tt.

Definition labelPreffix : string := "vmi_k8s_label_".
Definition annotationPreffix : string := "vmi_k8s_annotation_".

(** The body shared by the two metadata loops of [updateMemory] (the one
    over [vmi.Labels] with [labelPreffix], the one over [vmi.Annotations]
    with [annotationPreffix]).  The local variables are, in this order,
    [memoryResidentLabelValues], [memoryAvailableLabelsValues],
    [swapTrafficInLabelsValues] and [swapTrafficOutLabelsValues]. *)
Definition memoryAppend (preffix : string) (kv : string * string)
    (locals : list string * list string * list string * list string)
  : M (list string * list string * list string * list string) :=
  let '(label, val) := kv in
  let '(resident, available, swapIn, swapOut) := locals in
  appendLabel memoryResident (preffix +:+ strings.Replace labelFormatter label) ;;
  appendLabel memoryAvailable (preffix +:+ strings.Replace labelFormatter label) ;;
  appendLabel swapTraffic (preffix +:+ strings.Replace labelFormatter label) ;;
  mret (resident ++ [val], available ++ [val], swapIn ++ [val], swapOut ++ [val]).

Definition updateMemory (vmi : VirtualMachineInstance) (vmStats : DomainStats) : M unit :=
  setLabels memoryResident ["node"; "namespace"; "name"] ;;
  setLabels memoryAvailable ["node"; "namespace"; "name"] ;;
  setLabels swapTraffic ["node"; "namespace"; "name"; "type"] ;;
  let memoryResidentLabelValues := [NodeName (Status vmi); Namespace vmi; k6tv1.Name vmi] in
  let memoryAvailableLabelsValues := [NodeName (Status vmi); Namespace vmi; k6tv1.Name vmi] in
  let swapTrafficInLabelsValues := [NodeName (Status vmi); Namespace vmi; k6tv1.Name vmi; "in"] in
  let swapTrafficOutLabelsValues := [NodeName (Status vmi); Namespace vmi; k6tv1.Name vmi; "out"] in
  locals ← rangeMap (Labels vmi)
             (memoryResidentLabelValues, memoryAvailableLabelsValues,
              swapTrafficInLabelsValues, swapTrafficOutLabelsValues)
             (memoryAppend labelPreffix) ;
  locals ← rangeMap (Annotations vmi) locals (memoryAppend annotationPreffix) ;
  let '(memoryResidentLabelValues, memoryAvailableLabelsValues,
        swapTrafficInLabelsValues, swapTrafficOutLabelsValues) := locals in
  setNewDesc memoryResident "kubevirt_vmi_memory_resident_bytes"
             "resident set size of the process running the domain" ;;
  setNewDesc memoryAvailable "kubevirt_vmi_memory_available_bytes"
             "amount of usable memory as seen by the domain." ;;
  setNewDesc swapTraffic "kubevirt_vmi_memory_swap_traffic_bytes_total"
             "swap memory traffic." ;;
  pushIf (RSSSet (Memory vmStats)) memoryResident GaugeValue
         (float64 (RSS (Memory vmStats)) * 1024) memoryResidentLabelValues ;;
  pushIf (AvailableSet (Memory vmStats)) memoryAvailable GaugeValue
         (float64 (Available (Memory vmStats)) * 1024) memoryAvailableLabelsValues ;;
  pushIf (SwapInSet (Memory vmStats)) swapTraffic GaugeValue
         (float64 (SwapIn (Memory vmStats)) * 1024) swapTrafficInLabelsValues ;;
  pushIf (SwapOutSet (Memory vmStats)) swapTraffic GaugeValue
         (float64 (SwapOut (Memory vmStats)) * 1024) swapTrafficOutLabelsValues.

(** The body of the two metadata loops of [updateVcpu]; the local variable
    is [vcpuUsageLabelsValues]. *)
Definition vcpuAppend (preffix : string) (kv : string * string)
    (vcpuUsageLabelsValues : list string) : M (list string) :=
  let '(label, val) := kv in
  appendLabel vcpuUsage (preffix +:+ strings.Replace labelFormatter label) ;;
  mret (vcpuUsageLabelsValues ++ [val]).

Definition updateVcpu (vmi : VirtualMachineInstance) (vmStats : DomainStats) : M unit :=
  forRange (Vcpu vmStats) (fun vcpuId vcpu =>
    setLabels vcpuUsage ["node"; "namespace"; "name"; "id"; "state"] ;;
    let vcpuUsageLabelsValues :=
      [NodeName (Status vmi); Namespace vmi; k6tv1.Name vmi;
       Sprintf_v (Z.of_nat vcpuId); Sprintf_v (State vcpu)] in
    vcpuUsageLabelsValues ←
      rangeMap (Labels vmi) vcpuUsageLabelsValues (vcpuAppend labelPreffix) ;
    vcpuUsageLabelsValues ←
      rangeMap (Annotations vmi) vcpuUsageLabelsValues (vcpuAppend annotationPreffix) ;
    setNewDesc vcpuUsage "kubevirt_vmi_vcpu_seconds" "Vcpu elapsed time." ;;
    if negb (StateSet vcpu) || negb (TimeSet vcpu) then
      logf (Some 4%nat) WARNING "State or time not set for vcpu"
    else
      push vcpuUsage GaugeValue (float64 (Time vcpu / 1000000000))
           vcpuUsageLabelsValues).

(** The six label-value slices of one block device, in the order of their
    declaration: iops read and write, traffic read and write, times read
    and write. *)
Record BlockValues := mkBlockValues {
  storageIopsReadLabelsValues : list string;
  storageIopsWriteLabelsValues : list string;
  storageTrafficReadLabelsValues : list string;
  storageTrafficWriteLabelsValues : list string;
  storageTimesReadLabelsValues : list string;
  storageTimesWriteLabelsValues : list string
}.

(** The body of the two metadata loops of [updateBlock].  As in the source,
    the iops write values are assigned [append(storageIopsReadLabelsValues, val)],
    where [storageIopsReadLabelsValues] has just been extended.  (That
    [append] may write into the spare capacity of the read slice's array;
    the read slice keeps its length, and the next turn overwrites that
    cell before the write slice is assigned again, so the slices hold the
    lists computed here whenever they are read.) *)
Definition blockAppend (preffix : string) (kv : string * string)
    (l : BlockValues) : M BlockValues :=
  let '(label, val) := kv in
  appendLabel storageIops (preffix +:+ strings.Replace labelFormatter label) ;;
  let storageIopsReadLabelsValues' := storageIopsReadLabelsValues l ++ [val] in
  let storageIopsWriteLabelsValues' := storageIopsReadLabelsValues' ++ [val] in
  appendLabel storageTraffic (preffix +:+ strings.Replace labelFormatter label) ;;
  let storageTrafficReadLabelsValues' := storageTrafficReadLabelsValues l ++ [val] in
  let storageTrafficWriteLabelsValues' := storageTrafficWriteLabelsValues l ++ [val] in
  appendLabel storageTimes (preffix +:+ strings.Replace labelFormatter label) ;;
  let storageTimesReadLabelsValues' := storageTimesReadLabelsValues l ++ [val] in
  let storageTimesWriteLabelsValues' := storageTimesWriteLabelsValues l ++ [val] in
  mret (mkBlockValues storageIopsReadLabelsValues' storageIopsWriteLabelsValues'
          storageTrafficReadLabelsValues' storageTrafficWriteLabelsValues'
          storageTimesReadLabelsValues' storageTimesWriteLabelsValues').

Definition updateBlock (vmi : VirtualMachineInstance) (vmStats : DomainStats) : M unit :=
  forRange (Block vmStats) (fun blockId block =>
    setLabels storageIops ["node"; "namespace"; "name"; "drive"; "type"] ;;
    setLabels storageTraffic ["node"; "namespace"; "name"; "drive"; "type"] ;;
    setLabels storageTimes ["node"; "namespace"; "name"; "drive"; "type"] ;;
    let common := [NodeName (Status vmi); Namespace vmi; k6tv1.Name vmi; Block.Name block] in
    let values :=
      mkBlockValues (common ++ ["read"]) (common ++ ["write"])
                    (common ++ ["read"]) (common ++ ["write"])
                    (common ++ ["read"]) (common ++ ["write"]) in
    values ← rangeMap (Labels vmi) values (blockAppend labelPreffix) ;
    values ← rangeMap (Annotations vmi) values (blockAppend annotationPreffix) ;
    setNewDesc storageIops "kubevirt_vmi_storage_iops_total" "I/O operation performed." ;;
    setNewDesc storageTraffic "kubevirt_vmi_storage_traffic_bytes_total" "storage traffic." ;;
    setNewDesc storageTimes "kubevirt_vmi_storage_times_ms_total" "storage operation time." ;;
    if negb (Block.NameSet block) then
      logf (Some 4%nat) WARNING "Name not set for block device"
    else
      pushIf (Block.RdReqsSet block) storageIops CounterValue
             (float64 (Block.RdReqs block)) (storageIopsReadLabelsValues values) ;;
      pushIf (Block.WrReqsSet block) storageIops CounterValue
             (float64 (Block.WrReqs block)) (storageIopsWriteLabelsValues values) ;;
      pushIf (Block.RdBytesSet block) storageTraffic CounterValue
             (float64 (Block.RdBytes block)) (storageTrafficReadLabelsValues values) ;;
      pushIf (Block.WrBytesSet block) storageTraffic CounterValue
             (float64 (Block.WrBytes block)) (storageTrafficWriteLabelsValues values) ;;
      pushIf (Block.RdTimesSet block) storageTimes CounterValue
             (float64 (Block.RdTimes block)) (storageTimesReadLabelsValues values) ;;
      pushIf (Block.WrTimesSet block) storageTimes CounterValue
             (float64 (Block.WrTimes block)) (storageTimesWriteLabelsValues values)).

(** The six label-value slices of one network interface: traffic bytes rx
    and tx, traffic packets rx and tx, errors rx and tx. *)
Record NetValues := mkNetValues {
  networkTrafficBytesRxLabelsValues : list string;
  networkTrafficBytesTxLabelsValues : list string;
  networkTrafficPktsRxLabelsValues : list string;
  networkTrafficPktsTxLabelsValues : list string;
  networkErrorsRxLabelsValues : list string;
  networkErrorsTxLabelsValues : list string
}.

(** The body of the two metadata loops of [updateNetwork]. *)
Definition netAppend (preffix : string) (kv : string * string)
    (l : NetValues) : M NetValues :=
  let '(label, val) := kv in
  appendLabel networkTrafficBytes (preffix +:+ strings.Replace labelFormatter label) ;;
  appendLabel networkTrafficPkts (preffix +:+ strings.Replace labelFormatter label) ;;
  appendLabel networkErrors (preffix +:+ strings.Replace labelFormatter label) ;;
  mret (mkNetValues (networkTrafficBytesRxLabelsValues l ++ [val])
                    (networkTrafficBytesTxLabelsValues l ++ [val])
                    (networkTrafficPktsRxLabelsValues l ++ [val])
                    (networkTrafficPktsTxLabelsValues l ++ [val])
                    (networkErrorsRxLabelsValues l ++ [val])
                    (networkErrorsTxLabelsValues l ++ [val])).

Definition updateNetwork (vmi : VirtualMachineInstance) (vmStats : DomainStats) : M unit :=
  forRange (Net vmStats) (fun _ net =>
    setLabels networkTrafficBytes ["node"; "namespace"; "name"; "interface"; "type"] ;;
    setLabels networkTrafficPkts ["node"; "namespace"; "name"; "interface"; "type"] ;;
    setLabels networkErrors ["node"; "namespace"; "name"; "interface"; "type"] ;;
    let common := [NodeName (Status vmi); Namespace vmi; k6tv1.Name vmi; Net.Name net] in
    let values :=
      mkNetValues (common ++ ["rx"]) (common ++ ["tx"])
                  (common ++ ["rx"]) (common ++ ["tx"])
                  (common ++ ["rx"]) (common ++ ["tx"]) in
    values ← rangeMap (Labels vmi) values (netAppend labelPreffix) ;
    values ← rangeMap (Annotations vmi) values (netAppend annotationPreffix) ;
    setNewDesc networkTrafficBytes "kubevirt_vmi_network_traffic_bytes_total" "network traffic." ;;
    setNewDesc networkTrafficPkts "kubevirt_vmi_network_traffic_packets_total" "network traffic." ;;
    setNewDesc networkErrors "kubevirt_vmi_network_errors_total" "network errors." ;;
    if negb (Net.NameSet net) then mret tt
    else
      pushIf (Net.RxBytesSet net) networkTrafficBytes CounterValue
             (float64 (Net.RxBytes net)) (networkTrafficBytesRxLabelsValues values) ;;
      pushIf (Net.RxPktsSet net) networkTrafficPkts CounterValue
             (float64 (Net.RxPkts net)) (networkTrafficPktsRxLabelsValues values) ;;
      pushIf (Net.RxErrsSet net) networkErrors CounterValue
             (float64 (Net.RxErrs net)) (networkErrorsRxLabelsValues values) ;;
      pushIf (Net.TxBytesSet net) networkTrafficBytes CounterValue
             (float64 (Net.TxBytes net)) (networkTrafficBytesTxLabelsValues values) ;;
      pushIf (Net.TxPktsSet net) networkTrafficPkts CounterValue
             (float64 (Net.TxPkts net)) (networkTrafficPktsTxLabelsValues values) ;;
      pushIf (Net.TxErrsSet net) networkErrors CounterValue
             (float64 (Net.TxErrs net)) (networkErrorsTxLabelsValues values)).

(** [phasesMap[k] += 1] on a [map[string]uint64]. *)
Definition incr (k : string) (phasesMap : gmap string Z) : gmap string Z :=
  <[k := (default 0 (phasesMap !! k) + 1) mod 2 ^ 64]> phasesMap.

Definition makeVMIsPhasesMap (vmis : list VirtualMachineInstance) : gmap string Z :=
  fold_left (fun phasesMap vmi => incr (strings.ToLower (Phase (Status vmi))) phasesMap)
            vmis ∅.

Definition updateVMIsPhase (nodeName : string) (vmis : list VirtualMachineInstance) : M unit :=
  let phasesMap := makeVMIsPhasesMap vmis in
  forRange (map_to_list phasesMap) (fun _ '(phase, count) =>
    match NewConstMetric vmiCountDesc GaugeValue (float64 count) [nodeName; phase] with
    | inr _ => mret tt
    | inl mv => send mv
    end).

(** ** What the collector is given from outside *)

Inductive error := mkError (msg : string).

Module version.
Record Info := { GoVersion : string; GitVersion : string }.
End version.

(** The command client of one launcher: the result of its
    [GetDomainStats()] ([stats], [exists], or an error). *)
Record LauncherClient := {
  GetDomainStats : DomainStats * bool + error
}.

Definition vmiSocketMap := gmap string VirtualMachineInstance.

(** The [metricsScraper] capability handed to the scheduler. *)
Definition metricsScraper := string -> VirtualMachineInstance -> M unit.

(** [recover()] in a deferred function: a panic of the body ends the body,
    the handler runs on the state reached, and the function returns. *)
Definition deferRecover (handler : string -> M unit) (body : M unit) : M unit :=
  fun s =>
    match body s with
    | Returned _ s' => Returned tt s'
    | Panicked r s' => handler r s'
    end.

Section Collector.

(** [version.Get()]: the build information. *)
Variable version_Get : version.Info.

(** [collectionTimeout], a constant of the package declared next to the
    scheduler, as a [time.Duration] (nanoseconds). *)
Variable collectionTimeout : Z.

(** [cmdclient.FindSocketOnHost] and [cmdclient.NewClient]. *)
Variable FindSocketOnHost : VirtualMachineInstance -> string + error.
Variable NewClient : string -> LauncherClient + error.

(** [time.Now().Sub(ts)] in the [Scrape] of a socket: the time that
    connecting and fetching the statistics took. *)
Variable elapsedOn : string -> Z.

Definition Second : Z := 1000000000.

Definition statsMaxAge : Z := collectionTimeout + 2 * Second.

Definition updateVersion : M unit :=
  let verinfo := version_Get in
  match NewConstMetric versionDesc GaugeValue 1
          [version.GoVersion verinfo; version.GitVersion verinfo] with
  | inr _ => fun s => Panicked "MustNewConstMetric" s
  | inl mv => send mv
  end.

(** The scheduler [concurrentCollector.Collect(socketToVMIs, scraper,
    timeout)], whose code lives in another file of the package. *)
Definition concurrentCollector :=
  vmiSocketMap -> metricsScraper -> Z -> M unit.

Record Collector := {
  virtCli : string -> list VirtualMachineInstance + error;
  virtShareDir : string;
  nodeName : string;
  concCollector : concurrentCollector
}.

Definition newvmiSocketMapFromVMIs (baseDir : string)
    (vmis : list VirtualMachineInstance) : vmiSocketMap :=
  if Nat.eqb (length vmis) 0 then ∅
  else
    fold_left (fun ret vmi =>
                 match FindSocketOnHost vmi with
                 | inr _ => ret
                 | inl socketPath => <[socketPath := vmi]> ret
                 end) vmis ∅.

Definition Report (socketFile : string) (vmi : VirtualMachineInstance)
    (vmStats : DomainStats) : M unit :=
  deferRecover
    (fun _ => logf (Some 2%nat) WARNING "collector goroutine panicked for VM")
    (updateMemory vmi vmStats ;;
     updateVcpu vmi vmStats ;;
     updateBlock vmi vmStats ;;
     updateNetwork vmi vmStats).

(** [cli.Close()] is deferred after a successful connect; it does not
    touch the sink, the log or the package variables. *)
Definition Scrape (socketFile : string) (vmi : VirtualMachineInstance) : M unit :=
  match NewClient socketFile with
  | inr _ => logf None ERROR "failed to connect to cmd client socket"
  | inl cli =>
      match GetDomainStats cli with
      | inr _ => logf None ERROR "failed to update stats from socket"
      | inl (vmStats, exists_) =>
          if negb exists_ || String.eqb (stats.Name vmStats) "" then
            logf (Some 2%nat) INFO "disappearing VM, ignored"
          else
            let elapsed := elapsedOn socketFile in
            if elapsed >? statsMaxAge then
              logf None INFO "took too long to collect stats: ignored"
            else Report socketFile vmi vmStats
      end
  end.

Definition Collect (co : Collector) : M unit :=
  updateVersion ;;
  match virtCli co (nodeName co) with
  | inr _ => logf None ERROR "failed to list all VMIs"
  | inl vmis =>
      if Nat.eqb (length vmis) 0 then logf (Some 4%nat) INFO "No VMIs detected"
      else
        let socketToVMIs := newvmiSocketMapFromVMIs (virtShareDir co) vmis in
        let scraper := Scrape in
        concCollector co socketToVMIs scraper collectionTimeout ;;
        updateVMIsPhase (nodeName co) vmis
  end.

End Collector.

(** ** Observing a run *)

(** The samples a computation delivers to the sink when started in [s]. *)
Definition emitted {A} (m : M A) (s : GoState) : list Metric :=
  drop (length (sent (ch s))) (sent (ch (stateOf (m s)))).

(** The log lines a computation writes when started in [s]. *)
Definition logged {A} (m : M A) (s : GoState) : list LogEntry :=
  drop (length (logs s)) (logs (stateOf (m s))).

Definition panicked {A} (o : Outcome A) : bool :=
  match o with Panicked _ _ => true | Returned _ _ => false end.

Definition withPkg (h : PkgVars -> PkgVars) (s : GoState) : GoState :=
  mkState (h (pkg s)) (ch s) (logs s).

(** The sink is open and stays open. *)
Definition sinkOpen (s : GoState) : Prop := open_for (ch s) = None.

(** ** What the update functions compute, in closed form

    The metadata loops append one label name per metadata entry; the
    descriptor and the samples of a call depend on the VMI and the
    statistics only.  The definitions below say what they are; the lemmas
    after them prove that the update functions compute exactly that. *)

Definition dynName (preffix : string) (kv : string * string) : string :=
  preffix +:+ strings.Replace labelFormatter kv.1.

Definition dynLabels (vmi : VirtualMachineInstance) : list string :=
  (dynName labelPreffix <$> map_to_list (Labels vmi)) ++
  (dynName annotationPreffix <$> map_to_list (Annotations vmi)).

Definition dynValues (vmi : VirtualMachineInstance) : list string :=
  (map_to_list (Labels vmi)).*2 ++ (map_to_list (Annotations vmi)).*2.

Definition labelsFor (f : Family) (vmi : VirtualMachineInstance) : list string :=
  baseLabels f ++ dynLabels vmi.

Definition descFor (f : Family) (vmi : VirtualMachineInstance) : Desc :=
  NewDesc (familyName f) (familyHelp f) (labelsFor f vmi).

Definition freshVar (f : Family) (vmi : VirtualMachineInstance) : Var :=
  mkVar (labelsFor f vmi) (descFor f vmi).

Definition setVar (f : Family) (v : Var) (g : PkgVars) : PkgVars :=
  upd f (fun _ => v) g.

(** The package variables of the families [fs] overwritten with what a call
    for [vmi] leaves in them. *)
Definition refresh (fs : list Family) (vmi : VirtualMachineInstance)
    (g : PkgVars) : PkgVars :=
  foldr (fun f g => setVar f (freshVar f vmi) g) g fs.

Definition memoryFamilies : list Family := [memoryResident; memoryAvailable; swapTraffic].
Definition vcpuFamilies : list Family := [vcpuUsage].
Definition blockFamilies : list Family := [storageIops; storageTraffic; storageTimes].
Definition netFamilies : list Family :=
  [networkTrafficBytes; networkTrafficPkts; networkErrors].

(** What a function does to the sink and the log, step by step.
    [EvRefused e] is a sample that the metrics library refused with [e]:
    the warning it leaves prints the package variable [memoryAvailableDesc]
    as it is when the event is played. *)
Inductive Event :=
| EvSend (mv : Metric)
| EvLog (e : LogEntry)
| EvRefused (e : Error).

(** The warning of [tryToPushMetric] when [memoryAvailableDesc] holds [d]. *)
Definition refusal (d : Desc) (e : Error) : LogEntry :=
  mkLogOf (Some 4%nat) WARNING "Error creating the new const metric for %s: %s"
    [OpDesc d; OpError e].

Fixpoint play (evs : list Event) : M unit :=
  match evs with
  | [] => mret tt
  | EvSend mv :: evs' => send mv ;; play evs'
  | EvLog e :: evs' =>
      logfOf (verbosity e) (severity e) (message e) (operands e) ;; play evs'
  | EvRefused e :: evs' =>
      (memoryAvailableDesc ← readDesc memoryAvailable ;
       logfOf (Some 4%nat) WARNING "Error creating the new const metric for %s: %s"
         [OpDesc memoryAvailableDesc; OpError e]) ;;
      play evs'
  end.

Definition sends (evs : list Event) : list Metric :=
  omap (fun e => match e with EvSend mv => Some mv | _ => None end) evs.

Definition pushEvent (d : Desc) (t : ValueType) (v : Z) (values : list string) : Event :=
  match NewConstMetric d t v values with
  | inl mv => EvSend mv
  | inr e => EvRefused e
  end.

Definition pushEventIf (set : bool) (d : Desc) (t : ValueType) (v : Z)
    (values : list string) : list Event :=
  if set then [pushEvent d t v values] else [].

Fixpoint eventsFrom {A} (i : nat) (l : list A) (ev : nat -> A -> list Event) : list Event :=
  match l with
  | [] => []
  | x :: l' => ev i x ++ eventsFrom (S i) l' ev
  end.

Definition vmiValues (vmi : VirtualMachineInstance) : list string :=
  [NodeName (Status vmi); Namespace vmi; k6tv1.Name vmi].

Definition memoryEvents (vmi : VirtualMachineInstance) (vmStats : DomainStats) : list Event :=
  pushEventIf (RSSSet (Memory vmStats)) (descFor memoryResident vmi) GaugeValue
    (float64 (RSS (Memory vmStats)) * 1024) (vmiValues vmi ++ dynValues vmi) ++
  pushEventIf (AvailableSet (Memory vmStats)) (descFor memoryAvailable vmi) GaugeValue
    (float64 (Available (Memory vmStats)) * 1024) (vmiValues vmi ++ dynValues vmi) ++
  pushEventIf (SwapInSet (Memory vmStats)) (descFor swapTraffic vmi) GaugeValue
    (float64 (SwapIn (Memory vmStats)) * 1024) ((vmiValues vmi ++ ["in"]) ++ dynValues vmi) ++
  pushEventIf (SwapOutSet (Memory vmStats)) (descFor swapTraffic vmi) GaugeValue
    (float64 (SwapOut (Memory vmStats)) * 1024) ((vmiValues vmi ++ ["out"]) ++ dynValues vmi).

Definition vcpuEvents (vmi : VirtualMachineInstance) (vcpuId : nat)
    (vcpu : DomainStatsVcpu) : list Event :=
  if negb (StateSet vcpu) || negb (TimeSet vcpu) then
    [EvLog (mkLog (Some 4%nat) WARNING "State or time not set for vcpu")]
  else
    [pushEvent (descFor vcpuUsage vmi) GaugeValue (float64 (Time vcpu / 1000000000))
       ((vmiValues vmi ++ [Sprintf_v (Z.of_nat vcpuId); Sprintf_v (State vcpu)])
        ++ dynValues vmi)].

(** The iops write values after the metadata loops: untouched without
    metadata, otherwise the read values followed by the value appended
    last, once more. *)
Definition iopsWriteValues (vmi : VirtualMachineInstance) (drive : string) : list string :=
  match last (dynValues vmi) with
  | None => vmiValues vmi ++ [drive; "write"]
  | Some v => ((vmiValues vmi ++ [drive; "read"]) ++ dynValues vmi) ++ [v]
  end.

Definition blockEvents (vmi : VirtualMachineInstance) (blockId : nat)
    (block : Block.DomainStatsBlock) : list Event :=
  let rd := (vmiValues vmi ++ [Block.Name block; "read"]) ++ dynValues vmi in
  let wr := (vmiValues vmi ++ [Block.Name block; "write"]) ++ dynValues vmi in
  if negb (Block.NameSet block) then
    [EvLog (mkLog (Some 4%nat) WARNING "Name not set for block device")]
  else
    pushEventIf (Block.RdReqsSet block) (descFor storageIops vmi) CounterValue
      (float64 (Block.RdReqs block)) rd ++
    pushEventIf (Block.WrReqsSet block) (descFor storageIops vmi) CounterValue
      (float64 (Block.WrReqs block)) (iopsWriteValues vmi (Block.Name block)) ++
    pushEventIf (Block.RdBytesSet block) (descFor storageTraffic vmi) CounterValue
      (float64 (Block.RdBytes block)) rd ++
    pushEventIf (Block.WrBytesSet block) (descFor storageTraffic vmi) CounterValue
      (float64 (Block.WrBytes block)) wr ++
    pushEventIf (Block.RdTimesSet block) (descFor storageTimes vmi) CounterValue
      (float64 (Block.RdTimes block)) rd ++
    pushEventIf (Block.WrTimesSet block) (descFor storageTimes vmi) CounterValue
      (float64 (Block.WrTimes block)) wr.

Definition netEvents (vmi : VirtualMachineInstance) (_ : nat)
    (net : Net.DomainStatsNet) : list Event :=
  let rx := (vmiValues vmi ++ [Net.Name net; "rx"]) ++ dynValues vmi in
  let tx := (vmiValues vmi ++ [Net.Name net; "tx"]) ++ dynValues vmi in
  if negb (Net.NameSet net) then []
  else
    pushEventIf (Net.RxBytesSet net) (descFor networkTrafficBytes vmi) CounterValue
      (float64 (Net.RxBytes net)) rx ++
    pushEventIf (Net.RxPktsSet net) (descFor networkTrafficPkts vmi) CounterValue
      (float64 (Net.RxPkts net)) rx ++
    pushEventIf (Net.RxErrsSet net) (descFor networkErrors vmi) CounterValue
      (float64 (Net.RxErrs net)) rx ++
    pushEventIf (Net.TxBytesSet net) (descFor networkTrafficBytes vmi) CounterValue
      (float64 (Net.TxBytes net)) tx ++
    pushEventIf (Net.TxPktsSet net) (descFor networkTrafficPkts vmi) CounterValue
      (float64 (Net.TxPkts net)) tx ++
    pushEventIf (Net.TxErrsSet net) (descFor networkErrors vmi) CounterValue
      (float64 (Net.TxErrs net)) tx.

(** A loop over [l] whose every turn first overwrites package variables
    with [h] and then plays events: all its events, played after one
    overwrite; nothing at all for an empty [l]. *)
Definition playLoop {A} (l : list A) (h : PkgVars -> PkgVars)
    (ev : nat -> A -> list Event) : M unit :=
  match l with
  | [] => mret tt
  | _ => fun s => play (eventsFrom 0 l ev) (withPkg h s)
  end.

(** The log lines of the events when [memoryAvailableDesc] holds [d]. *)
Definition logLines (d : Desc) (evs : list Event) : list LogEntry :=
  omap (fun e => match e with
                 | EvLog e => Some e
                 | EvRefused e => Some (refusal d e)
                 | EvSend _ => None
                 end) evs.

(** The label names of the families [fs] extended by [names]. *)
Definition appendAll (fs : list Family) (names : list string) (g : PkgVars) : PkgVars :=
  foldr (fun f g => upd f (fun v => mkVar (varLabels v ++ names) (varDesc v)) g) g fs.

(** [m] does what playing [evs] does, from every state whose package
    variables are [g]. *)
Definition Plays (g : PkgVars) (m : M unit) (evs : list Event) : Prop :=
  forall s, pkg s = g -> m s = play evs s.

(** What can be seen of an outcome besides the package variables. *)
Definition observe {A} (o : Outcome A) : bool * Chan * list LogEntry :=
  (panicked o, ch (stateOf o), logs (stateOf o)).

(** What can be seen of an outcome on the sink: whether the run panicked,
    and the sink. *)
Definition sinkOf {A} (o : Outcome A) : bool * Chan :=
  (panicked o, ch (stateOf o)).

(** The six value slices of a block device after a metadata loop that
    appended [vals]. *)
Definition blockValuesAfter (l : BlockValues) (vals : list string) : BlockValues :=
  mkBlockValues
    (storageIopsReadLabelsValues l ++ vals)
    (match last vals with
     | None => storageIopsWriteLabelsValues l
     | Some v => (storageIopsReadLabelsValues l ++ vals) ++ [v]
     end)
    (storageTrafficReadLabelsValues l ++ vals)
    (storageTrafficWriteLabelsValues l ++ vals)
    (storageTimesReadLabelsValues l ++ vals)
    (storageTimesWriteLabelsValues l ++ vals).

Definition netValuesAfter (l : NetValues) (vals : list string) : NetValues :=
  mkNetValues
    (networkTrafficBytesRxLabelsValues l ++ vals)
    (networkTrafficBytesTxLabelsValues l ++ vals)
    (networkTrafficPktsRxLabelsValues l ++ vals)
    (networkTrafficPktsTxLabelsValues l ++ vals)
    (networkErrorsRxLabelsValues l ++ vals)
    (networkErrorsTxLabelsValues l ++ vals).

(** ** The optional fields of the statistics

    Each row: the "is set" flag, the metric family, the value of the
    discriminating label ([type]) if the family has one, and the raw
    number. *)

Definition memoryFields (m : DomainStatsMemory) : list (bool * Family * option string * Z) :=
  [(RSSSet m, memoryResident, None, RSS m);
   (AvailableSet m, memoryAvailable, None, Available m);
   (SwapInSet m, swapTraffic, Some "in", SwapIn m);
   (SwapOutSet m, swapTraffic, Some "out", SwapOut m)].

Definition blockFields (b : Block.DomainStatsBlock) : list (bool * Family * string * Z) :=
  [(Block.RdReqsSet b, storageIops, "read", Block.RdReqs b);
   (Block.WrReqsSet b, storageIops, "write", Block.WrReqs b);
   (Block.RdBytesSet b, storageTraffic, "read", Block.RdBytes b);
   (Block.WrBytesSet b, storageTraffic, "write", Block.WrBytes b);
   (Block.RdTimesSet b, storageTimes, "read", Block.RdTimes b);
   (Block.WrTimesSet b, storageTimes, "write", Block.WrTimes b)].

Definition netFields (n : Net.DomainStatsNet) : list (bool * Family * string * Z) :=
  [(Net.RxBytesSet n, networkTrafficBytes, "rx", Net.RxBytes n);
   (Net.RxPktsSet n, networkTrafficPkts, "rx", Net.RxPkts n);
   (Net.RxErrsSet n, networkErrors, "rx", Net.RxErrs n);
   (Net.TxBytesSet n, networkTrafficBytes, "tx", Net.TxBytes n);
   (Net.TxPktsSet n, networkTrafficPkts, "tx", Net.TxPkts n);
   (Net.TxErrsSet n, networkErrors, "tx", Net.TxErrs n)].

(** ** The specification's wording of some notions *)

(** Sanitizing a metadata key: each of [.], [/], [-] becomes [_]. *)
Definition sanitizeChar (c : ascii) : ascii :=
  if Ascii.eqb c "."%char || Ascii.eqb c "/"%char || Ascii.eqb c "-"%char
  then "_"%char else c.

Fixpoint sanitize (k : string) : string :=
  match k with
  | EmptyString => EmptyString
  | String c k' => String (sanitizeChar c) (sanitize k')
  end.

(** The dynamic label names of a VMI as the specification words them. *)
Definition metadataLabelNames (vmi : VirtualMachineInstance) : list string :=
  ((fun k => "vmi_k8s_label_" +:+ sanitize k) <$> (map_to_list (Labels vmi)).*1) ++
  ((fun k => "vmi_k8s_annotation_" +:+ sanitize k) <$> (map_to_list (Annotations vmi)).*1).

(** The number of listed VMIs whose lower-cased phase is [p]. *)
Definition countPhase (p : string) (vmis : list VirtualMachineInstance) : nat :=
  length (filter (fun vmi => strings.ToLower (Phase (Status vmi)) = p) vmis).

Definition phaseSample (nodeName phase : string) (count : Z) : Metric :=
  mkMetric vmiCountDesc GaugeValue count [nodeName; phase].

Definition versionSample (v : version.Info) : Metric :=
  mkMetric versionDesc GaugeValue 1 [version.GoVersion v; version.GitVersion v].

(** A computation that, on an open sink, returns normally, leaves the sink
    open and has only added samples to it. *)
Definition appends (m : M unit) : Prop :=
  forall s, sinkOpen s ->
    exists s', m s = Returned tt s' /\ sinkOpen s' /\
               sent (ch s) `prefix_of` sent (ch s').

(** What [Collect] relies on from the scheduler: run with a scraper whose
    tasks only add samples, it returns with the sink still open (the sink
    is closed by the caller of [Collect], after [Collect] has returned)
    and has itself only added samples. *)
Definition wellBehaved (sched : vmiSocketMap -> metricsScraper -> Z -> M unit) : Prop :=
  forall scr, (forall socketFile vmi, appends (scr socketFile vmi)) ->
    forall socketToVMIs timeout, appends (sched socketToVMIs scr timeout).

(** Modelled from the spec: [concurrentCollector.Collect], the bounded
    scrape scheduler, whose code is in another file of the package.  This
    is the run in which every task finishes within the deadline: one
    scrape task per (socket, VMI) pair of the socket map, whose samples
    all reach the sink before the scheduler returns. *)
Definition runAll : vmiSocketMap -> metricsScraper -> Z -> M unit :=
  fun socketToVMIs scraper _ =>
    forRange (map_to_list socketToVMIs) (fun _ '(socket, vmi) => scraper socket vmi).

(** ** Concrete inputs *)

Definition initState : GoState := mkState initPkg (mkChan [] None) [].

(** A sink that its owner has already closed. *)
Definition closedState : GoState := mkState initPkg (mkChan [] (Some 0%nat)) [].

Definition mkVMI (name phase : string) (labels annotations : gmap string string)
  : VirtualMachineInstance :=
  {| Namespace := "default"; k6tv1.Name := name;
     Labels := labels; Annotations := annotations;
     Status := {| NodeName := "node-a"; Phase := phase |} |}.

Definition plainVMI : VirtualMachineInstance := mkVMI "testvmi" "Running" ∅ ∅.

Definition labelledVMI : VirtualMachineInstance :=
  mkVMI "testvmi" "Running" {[ "kubernetes.io/foo" := "bar" ]} {[ "team-id" := "42" ]}.

(** Two label keys that sanitize to the same label name. *)
Definition collidingVMI : VirtualMachineInstance :=
  mkVMI "testvmi" "Running" {[ "a.b" := "1"; "a-b" := "2" ]} ∅.

Definition noMemory : DomainStatsMemory :=
  {| RSSSet := false; RSS := 0; AvailableSet := false; Available := 0;
     SwapInSet := false; SwapIn := 0; SwapOutSet := false; SwapOut := 0 |}.

Definition rssOnly (kib : Z) : DomainStatsMemory :=
  {| RSSSet := true; RSS := kib; AvailableSet := false; Available := 0;
     SwapInSet := false; SwapIn := 0; SwapOutSet := false; SwapOut := 0 |}.

Definition memoryStats (m : DomainStatsMemory) : DomainStats :=
  {| stats.Name := "testvmi"; Memory := m; Vcpu := []; Block := []; Net := [] |}.

Definition vcpuStats (ns : Z) : DomainStats :=
  {| stats.Name := "testvmi"; Memory := noMemory;
     Vcpu := [ {| StateSet := true; State := 1; TimeSet := true; Time := ns |} ];
     Block := []; Net := [] |}.

(** One block device with its name and the two request counters set. *)
Definition blockStats : DomainStats :=
  {| stats.Name := "testvmi"; Memory := noMemory; Vcpu := [];
     Block := [ {| Block.NameSet := true; Block.Name := "vda";
                   Block.RdReqsSet := true; Block.RdReqs := 5;
                   Block.WrReqsSet := true; Block.WrReqs := 7;
                   Block.RdBytesSet := false; Block.RdBytes := 0;
                   Block.WrBytesSet := false; Block.WrBytes := 0;
                   Block.RdTimesSet := false; Block.RdTimes := 0;
                   Block.WrTimesSet := false; Block.WrTimes := 0 |} ];
     Net := [] |}.

(** Resident memory of 2048 KiB and one vCPU that has run for 3 s. *)
Definition exampleStats : DomainStats :=
  {| stats.Name := "testvmi"; Memory := rssOnly 2048;
     Vcpu := [ {| StateSet := true; State := 1; TimeSet := true; Time := 3000000000 |} ];
     Block := []; Net := [] |}.

Definition buildInfo : version.Info :=
  {| version.GoVersion := "go1.13"; version.GitVersion := "v0.26.0" |}.

Definition threeVMIs : list VirtualMachineInstance :=
  [mkVMI "vm1" "Running" ∅ ∅; mkVMI "vm2" "Running" ∅ ∅; mkVMI "vm3" "Failed" ∅ ∅].

(** A collector whose directory lists [vmis] and whose scheduler is
    [runAll]; one whose directory query fails. *)
Definition collectorOf (vmis : list VirtualMachineInstance) : Collector :=
  {| virtCli := fun _ => inl vmis; virtShareDir := "/var/run/kubevirt";
     nodeName := "node-a"; concCollector := runAll |}.

Definition failingCollector : Collector :=
  {| virtCli := fun _ => inr (mkError "connection refused");
     virtShareDir := "/var/run/kubevirt";
     nodeName := "node-a"; concCollector := runAll |}.

(** Every launcher has a socket and answers, but only after 13 s. *)
Definition socketOf (vmi : VirtualMachineInstance) : string + error :=
  inl ("/var/run/kubevirt/sockets/" +:+ k6tv1.Name vmi).

Definition answeringClient (socketFile : string) : LauncherClient + error :=
  inl {| GetDomainStats := inl (exampleStats, true) |}.

(** A launcher that answers with a record in which no statistic is set. *)
Definition quietClient (socketFile : string) : LauncherClient + error :=
  inl {| GetDomainStats := inl (memoryStats noMemory, true) |}.

Definition tenSeconds : Z := 10 * Second.
Definition thirteenSeconds (socketFile : string) : Z := 13 * Second.

(** ** Further definitions: the rest of the package *)

(** [Describe(ch chan<- *prometheus.Desc)]: the descriptors it sends, in
    order, on a descriptor channel that takes them.  All but the first are
    read from the package variables at the time of the call. *)
Definition Describe (s : GoState) : list Desc :=
  [versionDesc;
   varDesc (get storageIops (pkg s));
   varDesc (get storageTraffic (pkg s));
   varDesc (get storageTimes (pkg s));
   varDesc (get vcpuUsage (pkg s));
   varDesc (get networkTrafficBytes (pkg s));
   varDesc (get networkTrafficPkts (pkg s));
   varDesc (get networkErrors (pkg s));
   varDesc (get memoryAvailable (pkg s));
   varDesc (get memoryResident (pkg s))].

(** The bytes that [labelFormatter] replaces. *)
Definition isReplaced (c : ascii) : bool :=
  Ascii.eqb c "."%char || Ascii.eqb c "/"%char || Ascii.eqb c "-"%char.

(** The bytes of a Kubernetes qualified name (a metadata key): letters,
    digits, [-], [_], [.] and [/]. *)
Definition isKeyChar (c : ascii) : bool :=
  isLetter c || isDigit c || isReplaced c.

Definition wellFormedKeys (m : gmap string string) : Prop :=
  forall k, is_Some (m !! k) -> allChars isKeyChar k = true.

(** The keys of a metadata map in the order of [range]. *)
Definition rangeKeys (m : gmap string string) : list string := (map_to_list m).*1.

(** Everything [Report] tries to do to the sink and the log, in order. *)
Definition reportEvents (vmi : VirtualMachineInstance) (vmStats : DomainStats) : list Event :=
  memoryEvents vmi vmStats ++
  eventsFrom 0 (Vcpu vmStats) (vcpuEvents vmi) ++
  eventsFrom 0 (Block vmStats) (blockEvents vmi) ++
  eventsFrom 0 (Net vmStats) (netEvents vmi).

(** From every state whose [memoryAvailableDesc] is [d], [m] does to the
    sink and the log what playing [evs] does, and it leaves that variable
    as it is. *)
Definition Observes (d : Desc) (m : M unit) (evs : list Event) : Prop :=
  forall s, varDesc (get memoryAvailable (pkg s)) = d ->
    observe (m s) = observe (play evs s) /\
    varDesc (get memoryAvailable (pkg (stateOf (m s)))) = d.

(** The sample of one vCPU. *)
Definition vcpuSample (vmi : VirtualMachineInstance) (vcpuId : nat)
    (vcpu : DomainStatsVcpu) : Metric :=
  mkMetric (descFor vcpuUsage vmi) GaugeValue (float64 (Time vcpu / 1000000000))
    ([NodeName (Status vmi); Namespace vmi; k6tv1.Name vmi;
      Sprintf_v (Z.of_nat vcpuId); Sprintf_v (State vcpu)] ++ dynValues vmi).

(** Whether the resolver sends [vmi] to the socket [socketPath]. *)
Definition resolvesTo (find : VirtualMachineInstance -> string + error)
    (socketPath : string) (vmi : VirtualMachineInstance) : bool :=
  match find vmi with
  | inl p => String.eqb p socketPath
  | inr _ => false
  end.

(** The socket paths of the VMIs that resolve, in list order. *)
Definition resolvedSockets (find : VirtualMachineInstance -> string + error)
    (vmis : list VirtualMachineInstance) : list string :=
  omap (fun vmi => match find vmi with inl p => Some p | inr _ => None end) vmis.

(** The sum of the counts of a phase map. *)
Definition sumCounts (m : gmap string Z) : Z :=
  map_fold (fun _ count acc => count + acc) 0 m.

(** How many rows of a table of optional statistics have their flag set. *)
Definition countSet {B C D} (fields : list (bool * B * C * D)) : nat :=
  length (List.filter (fun row => row.1.1.1) fields).

(** The metric names of the package-level descriptors are those of the
    [var] block. *)
Definition namesKept (g : PkgVars) : Prop :=
  forall f, fqName (varDesc (get f g)) = familyName f.

(** A sample as the metrics library accepts it: a descriptor without error
    and as many label values as label names. *)
Definition wellFormed (mv : Metric) : Prop :=
  err (desc mv) = None /\ length (labelValues mv) = length (variableLabels (desc mv)).

Definition wellFormedEvent (e : Event) : Prop :=
  match e with EvSend mv => wellFormed mv | _ => True end.

(** The counter samples of one named block device or interface: one per
    row of its field table whose flag is set, in the order of the table,
    with the raw number as value and the device name and the direction
    after the node, namespace and name of the VMI. *)
Definition counterSamples (vmi : VirtualMachineInstance) (name : string)
    (fields : list (bool * Family * string * Z)) : list Metric :=
  omap (fun '(set, fam, dir, n) =>
          if set : bool
          then Some (mkMetric (descFor fam vmi) CounterValue (float64 n)
                       ([NodeName (Status vmi); Namespace vmi; k6tv1.Name vmi; name; dir]
                        ++ dynValues vmi))
          else None) fields.

(** Two interfaces: [eth0] with its received bytes and transmit errors
    set, and one without name whose counters are all set. *)
Definition netStats : DomainStats :=
  {| stats.Name := "testvmi"; Memory := noMemory; Vcpu := []; Block := [];
     Net := [ {| Net.NameSet := true; Net.Name := "eth0";
                 Net.RxBytesSet := true; Net.RxBytes := 100;
                 Net.RxPktsSet := false; Net.RxPkts := 0;
                 Net.RxErrsSet := false; Net.RxErrs := 0;
                 Net.TxBytesSet := false; Net.TxBytes := 0;
                 Net.TxPktsSet := false; Net.TxPkts := 0;
                 Net.TxErrsSet := true; Net.TxErrs := 3 |};
              {| Net.NameSet := false; Net.Name := "";
                 Net.RxBytesSet := true; Net.RxBytes := 1;
                 Net.RxPktsSet := true; Net.RxPkts := 1;
                 Net.RxErrsSet := true; Net.RxErrs := 1;
                 Net.TxBytesSet := true; Net.TxBytes := 1;
                 Net.TxPktsSet := true; Net.TxPkts := 1;
                 Net.TxErrsSet := true; Net.TxErrs := 1 |} ] |}.

(** The sum of the values of a list of samples. *)
Definition totalValue (l : list Metric) : Z :=
  foldr (fun mv acc => val mv + acc) 0 l.

(** The families whose descriptors [Describe] sends after [versionDesc],
    in its order. *)
Definition describedFamilies : list Family :=
  [storageIops; storageTraffic; storageTimes; vcpuUsage; networkTrafficBytes;
   networkTrafficPkts; networkErrors; memoryAvailable; memoryResident].

(** Whether a run of the four update functions over [vmStats] assigns the
    package variables of family [f]: [updateMemory] always assigns its
    three, the other functions assign theirs inside the loop body. *)
Definition assigned (vmStats : DomainStats) (f : Family) : bool :=
  match f with
  | memoryResident | memoryAvailable | swapTraffic => true
  | vcpuUsage => negb (Nat.eqb (length (Vcpu vmStats)) 0)
  | storageIops | storageTraffic | storageTimes =>
      negb (Nat.eqb (length (Block vmStats)) 0)
  | networkTrafficBytes | networkTrafficPkts | networkErrors =>
      negb (Nat.eqb (length (Net vmStats)) 0)
  end.

(** The statistics of a record that the update functions act on: every set
    memory field, every vCPU, every set counter of a named block device
    or interface, and every block device without name (which gets a
    warning; an interface without name is passed over silently). *)
Definition reportSteps (vmStats : DomainStats) : nat :=
  countSet (memoryFields (Memory vmStats)) +
  length (Vcpu vmStats) +
  sum_list ((fun block => if Block.NameSet block then countSet (blockFields block)
                          else 1%nat) <$> Block vmStats) +
  sum_list ((fun net => if Net.NameSet net then countSet (netFields net)
                        else 0%nat) <$> Net vmStats).

(** A record with a bit of everything: resident memory, one vCPU that is
    ready and one that is not, the block device of [blockStats] and one
    without name, and the interfaces of [netStats]. *)
Definition mixedStats : DomainStats :=
  {| stats.Name := "testvmi"; Memory := rssOnly 2048;
     Vcpu := [ {| StateSet := true; State := 1; TimeSet := true; Time := 3000000000 |};
               {| StateSet := false; State := 0; TimeSet := true; Time := 1 |} ];
     Block := Block blockStats ++
              [ {| Block.NameSet := false; Block.Name := "";
                   Block.RdReqsSet := true; Block.RdReqs := 1;
                   Block.WrReqsSet := true; Block.WrReqs := 1;
                   Block.RdBytesSet := true; Block.RdBytes := 1;
                   Block.WrBytesSet := true; Block.WrBytes := 1;
                   Block.RdTimesSet := true; Block.RdTimes := 1;
                   Block.WrTimesSet := true; Block.WrTimes := 1 |} ];
     Net := Net netStats |}.

(** An event of the update functions: a sample, or a warning at verbosity
    4. *)
Definition quietEvent (e : Event) : Prop :=
  match e with
  | EvSend _ | EvRefused _ => True
  | EvLog l => verbosity l = Some 4%nat
  end.

(** The samples of a table of optional memory statistics (in KiB): one
    gauge in bytes per row whose flag is set, in the order of the table;
    the swap rows carry their direction after the three base values. *)
Definition memorySamples (vmi : VirtualMachineInstance)
    (fields : list (bool * Family * option string * Z)) : list Metric :=
  omap (fun '(set, fam, dir, kib) =>
          if set : bool
          then Some (mkMetric (descFor fam vmi) GaugeValue (float64 kib * 1024)
                       (([NodeName (Status vmi); Namespace vmi; k6tv1.Name vmi]
                         ++ option_list dir) ++ dynValues vmi))
          else None) fields.

(** Resident memory of 2048 KiB and 16 KiB swapped out; the other two
    memory fields are not set. *)
Definition swapStats : DomainStats :=
  memoryStats {| RSSSet := true; RSS := 2048; AvailableSet := false; Available := 0;
                 SwapInSet := false; SwapIn := 0; SwapOutSet := true; SwapOut := 16 |}.

(** A sink that closes after two more samples. *)
Definition closingState : GoState := mkState initPkg (mkChan [] (Some 2%nat)) [].

(** The record [vmStats] under another name. *)
Definition withName (name : string) (vmStats : DomainStats) : DomainStats :=
  {| stats.Name := name; Memory := Memory vmStats; Vcpu := Vcpu vmStats;
     Block := Block vmStats; Net := Net vmStats |}.

(** A launcher that answers with the given record. *)
Definition clientWith (vmStats : DomainStats) (socketFile : string)
  : LauncherClient + error :=
  inl {| GetDomainStats := inl (vmStats, true) |}.

(** * Proofs *)

(** ** The monad and the event player *)

Lemma bind_run {A B} (m : M A) (k : A -> M B) s :
  (m ≫= k) s = match m s with
               | Returned a s' => k a s'
               | Panicked r s' => Panicked r s'
               end.
Proof. reflexivity. Qed.

Lemma play_app a b s : play (a ++ b) s = (play a ;; play b) s.
Proof.
  revert s. induction a as [|[mv|e|e] a IH]; intros s; simpl.
  - reflexivity.
  - rewrite !bind_run. destruct (send mv s); [apply IH | reflexivity].
  - rewrite !bind_run. simpl. apply IH.
  - rewrite !bind_run. simpl. apply IH.
Qed.

Lemma play_pkg evs s : pkg (stateOf (play evs s)) = pkg s.
Proof.
  revert s. induction evs as [|[mv|e|e] evs IH]; intros s; simpl; [reflexivity | | |].
  - rewrite bind_run. unfold send. destruct (open_for (ch s)) as [[|n]|]; simpl; [reflexivity | |];
      rewrite IH; reflexivity.
  - rewrite bind_run. simpl. rewrite IH. reflexivity.
  - rewrite bind_run. simpl. rewrite IH. reflexivity.
Qed.

Lemma play_open evs s :
  sinkOpen s ->
  play evs s =
  Returned tt (mkState (pkg s) (mkChan (sent (ch s) ++ sends evs) None)
                       (logs s ++ logLines (varDesc (get memoryAvailable (pkg s))) evs)).
Proof.
  unfold sinkOpen. revert s. induction evs as [|[mv|e|e] evs IH]; intros [g [snt o] l] Ho;
    simpl in *; subst o.
  - rewrite !app_nil_r. reflexivity.
  - rewrite bind_run. unfold send. simpl. rewrite IH by reflexivity. simpl.
    rewrite <- app_assoc. reflexivity.
  - rewrite bind_run. simpl. rewrite IH by reflexivity. simpl.
    rewrite <- app_assoc. destruct e; reflexivity.
  - rewrite bind_run. simpl. rewrite IH by reflexivity. simpl.
    rewrite <- app_assoc. reflexivity.
Qed.

Lemma play_sent evs s :
  exists k, sent (ch (stateOf (play evs s))) = sent (ch s) ++ take k (sends evs).
Proof.
  revert s. induction evs as [|[mv|e|e] evs IH]; intros s; simpl.
  - exists 0%nat. rewrite app_nil_r. reflexivity.
  - rewrite bind_run. unfold send. destruct (open_for (ch s)) as [[|n]|]; simpl.
    + exists 0%nat. rewrite app_nil_r. reflexivity.
    + destruct (IH (mkState (pkg s) (mkChan (sent (ch s) ++ [mv]) (Some n)) (logs s))) as [k Hk].
      exists (S k). rewrite Hk. simpl. rewrite <- app_assoc. reflexivity.
    + destruct (IH (mkState (pkg s) (mkChan (sent (ch s) ++ [mv]) None) (logs s))) as [k Hk].
      exists (S k). rewrite Hk. simpl. rewrite <- app_assoc. reflexivity.
  - rewrite bind_run. simpl. apply (IH (mkState _ _ _)).
  - rewrite bind_run. simpl. apply (IH (mkState _ _ _)).
Qed.

(** The sink and the panic of a run do not depend on the package
    variables or on the log at the start. *)
Lemma play_sink evs g g' c l l' :
  sinkOf (play evs (mkState g c l)) = sinkOf (play evs (mkState g' c l')).
Proof.
  revert c l l'. induction evs as [|[mv|e|e] evs IH]; intros c l l'; simpl;
    [reflexivity | | |].
  - rewrite !bind_run. unfold send. simpl. destruct (open_for c) as [[|n]|]; simpl;
      [reflexivity | apply IH | apply IH].
  - rewrite !bind_run. simpl. apply IH.
  - rewrite !bind_run. simpl. apply IH.
Qed.

(** The log lines depend on the package variables through
    [memoryAvailableDesc] only. *)
Lemma play_observe evs g g' c l :
  varDesc (get memoryAvailable g) = varDesc (get memoryAvailable g') ->
  observe (play evs (mkState g c l)) = observe (play evs (mkState g' c l)).
Proof.
  intros Hd. revert c l. induction evs as [|[mv|e|e] evs IH]; intros c l; cbn [play];
    [reflexivity | | |].
  - rewrite !bind_run. unfold send. simpl. destruct (open_for c) as [[|n]|]; simpl;
      [reflexivity | apply IH | apply IH].
  - rewrite !bind_run. simpl. apply IH.
  - rewrite !bind_run. unfold readDesc, logfOf. cbn [pkg ch logs]. rewrite Hd. apply IH.
Qed.

Lemma Plays_bind g m1 m2 e1 e2 :
  Plays g m1 e1 -> Plays g m2 e2 -> Plays g (m1 ;; m2) (e1 ++ e2).
Proof.
  intros H1 H2 s Hs. rewrite play_app, !bind_run, (H1 s Hs).
  pose proof (play_pkg e1 s) as Hp.
  destruct (play e1 s) as [[] s'|r s']; [|reflexivity].
  apply H2. simpl in Hp. congruence.
Qed.

Lemma Plays_ret g : Plays g (mret tt) [].
Proof. intros s _. reflexivity. Qed.

Lemma Plays_logf g v sev msg : Plays g (logf v sev msg) [EvLog (mkLog v sev msg)].
Proof. intros s _. reflexivity. Qed.

Lemma Plays_push g f t v values :
  Plays g (push f t v values) [pushEvent (varDesc (get f g)) t v values].
Proof.
  intros s <-. unfold push, pushEvent. rewrite bind_run. simpl.
  destruct (NewConstMetric _ _ _ _); simpl.
  - rewrite bind_run. destruct (send m s) as [[]|]; reflexivity.
  - reflexivity.
Qed.

Lemma Plays_pushIf g set f t v values :
  Plays g (pushIf set f t v values) (pushEventIf set (varDesc (get f g)) t v values).
Proof.
  destruct set; simpl; [apply Plays_push | apply Plays_ret].
Qed.

Lemma memoryAppend_loop preffix kvs rv av si so s :
  forRangeAcc kvs (rv, av, si, so) (memoryAppend preffix) s =
  Returned (rv ++ kvs.*2, av ++ kvs.*2, si ++ kvs.*2, so ++ kvs.*2)
    (withPkg (appendAll memoryFamilies (dynName preffix <$> kvs)) s).
Proof.
  revert rv av si so s.
  induction kvs as [|[k v] kvs IH]; intros rv av si so [[a b c d e i j mA mR sw] chn lg].
  - simpl. unfold withPkg. simpl. rewrite !app_nil_r.
    destruct mA, mR, sw. reflexivity.
  - simpl. rewrite bind_run. simpl. rewrite IH. unfold withPkg. simpl.
    rewrite <- !app_assoc. reflexivity.
Qed.

Ltac step :=
  rewrite bind_run;
  cbv beta iota delta [setLabels appendLabel setNewDesc modifyPkg upd pkg ch logs
                       withPkg appendAll memoryFamilies vcpuFamilies blockFamilies
                       netFamilies foldr varLabels varDesc].

Lemma Plays_run g m evs s : Plays g m evs -> pkg s = g -> m s = play evs s.
Proof. intros H Hs. apply H, Hs. Qed.

Ltac to_plays evs :=
  match goal with
  | |- ?m ?s1 = _ =>
      change (m s1 = play evs s1); apply (Plays_run (pkg s1)); [|reflexivity]
  end.

Lemma updateMemory_play vmi vmStats s :
  updateMemory vmi vmStats s =
  play (memoryEvents vmi vmStats) (withPkg (refresh memoryFamilies vmi) s).
Proof.
  destruct s as [[a b c d e i j mA mR sw] chn lg].
  destruct mA as [lA dA], mR as [lR dR], sw as [lS dS].
  unfold updateMemory, rangeMap.
  do 3 step.
  step. rewrite memoryAppend_loop.
  step. rewrite memoryAppend_loop.
  do 3 step.
  rewrite <- !app_assoc.
  to_plays (memoryEvents vmi vmStats).
  unfold memoryEvents.
  repeat apply Plays_bind; apply Plays_pushIf.
Qed.

Lemma refresh_idem fs vmi g :
  fs = memoryFamilies \/ fs = vcpuFamilies \/ fs = blockFamilies \/ fs = netFamilies ->
  refresh fs vmi (refresh fs vmi g) = refresh fs vmi g.
Proof. intros [->|[->|[->| ->]]]; destruct g; reflexivity. Qed.

Lemma forRangeFrom_play {A} (body : nat -> A -> M unit) h ev :
  (forall g, h (h g) = h g) ->
  (forall i x s, body i x s = play (ev i x) (withPkg h s)) ->
  forall l i s,
    forRangeFrom i l body s =
    match l with
    | [] => Returned tt s
    | _ => play (eventsFrom i l ev) (withPkg h s)
    end.
Proof.
  intros Hh Hb l. induction l as [|x l IH]; intros i s; [reflexivity|].
  simpl. rewrite bind_run, Hb, play_app, bind_run.
  pose proof (play_pkg (ev i x) (withPkg h s)) as Hp.
  destruct (play (ev i x) (withPkg h s)) as [[] s'|r s']; [|reflexivity].
  rewrite IH. destruct l as [|y l]; [reflexivity|].
  f_equal. destruct s' as [g' c' l']. simpl in Hp. subst g'.
  unfold withPkg. simpl. rewrite Hh. reflexivity.
Qed.

Lemma forRange_playLoop {A} (body : nat -> A -> M unit) h ev :
  (forall g, h (h g) = h g) ->
  (forall i x s, body i x s = play (ev i x) (withPkg h s)) ->
  forall l s, forRange l body s = playLoop l h ev s.
Proof.
  intros Hh Hb l s. unfold forRange. rewrite (forRangeFrom_play body h ev Hh Hb).
  destruct l; reflexivity.
Qed.

Lemma vcpuAppend_loop preffix kvs vals s :
  forRangeAcc kvs vals (vcpuAppend preffix) s =
  Returned (vals ++ kvs.*2)
    (withPkg (appendAll vcpuFamilies (dynName preffix <$> kvs)) s).
Proof.
  revert vals s.
  induction kvs as [|[k v] kvs IH]; intros vals [[a b c d e i j mA mR sw] chn lg].
  - simpl. unfold withPkg. simpl. rewrite !app_nil_r. destruct d. reflexivity.
  - simpl. rewrite bind_run. simpl. rewrite IH. unfold withPkg. simpl.
    rewrite <- !app_assoc. reflexivity.
Qed.

Lemma updateVcpu_play vmi vmStats s :
  updateVcpu vmi vmStats s =
  playLoop (Vcpu vmStats) (refresh vcpuFamilies vmi) (vcpuEvents vmi) s.
Proof.
  unfold updateVcpu. apply forRange_playLoop.
  - intros g. apply refresh_idem. tauto.
  - clear s. intros vcpuId vcpu s.
    destruct s as [[a b c d e i j mA mR sw] chn lg]. destruct d as [lV dV].
    unfold rangeMap.
    step. step. rewrite vcpuAppend_loop.
    step. rewrite vcpuAppend_loop.
    step. rewrite <- !app_assoc.
    to_plays (vcpuEvents vmi vcpuId vcpu).
    unfold vcpuEvents.
    destruct (negb (StateSet vcpu) || negb (TimeSet vcpu));
      [apply Plays_logf | apply Plays_push].
Qed.

Lemma last_step (r w : list string) v vals :
  match last vals with
  | None => (r ++ [v]) ++ [v]
  | Some x => ((r ++ [v]) ++ vals) ++ [x]
  end =
  match last (v :: vals) with
  | None => w
  | Some x => (r ++ v :: vals) ++ [x]
  end.
Proof.
  destruct vals as [|y vals]; [reflexivity|].
  change (last (v :: y :: vals)) with (last (y :: vals)).
  destruct (last (y :: vals)) eqn:E.
  - rewrite <- (app_assoc r [v]). reflexivity.
  - apply last_None in E. discriminate E.
Qed.

Lemma blockAppend_loop preffix kvs vals s :
  forRangeAcc kvs vals (blockAppend preffix) s =
  Returned (blockValuesAfter vals (kvs.*2))
    (withPkg (appendAll blockFamilies (dynName preffix <$> kvs)) s).
Proof.
  revert vals s.
  induction kvs as [|[k v] kvs IH]; intros [r1 w1 r2 w2 r3 w3] [[a b c d e i j mA mR sw] chn lg].
  - simpl. unfold withPkg, blockValuesAfter. simpl. rewrite !app_nil_r.
    destruct a, b, c. reflexivity.
  - simpl. rewrite bind_run. simpl. rewrite IH. unfold withPkg, blockValuesAfter. simpl.
    f_equal; [|rewrite <- !app_assoc; reflexivity].
    f_equal; try (rewrite <- app_assoc; reflexivity).
    apply last_step.
Qed.

Lemma netAppend_loop preffix kvs vals s :
  forRangeAcc kvs vals (netAppend preffix) s =
  Returned (netValuesAfter vals (kvs.*2))
    (withPkg (appendAll netFamilies (dynName preffix <$> kvs)) s).
Proof.
  revert vals s.
  induction kvs as [|[k v] kvs IH]; intros [r1 w1 r2 w2 r3 w3] [[a b c d e i j mA mR sw] chn lg].
  - simpl. unfold withPkg, netValuesAfter. simpl. rewrite !app_nil_r.
    destruct e, i, j. reflexivity.
  - simpl. rewrite bind_run. simpl. rewrite IH. unfold withPkg, netValuesAfter. simpl.
    rewrite <- !app_assoc. reflexivity.
Qed.

Lemma iopsWrite_after (rd wr l1 l2 : list string) :
  match last l2 with
  | None => match last l1 with None => wr | Some v => (rd ++ l1) ++ [v] end
  | Some v => ((rd ++ l1) ++ l2) ++ [v]
  end =
  match last (l1 ++ l2) with
  | None => wr
  | Some v => (rd ++ l1 ++ l2) ++ [v]
  end.
Proof.
  rewrite last_app. destruct (last l2) eqn:E2.
  - rewrite (app_assoc rd l1 l2). reflexivity.
  - apply last_None in E2. subst l2. rewrite !app_nil_r. reflexivity.
Qed.

Lemma updateBlock_play vmi vmStats s :
  updateBlock vmi vmStats s =
  playLoop (Block vmStats) (refresh blockFamilies vmi) (blockEvents vmi) s.
Proof.
  unfold updateBlock. apply forRange_playLoop.
  - intros g. apply refresh_idem. tauto.
  - clear s. intros blockId block s.
    destruct s as [[a b c d e i j mA mR sw] chn lg].
    destruct a as [l1 d1], b as [l2 d2], c as [l3 d3].
    unfold rangeMap.
    do 3 step. step. rewrite blockAppend_loop.
    step. rewrite blockAppend_loop.
    do 3 step.
    unfold blockValuesAfter; cbv beta iota delta
      [storageIopsReadLabelsValues storageIopsWriteLabelsValues
       storageTrafficReadLabelsValues storageTrafficWriteLabelsValues
       storageTimesReadLabelsValues storageTimesWriteLabelsValues].
    rewrite iopsWrite_after.
    rewrite <- !app_assoc.
    to_plays (blockEvents vmi blockId block).
    unfold blockEvents, iopsWriteValues, dynValues.
    destruct (negb (Block.NameSet block)); [apply Plays_logf|].
    repeat apply Plays_bind; apply Plays_pushIf.
Qed.

Lemma updateNetwork_play vmi vmStats s :
  updateNetwork vmi vmStats s =
  playLoop (Net vmStats) (refresh netFamilies vmi) (netEvents vmi) s.
Proof.
  unfold updateNetwork. apply forRange_playLoop.
  - intros g. apply refresh_idem. tauto.
  - clear s. intros netId net s.
    destruct s as [[a b c d e i j mA mR sw] chn lg].
    destruct e as [l1 d1], i as [l2 d2], j as [l3 d3].
    unfold rangeMap.
    do 3 step. step. rewrite netAppend_loop.
    step. rewrite netAppend_loop.
    do 3 step.
    unfold netValuesAfter; cbv beta iota delta
      [networkTrafficBytesRxLabelsValues networkTrafficBytesTxLabelsValues
       networkTrafficPktsRxLabelsValues networkTrafficPktsTxLabelsValues
       networkErrorsRxLabelsValues networkErrorsTxLabelsValues].
    rewrite <- !app_assoc.
    to_plays (netEvents vmi netId net).
    unfold netEvents, dynValues.
    destruct (negb (Net.NameSet net)); [apply Plays_ret|].
    repeat apply Plays_bind; apply Plays_pushIf.
Qed.

(** *** What reaches the sink *)

Lemma emitted_play evs s : exists k, emitted (play evs) s = take k (sends evs).
Proof.
  destruct (play_sent evs s) as [k Hk]. exists k.
  unfold emitted. rewrite Hk, drop_app_length. reflexivity.
Qed.

Lemma emitted_play_open evs s : sinkOpen s -> emitted (play evs) s = sends evs.
Proof.
  intros Ho. unfold emitted. rewrite play_open by exact Ho. simpl.
  apply drop_app_length.
Qed.

Lemma emitted_playLoop {A} (l : list A) h ev s :
  exists k, emitted (playLoop l h ev) s = take k (sends (eventsFrom 0 l ev)).
Proof.
  destruct l as [|x l].
  - exists 0%nat. unfold emitted. simpl. rewrite drop_all. reflexivity.
  - apply (emitted_play _ (withPkg h s)).
Qed.

Lemma sends_app a b : sends (a ++ b) = sends a ++ sends b.
Proof. apply omap_app. Qed.

Lemma sends_pushEventIf set d t v values mv :
  mv ∈ sends (pushEventIf set d t v values) ->
  set = true /\ mv = mkMetric d t v values /\ err d = None /\
  length values = length (variableLabels d).
Proof.
  unfold pushEventIf, pushEvent, NewConstMetric. destruct set; simpl; [|inversion 1].
  destruct (err d); simpl; [inversion 1|].
  destruct (Nat.eqb_spec (length values) (length (variableLabels d))); simpl; [|inversion 1].
  intros H. apply list_elem_of_singleton in H. subst mv. auto.
Qed.

Lemma sends_eventsFrom {A} (l : list A) ev i mv :
  mv ∈ sends (eventsFrom i l ev) ->
  exists j x, l !! j = Some x /\ mv ∈ sends (ev (i + j)%nat x).
Proof.
  revert i. induction l as [|x l IH]; intros i; simpl; [inversion 1|].
  rewrite sends_app, elem_of_app. intros [H|H].
  - exists 0%nat, x. rewrite Nat.add_0_r. auto.
  - destruct (IH _ H) as (j & y & Hj & Hy). exists (S j), y.
    rewrite Nat.add_succ_r. auto.
Qed.

(** ** The samples of each update function *)

Lemma variableLabels_NewDesc n h l : variableLabels (NewDesc n h l) = l.
Proof.
  unfold NewDesc. destruct (negb (IsValidMetricName n)); [reflexivity|].
  destruct (List.find _ l); [reflexivity|].
  destruct (Nat.eqb _ _); reflexivity.
Qed.

Lemma fqName_NewDesc n h l : fqName (NewDesc n h l) = n.
Proof.
  unfold NewDesc. destruct (negb (IsValidMetricName n)); [reflexivity|].
  destruct (List.find _ l); [reflexivity|].
  destruct (Nat.eqb _ _); reflexivity.
Qed.

Lemma length_dyn vmi : length (dynValues vmi) = length (dynLabels vmi).
Proof. unfold dynValues, dynLabels. rewrite !length_app, !length_fmap. reflexivity. Qed.

Lemma emitted_updateMemory vmi vmStats s :
  exists k, emitted (updateMemory vmi vmStats) s = take k (sends (memoryEvents vmi vmStats)).
Proof.
  unfold emitted. rewrite updateMemory_play.
  apply (emitted_play _ (withPkg _ s)).
Qed.

Lemma emitted_updateVcpu vmi vmStats s :
  exists k, emitted (updateVcpu vmi vmStats) s =
            take k (sends (eventsFrom 0 (Vcpu vmStats) (vcpuEvents vmi))).
Proof. unfold emitted. rewrite updateVcpu_play. apply emitted_playLoop. Qed.

Lemma emitted_updateBlock vmi vmStats s :
  exists k, emitted (updateBlock vmi vmStats) s =
            take k (sends (eventsFrom 0 (Block vmStats) (blockEvents vmi))).
Proof. unfold emitted. rewrite updateBlock_play. apply emitted_playLoop. Qed.

Lemma emitted_updateNetwork vmi vmStats s :
  exists k, emitted (updateNetwork vmi vmStats) s =
            take k (sends (eventsFrom 0 (Net vmStats) (netEvents vmi))).
Proof. unfold emitted. rewrite updateNetwork_play. apply emitted_playLoop. Qed.

Lemma elem_of_take_sends (mv : Metric) k l : mv ∈ take k l -> mv ∈ l.
Proof. intros H. exact (subseteq_take k l mv H). Qed.

Lemma memory_samples vmi vmStats s mv :
  mv ∈ emitted (updateMemory vmi vmStats) s ->
  exists set fam dir kib,
    (set, fam, dir, kib) ∈ memoryFields (Memory vmStats) /\ set = true /\
    err (descFor fam vmi) = None /\
    mv = mkMetric (descFor fam vmi) GaugeValue (float64 kib * 1024)
                  ((vmiValues vmi ++ option_list dir) ++ dynValues vmi).
Proof.
  destruct (emitted_updateMemory vmi vmStats s) as [k ->].
  intros H. apply elem_of_take_sends in H. unfold memoryEvents in H.
  rewrite !sends_app, !elem_of_app in H. unfold memoryFields.
  destruct H as [H|[H|[H|H]]]; apply sends_pushEventIf in H as (Hset & -> & He & _).
  - exists (RSSSet (Memory vmStats)), memoryResident, None, (RSS (Memory vmStats)).
    repeat split; try assumption. set_solver.
  - exists (AvailableSet (Memory vmStats)), memoryAvailable, None, (Available (Memory vmStats)).
    repeat split; try assumption. set_solver.
  - exists (SwapInSet (Memory vmStats)), swapTraffic, (Some "in"), (SwapIn (Memory vmStats)).
    repeat split; try assumption. set_solver.
  - exists (SwapOutSet (Memory vmStats)), swapTraffic, (Some "out"), (SwapOut (Memory vmStats)).
    repeat split; try assumption. set_solver.
Qed.

Lemma vcpu_samples vmi vmStats s mv :
  mv ∈ emitted (updateVcpu vmi vmStats) s ->
  exists vcpuId vcpu,
    Vcpu vmStats !! vcpuId = Some vcpu /\
    StateSet vcpu = true /\ TimeSet vcpu = true /\
    err (descFor vcpuUsage vmi) = None /\
    mv = mkMetric (descFor vcpuUsage vmi) GaugeValue (float64 (Time vcpu / 1000000000))
           ((vmiValues vmi ++ [Sprintf_v (Z.of_nat vcpuId); Sprintf_v (State vcpu)])
            ++ dynValues vmi).
Proof.
  destruct (emitted_updateVcpu vmi vmStats s) as [k ->].
  intros H. apply elem_of_take_sends, sends_eventsFrom in H as (j & vcpu & Hj & H).
  exists j, vcpu. split; [exact Hj|]. simpl in H. unfold vcpuEvents in H.
  destruct (StateSet vcpu), (TimeSet vcpu); simpl in H; try (inversion H; fail).
  apply (sends_pushEventIf true) in H as (_ & -> & He & _). auto.
Qed.

Lemma iopsWrite_sent vmi drive :
  length (iopsWriteValues vmi drive) = length (variableLabels (descFor storageIops vmi)) ->
  dynValues vmi = [] /\
  iopsWriteValues vmi drive = (vmiValues vmi ++ [drive; "write"]) ++ dynValues vmi.
Proof.
  unfold iopsWriteValues, descFor. rewrite variableLabels_NewDesc. unfold labelsFor.
  pose proof (length_dyn vmi) as Hl.
  destruct (last (dynValues vmi)) eqn:E.
  - rewrite !length_app. simpl. lia.
  - apply last_None in E. rewrite E, app_nil_r. auto.
Qed.

Lemma block_samples vmi vmStats s mv :
  mv ∈ emitted (updateBlock vmi vmStats) s ->
  exists blockId block set fam dir n,
    Block vmStats !! blockId = Some block /\ Block.NameSet block = true /\
    (set, fam, dir, n) ∈ blockFields block /\ set = true /\
    err (descFor fam vmi) = None /\
    mv = mkMetric (descFor fam vmi) CounterValue (float64 n)
           ((vmiValues vmi ++ [Block.Name block; dir]) ++ dynValues vmi).
Proof.
  destruct (emitted_updateBlock vmi vmStats s) as [k ->].
  intros H. apply elem_of_take_sends, sends_eventsFrom in H as (j & b & Hj & H).
  exists j, b. simpl in H. unfold blockEvents in H.
  destruct (Block.NameSet b) eqn:Hn; simpl in H; [|inversion H].
  rewrite !sends_app, !elem_of_app in H. unfold blockFields.
  destruct H as [H|[H|[H|[H|[H|H]]]]];
    apply sends_pushEventIf in H as (Hset & -> & He & Hlen).
  - exists (Block.RdReqsSet b), storageIops, "read", (Block.RdReqs b).
    repeat split; try assumption. set_solver.
  - exists (Block.WrReqsSet b), storageIops, "write", (Block.WrReqs b).
    apply iopsWrite_sent in Hlen as [_ ->].
    repeat split; try assumption. set_solver.
  - exists (Block.RdBytesSet b), storageTraffic, "read", (Block.RdBytes b).
    repeat split; try assumption. set_solver.
  - exists (Block.WrBytesSet b), storageTraffic, "write", (Block.WrBytes b).
    repeat split; try assumption. set_solver.
  - exists (Block.RdTimesSet b), storageTimes, "read", (Block.RdTimes b).
    repeat split; try assumption. set_solver.
  - exists (Block.WrTimesSet b), storageTimes, "write", (Block.WrTimes b).
    repeat split; try assumption. set_solver.
Qed.

Lemma net_samples vmi vmStats s mv :
  mv ∈ emitted (updateNetwork vmi vmStats) s ->
  exists netId net set fam dir n,
    Net vmStats !! netId = Some net /\ Net.NameSet net = true /\
    (set, fam, dir, n) ∈ netFields net /\ set = true /\
    err (descFor fam vmi) = None /\
    mv = mkMetric (descFor fam vmi) CounterValue (float64 n)
           ((vmiValues vmi ++ [Net.Name net; dir]) ++ dynValues vmi).
Proof.
  destruct (emitted_updateNetwork vmi vmStats s) as [k ->].
  intros H. apply elem_of_take_sends, sends_eventsFrom in H as (j & b & Hj & H).
  exists j, b. simpl in H. unfold netEvents in H.
  destruct (Net.NameSet b) eqn:Hn; simpl in H; [|inversion H].
  rewrite !sends_app, !elem_of_app in H. unfold netFields.
  destruct H as [H|[H|[H|[H|[H|H]]]]];
    apply sends_pushEventIf in H as (Hset & -> & He & Hlen).
  - exists (Net.RxBytesSet b), networkTrafficBytes, "rx", (Net.RxBytes b).
    repeat split; try assumption. set_solver.
  - exists (Net.RxPktsSet b), networkTrafficPkts, "rx", (Net.RxPkts b).
    repeat split; try assumption. set_solver.
  - exists (Net.RxErrsSet b), networkErrors, "rx", (Net.RxErrs b).
    repeat split; try assumption. set_solver.
  - exists (Net.TxBytesSet b), networkTrafficBytes, "tx", (Net.TxBytes b).
    repeat split; try assumption. set_solver.
  - exists (Net.TxPktsSet b), networkTrafficPkts, "tx", (Net.TxPkts b).
    repeat split; try assumption. set_solver.
  - exists (Net.TxErrsSet b), networkErrors, "tx", (Net.TxErrs b).
    repeat split; try assumption. set_solver.
Qed.

(** With metadata on the VMI, every iops sample that [updateBlock] delivers
    is a read sample: the write sample is refused for its cardinality. *)
Lemma iops_write_never_emitted vmi vmStats s mv :
  dynValues vmi <> [] ->
  mv ∈ emitted (updateBlock vmi vmStats) s ->
  fqName (desc mv) = "kubevirt_vmi_storage_iops_total" ->
  labelValues mv !! 4%nat = Some "read".
Proof.
  intros Hne H Hfq.
  destruct (emitted_updateBlock vmi vmStats s) as [k Hk]. rewrite Hk in H. clear Hk.
  apply elem_of_take_sends, sends_eventsFrom in H as (j & b & Hj & H).
  simpl in H. unfold blockEvents in H.
  destruct (Block.NameSet b) eqn:Hn; simpl in H; [|inversion H].
  rewrite !sends_app, !elem_of_app in H.
  destruct H as [H|[H|[H|[H|[H|H]]]]];
    apply sends_pushEventIf in H as (Hset & -> & He & Hlen);
    simpl in Hfq; unfold descFor in Hfq; rewrite fqName_NewDesc in Hfq;
    try discriminate Hfq.
  - reflexivity.
  - apply iopsWrite_sent in Hlen as [Hd _]. contradiction.
Qed.

(** ** The package variables after a call *)

Lemma get_upd f f' h g :
  get f (upd f' h g) = if decide (f = f') then h (get f g) else get f g.
Proof. destruct g, f, f'; reflexivity. Qed.

Lemma get_refresh fs vmi g f :
  get f (refresh fs vmi g) = if decide (f ∈ fs) then freshVar f vmi else get f g.
Proof.
  induction fs as [|f' fs IH]; simpl.
  - destruct (decide (f ∈ [])) as [H|H]; [inversion H | reflexivity].
  - unfold setVar. rewrite get_upd. destruct (decide (f = f')) as [->|Hne].
    + destruct (decide (f' ∈ f' :: fs)) as [H|H]; [reflexivity|]. exfalso. apply H. left.
    + rewrite IH. destruct (decide (f ∈ fs)) as [H|H];
        destruct (decide (f ∈ f' :: fs)) as [H'|H']; try reflexivity.
      * exfalso. apply H'. right. exact H.
      * exfalso. apply elem_of_cons in H' as [?|?]; contradiction.
Qed.

Lemma pkg_playLoop {A} (l : list A) h ev s :
  pkg (stateOf (playLoop l h ev s)) = match l with [] => pkg s | _ => h (pkg s) end.
Proof. destruct l; [reflexivity|]. simpl. rewrite play_pkg. reflexivity. Qed.

Lemma observe_playLoop {A} (l : list A) h ev g g' c lg :
  varDesc (get memoryAvailable (h g)) = varDesc (get memoryAvailable (h g')) ->
  observe (playLoop l h ev (mkState g c lg)) = observe (playLoop l h ev (mkState g' c lg)).
Proof. intros Hd. destruct l; [reflexivity|]. apply play_observe, Hd. Qed.

Lemma sinkOf_playLoop {A} (l : list A) h ev g g' c lg :
  sinkOf (playLoop l h ev (mkState g c lg)) = sinkOf (playLoop l h ev (mkState g' c lg)).
Proof. destruct l; [reflexivity|]. apply play_sink. Qed.

Lemma memoryAvailable_kept fs vmi g g' :
  fs = vcpuFamilies \/ fs = blockFamilies \/ fs = netFamilies ->
  varDesc (get memoryAvailable g) = varDesc (get memoryAvailable g') ->
  varDesc (get memoryAvailable (refresh fs vmi g)) =
  varDesc (get memoryAvailable (refresh fs vmi g')).
Proof. intros [->|[->| ->]] H; destruct g, g'; exact H. Qed.

(** C1 (as amended): each of the four update operations rebuilds its label
    names and descriptors from the VMI alone, so what it sends and whether
    it panics does not depend on the package-level variables before the
    call.  Its log lines depend on them through [memoryAvailableDesc]
    only, which the warning for a refused sample prints: [updateMemory]
    has rebuilt that variable before its first sample, so its log does not
    depend on the variables before the call at all; the other three
    operations leave it as they found it, and their log is the same from
    two states that agree on it (and differs from two states that do not,
    as for [updateBlock] before and after an [updateMemory]).  The label
    names and descriptors are not local: the call stores them in the
    package-level variables of its families, which after the call hold the
    base labels followed by the dynamic labels of that VMI, and the
    descriptor built from them.  The variables of the other families keep
    their values.  (A loop over no vCPU, block device or interface assigns
    nothing.) *)
Theorem C1_update_rebuilds_and_overwrites
    (vmi : VirtualMachineInstance) (vmStats : DomainStats)
    (g g' : PkgVars) (c : Chan) (l : list LogEntry) :
  (observe (updateMemory vmi vmStats (mkState g c l)) =
     observe (updateMemory vmi vmStats (mkState g' c l)) /\
   sinkOf (updateVcpu vmi vmStats (mkState g c l)) =
     sinkOf (updateVcpu vmi vmStats (mkState g' c l)) /\
   sinkOf (updateBlock vmi vmStats (mkState g c l)) =
     sinkOf (updateBlock vmi vmStats (mkState g' c l)) /\
   sinkOf (updateNetwork vmi vmStats (mkState g c l)) =
     sinkOf (updateNetwork vmi vmStats (mkState g' c l))) /\
  (varDesc (get memoryAvailable g) = varDesc (get memoryAvailable g') ->
   observe (updateVcpu vmi vmStats (mkState g c l)) =
     observe (updateVcpu vmi vmStats (mkState g' c l)) /\
   observe (updateBlock vmi vmStats (mkState g c l)) =
     observe (updateBlock vmi vmStats (mkState g' c l)) /\
   observe (updateNetwork vmi vmStats (mkState g c l)) =
     observe (updateNetwork vmi vmStats (mkState g' c l))) /\
  logged (updateBlock labelledVMI blockStats) initState <>
    logged (updateBlock labelledVMI blockStats)
      (stateOf (updateMemory labelledVMI (memoryStats noMemory) initState)) /\
  (pkg (stateOf (updateMemory vmi vmStats (mkState g c l))) =
     refresh memoryFamilies vmi g /\
   pkg (stateOf (updateVcpu vmi vmStats (mkState g c l))) =
     match Vcpu vmStats with [] => g | _ => refresh vcpuFamilies vmi g end /\
   pkg (stateOf (updateBlock vmi vmStats (mkState g c l))) =
     match Block vmStats with [] => g | _ => refresh blockFamilies vmi g end /\
   pkg (stateOf (updateNetwork vmi vmStats (mkState g c l))) =
     match Net vmStats with [] => g | _ => refresh netFamilies vmi g end) /\
  (forall fs f,
     get f (refresh fs vmi g) =
     if decide (f ∈ fs)
     then mkVar (baseLabels f ++ dynLabels vmi)
                (NewDesc (familyName f) (familyHelp f) (baseLabels f ++ dynLabels vmi))
     else get f g).
Proof.
  split; [|split; [|split; [|split]]].
  - rewrite !updateMemory_play, !updateVcpu_play, !updateBlock_play, !updateNetwork_play.
    repeat split; try apply sinkOf_playLoop.
    apply (play_observe _ (refresh memoryFamilies vmi g) (refresh memoryFamilies vmi g')).
    destruct g, g'; reflexivity.
  - intros Hd. rewrite !updateVcpu_play, !updateBlock_play, !updateNetwork_play.
    repeat split; apply observe_playLoop, memoryAvailable_kept; auto.
  - vm_compute. discriminate.
  - rewrite updateMemory_play, updateVcpu_play, updateBlock_play, updateNetwork_play.
    rewrite play_pkg, !pkg_playLoop. repeat split.
  - intros fs f. apply get_refresh.
Qed.

(** C1, as stated, fails: a call of [updateMemory] for a VMI that carries
    metadata leaves [memoryResidentLabels] longer than it was. *)
Lemma C1_package_variables_overwritten :
  varLabels (get memoryResident (pkg initState)) = ["node"; "namespace"; "name"] /\
  varLabels (get memoryResident
               (pkg (stateOf (updateMemory labelledVMI (memoryStats (rssOnly 2048)) initState))))
    = ["node"; "namespace"; "name";
       "vmi_k8s_label_kubernetes_io_foo"; "vmi_k8s_annotation_team_id"] /\
  pkg (stateOf (updateMemory labelledVMI (memoryStats (rssOnly 2048)) initState))
    <> pkg initState.
Proof.
  assert (Hafter :
    varLabels (get memoryResident
      (pkg (stateOf (updateMemory labelledVMI (memoryStats (rssOnly 2048)) initState))))
    = ["node"; "namespace"; "name";
       "vmi_k8s_label_kubernetes_io_foo"; "vmi_k8s_annotation_team_id"])
    by (vm_compute; reflexivity).
  split; [reflexivity|]. split; [exact Hafter|].
  intros Heq. rewrite Heq in Hafter. discriminate Hafter.
Qed.

(** ** The claims about the per-VMI scraper *)

(** C2: for a VMI that carries metadata the code does not build the
    write-direction iops values the claim describes.  One turn of the
    metadata loop assigns to the write values the read values plus the
    value once more, so they hold ["read"] at the type position and one
    value too many; the metrics library refuses the sample and
    [tryToPushMetric] drops it with a warning.  On the block device of
    [blockStats], whose read and write request counters are both set,
    only the read sample reaches the sink; for a VMI without metadata
    both do. *)
Theorem C2_iops_write_values_misbuilt :
  storageIopsWriteLabelsValues <$>
    resultOf (blockAppend labelPreffix ("kubernetes.io/foo", "bar")
                (mkBlockValues ["node-a"; "default"; "testvmi"; "vda"; "read"]
                               ["node-a"; "default"; "testvmi"; "vda"; "write"]
                               [] [] [] [])
                initState)
    = Some ["node-a"; "default"; "testvmi"; "vda"; "read"; "bar"; "bar"] /\
  labelValues <$> emitted (updateBlock labelledVMI blockStats) initState
    = [["node-a"; "default"; "testvmi"; "vda"; "read"; "bar"; "42"]] /\
  logged (updateBlock labelledVMI blockStats) initState
    = [mkLogOf (Some 4%nat) WARNING "Error creating the new const metric for %s: %s"
         [OpDesc (varDesc (get memoryAvailable (pkg initState)));
          OpError errInconsistentCardinality]] /\
  labelValues <$> emitted (updateBlock plainVMI blockStats) initState
    = [["node-a"; "default"; "testvmi"; "vda"; "read"];
       ["node-a"; "default"; "testvmi"; "vda"; "write"]].
Proof. repeat split; vm_compute; reflexivity. Qed.

Lemma sent_play evs s : sent (ch s) `prefix_of` sent (ch (stateOf (play evs s))).
Proof. destruct (play_sent evs s) as [k ->]. apply prefix_app_r. reflexivity. Qed.

Lemma sent_playLoop {A} (l : list A) h ev s :
  sent (ch s) `prefix_of` sent (ch (stateOf (playLoop l h ev s))).
Proof. destruct l; [reflexivity|]. apply (sent_play _ (withPkg h s)). Qed.

Lemma sent_bind {A B} (m : M A) (k : A -> M B) s :
  sent (ch s) `prefix_of` sent (ch (stateOf (m s))) ->
  (forall a s', sent (ch s') `prefix_of` sent (ch (stateOf (k a s')))) ->
  sent (ch s) `prefix_of` sent (ch (stateOf ((m ≫= k) s))).
Proof.
  intros Hm Hk. rewrite bind_run. destruct (m s) as [a s'|r s']; [|exact Hm].
  etransitivity; [exact Hm | apply Hk].
Qed.

Lemma sent_updates vmi vmStats s :
  sent (ch s) `prefix_of`
  sent (ch (stateOf ((updateMemory vmi vmStats ;; updateVcpu vmi vmStats ;;
                      updateBlock vmi vmStats ;; updateNetwork vmi vmStats) s))).
Proof.
  apply sent_bind.
  { rewrite updateMemory_play. apply (sent_play _ (withPkg _ s)). }
  intros _ s1. apply sent_bind.
  { rewrite updateVcpu_play. apply sent_playLoop. }
  intros _ s2. apply sent_bind.
  { rewrite updateBlock_play. apply sent_playLoop. }
  intros _ s3. rewrite updateNetwork_play. apply sent_playLoop.
Qed.

Lemma Report_run socketFile vmi vmStats s :
  exists s',
    Report socketFile vmi vmStats s = Returned tt s' /\
    sent (ch s) `prefix_of` sent (ch s') /\
    logs s' =
      logs (stateOf ((updateMemory vmi vmStats ;; updateVcpu vmi vmStats ;;
                      updateBlock vmi vmStats ;; updateNetwork vmi vmStats) s)) ++
      (if panicked ((updateMemory vmi vmStats ;; updateVcpu vmi vmStats ;;
                     updateBlock vmi vmStats ;; updateNetwork vmi vmStats) s)
       then [mkLog (Some 2%nat) WARNING "collector goroutine panicked for VM"]
       else []).
Proof.
  pose proof (sent_updates vmi vmStats s) as Hs.
  unfold Report, deferRecover.
  destruct ((updateMemory vmi vmStats ;; updateVcpu vmi vmStats ;;
             updateBlock vmi vmStats ;; updateNetwork vmi vmStats) s) as [[] s'|r s'];
    simpl in *.
  - exists s'. rewrite app_nil_r. auto.
  - eexists. split; [reflexivity|]. simpl. auto.
Qed.

(** C9: [Report] always returns normally.  A panic of the translation and
    delivery (a send on the closed sink) is caught by the deferred
    [recover] and logged as a warning at verbosity 2; what the sink had
    received before is still there.  With the sink closed from the start
    nothing is delivered and the one log line is that warning. *)
Theorem C9_report_absorbs_panic
    (socketFile : string) (vmi : VirtualMachineInstance) (vmStats : DomainStats)
    (s : GoState) :
  (exists s',
     Report socketFile vmi vmStats s = Returned tt s' /\
     sent (ch s) `prefix_of` sent (ch s') /\
     logs s' =
       logs (stateOf ((updateMemory vmi vmStats ;; updateVcpu vmi vmStats ;;
                       updateBlock vmi vmStats ;; updateNetwork vmi vmStats) s)) ++
       (if panicked ((updateMemory vmi vmStats ;; updateVcpu vmi vmStats ;;
                      updateBlock vmi vmStats ;; updateNetwork vmi vmStats) s)
        then [mkLog (Some 2%nat) WARNING "collector goroutine panicked for VM"]
        else [])) /\
  panicked ((updateMemory plainVMI (memoryStats (rssOnly 2048)) ;;
             updateVcpu plainVMI (memoryStats (rssOnly 2048)) ;;
             updateBlock plainVMI (memoryStats (rssOnly 2048)) ;;
             updateNetwork plainVMI (memoryStats (rssOnly 2048))) closedState) = true /\
  observe (Report socketFile plainVMI (memoryStats (rssOnly 2048)) closedState) =
    (false, mkChan [] (Some 0%nat),
     [mkLog (Some 2%nat) WARNING "collector goroutine panicked for VM"]).
Proof.
  split; [apply Report_run|]. split; vm_compute; reflexivity.
Qed.

Lemma emitted_nothing {A} (m : M A) s :
  sent (ch (stateOf (m s))) = sent (ch s) -> emitted m s = [].
Proof. intros H. unfold emitted. rewrite H. apply drop_all. Qed.

(** ** What the four update operations do in a row *)

Lemma Observes_bind d m1 m2 e1 e2 :
  Observes d m1 e1 -> Observes d m2 e2 -> Observes d (m1 ;; m2) (e1 ++ e2).
Proof.
  intros H1 H2 s Hd. rewrite play_app, !bind_run.
  destruct (H1 s Hd) as [Ho Hd1]. unfold observe in Ho.
  pose proof (play_pkg e1 s) as Hp.
  destruct (m1 s) as [[] s1|r s1], (play e1 s) as [[] s1'|r' s1'];
    simpl in Ho, Hd1, Hp; try discriminate Ho.
  - injection Ho as Hc Hl. destruct (H2 s1 Hd1) as [Ho2 Hd2]. split; [|exact Hd2].
    rewrite Ho2. destruct s1 as [g c l], s1' as [g' c' l']. simpl in *. subst c' l' g'.
    apply play_observe. etransitivity; [exact Hd1 | symmetry; exact Hd].
  - split; assumption.
Qed.

Lemma Observes_play d evs : Observes d (play evs) evs.
Proof. intros s Hd. split; [reflexivity|]. rewrite play_pkg. exact Hd. Qed.

Lemma Observes_playLoop {A} d (l : list A) h ev :
  (forall g, varDesc (get memoryAvailable (h g)) = varDesc (get memoryAvailable g)) ->
  Observes d (playLoop l h ev) (eventsFrom 0 l ev).
Proof.
  intros Hh [g c lg] Hd. destruct l as [|x l]; [split; [reflexivity|exact Hd]|].
  cbn [playLoop]. split.
  - apply play_observe. apply Hh.
  - rewrite play_pkg. cbn [withPkg pkg]. rewrite Hh. exact Hd.
Qed.

Lemma Observes_ext d (m m' : M unit) evs :
  (forall s, m s = m' s) -> Observes d m' evs -> Observes d m evs.
Proof. intros He H s Hd. rewrite He. apply H, Hd. Qed.

Lemma refresh_keeps_memoryAvailable fs vmi g :
  fs = vcpuFamilies \/ fs = blockFamilies \/ fs = netFamilies ->
  varDesc (get memoryAvailable (refresh fs vmi g)) = varDesc (get memoryAvailable g).
Proof. intros [->|[->| ->]]; destruct g; reflexivity. Qed.

(** The four update operations in a row do to the sink and the log what
    playing their events does once [updateMemory] has assigned its
    variables. *)
Lemma updates_observe vmi vmStats s :
  observe ((updateMemory vmi vmStats ;; updateVcpu vmi vmStats ;;
            updateBlock vmi vmStats ;; updateNetwork vmi vmStats) s) =
  observe (play (reportEvents vmi vmStats) (withPkg (refresh memoryFamilies vmi) s)).
Proof.
  assert (H : Observes (descFor memoryAvailable vmi)
                (play (memoryEvents vmi vmStats) ;; updateVcpu vmi vmStats ;;
                 updateBlock vmi vmStats ;; updateNetwork vmi vmStats)
                (reportEvents vmi vmStats)).
  { unfold reportEvents.
    apply Observes_bind; [apply Observes_play|].
    apply Observes_bind;
      [apply (Observes_ext _ _ _ _ (updateVcpu_play vmi vmStats)), Observes_playLoop;
       intros g; apply refresh_keeps_memoryAvailable; auto|].
    apply Observes_bind;
      [apply (Observes_ext _ _ _ _ (updateBlock_play vmi vmStats)), Observes_playLoop;
       intros g; apply refresh_keeps_memoryAvailable; auto|].
    apply (Observes_ext _ _ _ _ (updateNetwork_play vmi vmStats)), Observes_playLoop.
    intros g; apply refresh_keeps_memoryAvailable; auto. }
  destruct (H (withPkg (refresh memoryFamilies vmi) s)) as [<- _].
  { destruct s as [g c l]. destruct g. reflexivity. }
  rewrite !(bind_run (updateMemory vmi vmStats)), !(bind_run (play _)).
  rewrite updateMemory_play. reflexivity.
Qed.

Lemma sent_Report socketFile vmi vmStats s :
  sent (ch (stateOf (Report socketFile vmi vmStats s))) =
  sent (ch (stateOf (play (reportEvents vmi vmStats) s))).
Proof.
  assert (E : ch (stateOf ((updateMemory vmi vmStats ;; updateVcpu vmi vmStats ;;
                            updateBlock vmi vmStats ;; updateNetwork vmi vmStats) s)) =
              ch (stateOf (play (reportEvents vmi vmStats) s))).
  { transitivity (ch (stateOf (play (reportEvents vmi vmStats)
                                 (withPkg (refresh memoryFamilies vmi) s)))).
    - pose proof (updates_observe vmi vmStats s) as H. unfold observe in H.
      injection H as _ Hc _. exact Hc.
    - destruct s as [g c l].
      pose proof (play_sink (reportEvents vmi vmStats) (refresh memoryFamilies vmi g)
                    g c l l) as Hk.
      unfold sinkOf in Hk. injection Hk as _ Hc. exact Hc. }
  unfold Report, deferRecover.
  destruct ((updateMemory vmi vmStats ;; updateVcpu vmi vmStats ;;
             updateBlock vmi vmStats ;; updateNetwork vmi vmStats) s) as [[] s'|r s'];
    simpl in *; rewrite <- E; reflexivity.
Qed.

Lemma emitted_Report socketFile vmi vmStats s :
  emitted (Report socketFile vmi vmStats) s = emitted (play (reportEvents vmi vmStats)) s.
Proof. unfold emitted. rewrite sent_Report. reflexivity. Qed.

Lemma emitted_open_updates vmi vmStats s :
  sinkOpen s ->
  emitted (updateMemory vmi vmStats) s = sends (memoryEvents vmi vmStats) /\
  emitted (updateVcpu vmi vmStats) s = sends (eventsFrom 0 (Vcpu vmStats) (vcpuEvents vmi)) /\
  emitted (updateBlock vmi vmStats) s = sends (eventsFrom 0 (Block vmStats) (blockEvents vmi)) /\
  emitted (updateNetwork vmi vmStats) s = sends (eventsFrom 0 (Net vmStats) (netEvents vmi)).
Proof.
  intros Ho. unfold emitted.
  rewrite updateMemory_play, updateVcpu_play, updateBlock_play, updateNetwork_play.
  split; [apply (emitted_play_open _ (withPkg _ s)), Ho|].
  assert (forall A (l : list A) h ev,
            drop (length (sent (ch s))) (sent (ch (stateOf (playLoop l h ev s)))) =
            sends (eventsFrom 0 l ev)) as Hloop.
  { intros A l h ev. destruct l as [|x l].
    - simpl. apply drop_all.
    - apply (emitted_play_open _ (withPkg h s)), Ho. }
  repeat split; apply Hloop.
Qed.

Lemma emitted_Report_open socketFile vmi vmStats s :
  sinkOpen s ->
  emitted (Report socketFile vmi vmStats) s =
  emitted (updateMemory vmi vmStats) s ++ emitted (updateVcpu vmi vmStats) s ++
  emitted (updateBlock vmi vmStats) s ++ emitted (updateNetwork vmi vmStats) s.
Proof.
  intros Ho. destruct (emitted_open_updates vmi vmStats s Ho) as (-> & -> & -> & ->).
  rewrite <- !sends_app. fold (reportEvents vmi vmStats).
  rewrite emitted_Report. apply emitted_play_open, Ho.
Qed.

(** C3 (as amended): [Scrape] delivers a sample only if the connection
    succeeds, the fetch returns no error, the record exists with a
    non-empty name, and the elapsed time is at most the collection timeout
    plus two seconds.  When all of that holds it does what [Report] does
    for the record, and on an open sink it delivers the samples of
    [updateMemory], [updateVcpu], [updateBlock] and [updateNetwork] for
    the record, in this order; they may be none.  In every other case it
    delivers nothing and leaves the package variables alone.  In no case
    does it panic. *)
Theorem C3_scrape_gates
    (collectionTimeout : Z) (NewClient : string -> LauncherClient + error)
    (elapsedOn : string -> Z)
    (socketFile : string) (vmi : VirtualMachineInstance) (s : GoState) :
  (forall mv,
     mv ∈ emitted (Scrape collectionTimeout NewClient elapsedOn socketFile vmi) s ->
     exists cli vmStats,
       NewClient socketFile = inl cli /\
       GetDomainStats cli = inl (vmStats, true) /\
       stats.Name vmStats <> "" /\
       elapsedOn socketFile <= collectionTimeout + 2 * 1000000000) /\
  (forall cli vmStats,
     NewClient socketFile = inl cli ->
     GetDomainStats cli = inl (vmStats, true) ->
     stats.Name vmStats <> "" ->
     elapsedOn socketFile <= collectionTimeout + 2 * 1000000000 ->
     Scrape collectionTimeout NewClient elapsedOn socketFile vmi s =
       Report socketFile vmi vmStats s /\
     (sinkOpen s ->
      emitted (Scrape collectionTimeout NewClient elapsedOn socketFile vmi) s =
        emitted (updateMemory vmi vmStats) s ++ emitted (updateVcpu vmi vmStats) s ++
        emitted (updateBlock vmi vmStats) s ++ emitted (updateNetwork vmi vmStats) s)) /\
  (~ (exists cli vmStats,
        NewClient socketFile = inl cli /\
        GetDomainStats cli = inl (vmStats, true) /\
        stats.Name vmStats <> "" /\
        elapsedOn socketFile <= collectionTimeout + 2 * 1000000000) ->
   emitted (Scrape collectionTimeout NewClient elapsedOn socketFile vmi) s = [] /\
   pkg (stateOf (Scrape collectionTimeout NewClient elapsedOn socketFile vmi s)) = pkg s) /\
  panicked (Scrape collectionTimeout NewClient elapsedOn socketFile vmi s) = false.
Proof.
  assert (Hpos : forall cli vmStats,
            NewClient socketFile = inl cli ->
            GetDomainStats cli = inl (vmStats, true) ->
            stats.Name vmStats <> "" ->
            elapsedOn socketFile <= collectionTimeout + 2 * 1000000000 ->
            Scrape collectionTimeout NewClient elapsedOn socketFile vmi s =
            Report socketFile vmi vmStats s).
  { unfold Scrape, statsMaxAge, Second. intros cli vmStats -> -> Hname Hel.
    apply String.eqb_neq in Hname. rewrite Hname. simpl.
    destruct (Z.gtb_spec (elapsedOn socketFile) (collectionTimeout + 2 * 1000000000));
      [lia | reflexivity]. }
  assert (Hneg : (exists cli vmStats,
                    NewClient socketFile = inl cli /\
                    GetDomainStats cli = inl (vmStats, true) /\
                    stats.Name vmStats <> "" /\
                    elapsedOn socketFile <= collectionTimeout + 2 * 1000000000) \/
                 (emitted (Scrape collectionTimeout NewClient elapsedOn socketFile vmi) s
                    = [] /\
                  pkg (stateOf (Scrape collectionTimeout NewClient elapsedOn socketFile
                                  vmi s)) = pkg s)).
  { unfold Scrape, statsMaxAge, Second.
    destruct (NewClient socketFile) as [cli|e] eqn:Hc;
      [|right; split; [apply emitted_nothing|]; reflexivity].
    destruct (GetDomainStats cli) as [[vmStats ex]|e] eqn:Hg;
      [|right; split; [apply emitted_nothing|]; reflexivity].
    destruct ex; simpl; [|right; split; [apply emitted_nothing|]; reflexivity].
    destruct (String.eqb_spec (stats.Name vmStats) "") as [He|He];
      [right; split; [apply emitted_nothing|]; reflexivity|].
    destruct (Z.gtb_spec (elapsedOn socketFile) (collectionTimeout + 2 * 1000000000));
      [right; split; [apply emitted_nothing|]; reflexivity|].
    left. exists cli, vmStats.
    split; [reflexivity|]. split; [exact Hg|]. split; [exact He|lia]. }
  split; [|split; [|split]].
  - intros mv Hmv. destruct Hneg as [H|[He _]]; [exact H|].
    rewrite He in Hmv. inversion Hmv.
  - intros cli vmStats Hc Hg Hname Hel.
    pose proof (Hpos cli vmStats Hc Hg Hname Hel) as E. split; [exact E|].
    intros Ho. unfold emitted at 1. rewrite E.
    apply (emitted_Report_open socketFile vmi vmStats s Ho).
  - intros Hno. destruct Hneg as [H|H]; [contradiction|exact H].
  - unfold Scrape.
    destruct (NewClient socketFile) as [cli|e]; [|reflexivity].
    destruct (GetDomainStats cli) as [[vmStats ex]|e]; [|reflexivity].
    destruct (negb ex || (stats.Name vmStats =? "")%string); [reflexivity|].
    destruct (elapsedOn socketFile >? statsMaxAge collectionTimeout); [reflexivity|].
    destruct (Report_run socketFile vmi vmStats s) as (s' & -> & _). reflexivity.
Qed.

(** ** When the metrics library accepts a descriptor *)

Lemma size_list_to_set_le (l : list string) :
  (size (list_to_set l : gset string) <= length l)%nat.
Proof.
  induction l as [|x l IH]; simpl.
  - reflexivity.
  - rewrite size_union_alt, size_singleton.
    assert (size (list_to_set l ∖ {[x]} : gset string) <= size (list_to_set l : gset string))%nat
      by (apply subseteq_size, subseteq_difference_l; reflexivity).
    lia.
Qed.

Lemma NoDup_size (l : list string) :
  size (list_to_set l : gset string) = length l <-> NoDup l.
Proof.
  split; [|apply size_list_to_set].
  induction l as [|x l IH]; simpl; intros H; [constructor|].
  rewrite size_union_alt, size_singleton in H.
  pose proof (size_list_to_set_le l) as Hle.
  assert (size (list_to_set l ∖ {[x]} : gset string) <= size (list_to_set l : gset string))%nat
    as Hd by (apply subseteq_size, subseteq_difference_l; reflexivity).
  constructor.
  - intros Hx.
    assert (x ∈ (list_to_set l : gset string)) as Hx'
      by (apply elem_of_list_to_set; exact Hx).
    assert (list_to_set l ∖ {[x]} ⊂ (list_to_set l : gset string)) as Hs.
    { split; [apply subseteq_difference_l; reflexivity|]. intros Hsub.
      apply Hsub, elem_of_difference in Hx' as [_ Hn]. apply Hn, elem_of_singleton.
      reflexivity. }
    apply subset_size in Hs. lia.
  - apply IH. lia.
Qed.

(** [NewDesc] sets no error exactly when the metric name and every label
    name are well-formed and no label name occurs twice. *)
Lemma NewDesc_accepts n h l :
  err (NewDesc n h l) = None <->
  IsValidMetricName n = true /\ Forall (fun x => checkLabelName x = true) l /\ NoDup l.
Proof.
  unfold NewDesc. destruct (IsValidMetricName n); simpl; [|split; [discriminate|intros [? _]; discriminate]].
  destruct (List.find _ l) as [x|] eqn:Ef; simpl.
  - split; [discriminate|]. intros (_ & Hf & _).
    apply find_some in Ef as [Hin Hx]. rewrite Forall_forall in Hf.
    apply list_elem_of_In, Hf in Hin. rewrite Hin in Hx. discriminate.
  - assert (Forall (fun x => checkLabelName x = true) l) as Hf.
    { apply Forall_forall. intros x Hin. apply list_elem_of_In in Hin.
      apply (find_none _ _ Ef) in Hin. destruct (checkLabelName x); [reflexivity|discriminate]. }
    destruct (Nat.eqb_spec (length l) (size (list_to_set l : gset string))) as [He|He]; simpl.
    + split; [|reflexivity]. intros _. repeat split; [exact Hf|].
      apply NoDup_size. congruence.
    + split; [discriminate|]. intros (_ & _ & Hn). apply NoDup_size in Hn. congruence.
Qed.

(** ** Values, omitted fields and label names *)

Lemma float64_exact x : x < 2 ^ 53 -> float64 x = x.
Proof. intros H. unfold float64. apply Z.ltb_lt in H. rewrite H. reflexivity. Qed.

Lemma seconds_exact ns : ns < 2 ^ 64 -> float64 (ns / 1000000000) = ns / 1000000000.
Proof.
  intros H. apply float64_exact. apply Z.div_lt_upper_bound; lia.
Qed.

Lemma memoryFields_bound m set fam dir kib :
  RSS m < 2 ^ 53 -> Available m < 2 ^ 53 -> SwapIn m < 2 ^ 53 -> SwapOut m < 2 ^ 53 ->
  (set, fam, dir, kib) ∈ memoryFields m -> kib < 2 ^ 53.
Proof.
  intros H1 H2 H3 H4 H. unfold memoryFields in H.
  repeat (apply elem_of_cons in H as [H|H]; [injection H as -> -> -> ->; assumption|]).
  inversion H.
Qed.

(** C4 (as amended): a memory sample is the KiB number of its field times
    1024 (for numbers below [2^53], which a double holds exactly); a vCPU
    sample is the whole number of seconds in the nanosecond time, that is
    the quotient of the integer division by [10^9], the remainder being
    dropped. *)
Theorem C4_unit_conversion
    (vmi : VirtualMachineInstance) (vmStats : DomainStats) (s : GoState) (mv : Metric) :
  RSS (Memory vmStats) < 2 ^ 53 -> Available (Memory vmStats) < 2 ^ 53 ->
  SwapIn (Memory vmStats) < 2 ^ 53 -> SwapOut (Memory vmStats) < 2 ^ 53 ->
  Forall (fun vcpu => 0 <= Time vcpu < 2 ^ 64) (Vcpu vmStats) ->
  (mv ∈ emitted (updateMemory vmi vmStats) s ->
   exists fam dir kib,
     (true, fam, dir, kib) ∈ memoryFields (Memory vmStats) /\
     fqName (desc mv) = familyName fam /\
     labelValues mv = (vmiValues vmi ++ option_list dir) ++ dynValues vmi /\
     val mv = kib * 1024) /\
  (mv ∈ emitted (updateVcpu vmi vmStats) s ->
   exists vcpuId vcpu,
     Vcpu vmStats !! vcpuId = Some vcpu /\
     labelValues mv !! 3%nat = Some (Sprintf_v (Z.of_nat vcpuId)) /\
     val mv = Time vcpu / 1000000000 /\
     val mv * 1000000000 <= Time vcpu < (val mv + 1) * 1000000000).
Proof.
  intros H1 H2 H3 H4 Hv. split; intros H.
  - apply memory_samples in H as (set & fam & dir & kib & Hin & -> & He & ->).
    exists fam, dir, kib. split; [exact Hin|]. simpl.
    split; [apply fqName_NewDesc|]. split; [reflexivity|].
    rewrite float64_exact; [reflexivity|].
    eapply memoryFields_bound; eauto.
  - apply vcpu_samples in H as (vcpuId & vcpu & Hl & _ & _ & _ & ->).
    exists vcpuId, vcpu. split; [exact Hl|]. split; [reflexivity|]. simpl.
    rewrite Forall_forall in Hv.
    assert (0 <= Time vcpu < 2 ^ 64) as Ht
      by (apply Hv; eapply list_elem_of_lookup_2; exact Hl).
    rewrite seconds_exact by lia. split; [reflexivity|].
    pose proof (Z.div_mod (Time vcpu) 1000000000 ltac:(lia)) as Hd.
    pose proof (Z.mod_pos_bound (Time vcpu) 1000000000 ltac:(lia)) as Hm.
    lia.
Qed.

(** The example of the specification: 2048 KiB resident give 2097152 bytes
    and 3000000000 ns give 3 s. *)
Lemma C4_unit_conversion_witness :
  val <$> emitted (updateMemory plainVMI exampleStats) initState = [2097152] /\
  val <$> emitted (updateVcpu plainVMI exampleStats) initState = [3] /\
  forall mv,
    mv ∈ emitted (updateVcpu plainVMI exampleStats) initState ->
    exists vcpuId vcpu,
      Vcpu exampleStats !! vcpuId = Some vcpu /\
      labelValues mv !! 3%nat = Some (Sprintf_v (Z.of_nat vcpuId)) /\
      val mv = Time vcpu / 1000000000 /\
      val mv * 1000000000 <= Time vcpu < (val mv + 1) * 1000000000.
Proof.
  split; [vm_compute; reflexivity|]. split; [vm_compute; reflexivity|].
  intros mv.
  apply (C4_unit_conversion plainVMI exampleStats initState mv);
    try reflexivity.
  constructor; [|constructor]. split; [discriminate | reflexivity].
Defined.

(** C4, as stated, fails: a vCPU time of 1.5 s gives the sample value 1,
    which is not 1500000000 divided by 1e9. *)
Lemma C4_vcpu_seconds_truncated :
  val <$> emitted (updateVcpu plainVMI (vcpuStats 1500000000)) initState = [1] /\
  ~ (inject_Z 1 == inject_Z 1500000000 / inject_Z 1000000000)%Q.
Proof.
  split; [vm_compute; reflexivity|].
  intros H. vm_compute in H. discriminate H.
Qed.

Lemma Replace_sanitize k : strings.Replace labelFormatter k = sanitize k.
Proof.
  induction k as [|c k IH]; [reflexivity|]. simpl. rewrite IH. f_equal.
  destruct c as [[] [] [] [] [] [] [] []]; reflexivity.
Qed.

Lemma dynLabels_spec vmi : dynLabels vmi = metadataLabelNames vmi.
Proof.
  unfold dynLabels, metadataLabelNames, dynName.
  rewrite <- !list_fmap_compose. f_equal; apply list_fmap_ext; intros ? [k v] _; simpl;
    rewrite Replace_sanitize; reflexivity.
Qed.

Lemma keys_of_map (m : gmap string string) :
  NoDup (map_to_list m).*1 /\
  (forall k, k ∈ (map_to_list m).*1 <-> is_Some (m !! k)) /\
  length (map_to_list m).*1 = size m.
Proof.
  split; [apply NoDup_fst_map_to_list|]. split.
  - intros k. rewrite list_elem_of_fmap. split.
    + intros ([k' v] & -> & H). apply elem_of_map_to_list in H. eauto.
    + intros [v H]. exists (k, v). split; [reflexivity|]. apply elem_of_map_to_list. exact H.
  - rewrite length_fmap. apply length_map_to_list.
Qed.

Lemma pkg_updateMemory vmi vmStats s :
  pkg (stateOf (updateMemory vmi vmStats s)) = refresh memoryFamilies vmi (pkg s).
Proof. rewrite updateMemory_play, play_pkg. reflexivity. Qed.

(** C6: the label name appended for a metadata label key is
    ["vmi_k8s_label_"] followed by the key with each of [.], [/], [-]
    replaced by [_], and for an annotation key ["vmi_k8s_annotation_"]
    followed by the key sanitized in the same way.  After [updateMemory]
    each label-name variable of the memory families, and the descriptor
    built from it, holds the base labels followed by one such name per
    metadata key; the keys visited are exactly the keys of the maps, each
    once.  Every sample of the four update functions carries a descriptor
    of that shape. *)
Theorem C6_dynamic_label_names
    (vmi : VirtualMachineInstance) (vmStats : DomainStats) (s : GoState) :
  (forall k, strings.Replace labelFormatter k = sanitize k) /\
  (forall f, f ∈ memoryFamilies ->
     varLabels (get f (pkg (stateOf (updateMemory vmi vmStats s))))
       = baseLabels f ++ metadataLabelNames vmi /\
     variableLabels (varDesc (get f (pkg (stateOf (updateMemory vmi vmStats s)))))
       = baseLabels f ++ metadataLabelNames vmi) /\
  (forall mv,
     mv ∈ emitted (updateMemory vmi vmStats) s \/
     mv ∈ emitted (updateVcpu vmi vmStats) s \/
     mv ∈ emitted (updateBlock vmi vmStats) s \/
     mv ∈ emitted (updateNetwork vmi vmStats) s ->
     exists f, fqName (desc mv) = familyName f /\
               variableLabels (desc mv) = baseLabels f ++ metadataLabelNames vmi) /\
  (NoDup (map_to_list (Labels vmi)).*1 /\
   (forall k, k ∈ (map_to_list (Labels vmi)).*1 <-> is_Some (Labels vmi !! k))) /\
  (NoDup (map_to_list (Annotations vmi)).*1 /\
   (forall k, k ∈ (map_to_list (Annotations vmi)).*1 <-> is_Some (Annotations vmi !! k))) /\
  length (metadataLabelNames vmi) = (size (Labels vmi) + size (Annotations vmi))%nat /\
  "vmi_k8s_label_" +:+ strings.Replace labelFormatter "kubernetes.io/foo"
    = "vmi_k8s_label_kubernetes_io_foo" /\
  "vmi_k8s_annotation_" +:+ strings.Replace labelFormatter "team-id"
    = "vmi_k8s_annotation_team_id".
Proof.
  split; [apply Replace_sanitize|]. split; [|split].
  - intros f Hf. rewrite pkg_updateMemory.
    rewrite get_refresh. destruct (decide (f ∈ memoryFamilies)); [|contradiction].
    simpl. unfold descFor. rewrite variableLabels_NewDesc. unfold labelsFor.
    rewrite dynLabels_spec. auto.
  - intros mv H. rewrite <- dynLabels_spec.
    destruct H as [H|[H|[H|H]]].
    + apply memory_samples in H as (? & f & ? & ? & _ & _ & _ & ->). exists f. simpl.
      unfold descFor. rewrite fqName_NewDesc, variableLabels_NewDesc. auto.
    + apply vcpu_samples in H as (? & ? & _ & _ & _ & _ & ->). exists vcpuUsage. simpl.
      unfold descFor. rewrite fqName_NewDesc, variableLabels_NewDesc. auto.
    + apply block_samples in H as (? & ? & ? & f & ? & ? & _ & _ & _ & _ & _ & ->).
      exists f. simpl.
      unfold descFor. rewrite fqName_NewDesc, variableLabels_NewDesc. auto.
    + apply net_samples in H as (? & ? & ? & f & ? & ? & _ & _ & _ & _ & _ & ->).
      exists f. simpl.
      unfold descFor. rewrite fqName_NewDesc, variableLabels_NewDesc. auto.
  - destruct (keys_of_map (Labels vmi)) as (N1 & K1 & L1).
    destruct (keys_of_map (Annotations vmi)) as (N2 & K2 & L2).
    repeat split; try assumption; try apply K1; try apply K2.
    unfold metadataLabelNames. rewrite length_app, !length_fmap.
    rewrite length_fmap in L1, L2. congruence.
Qed.

Lemma length_vmi_values f vmi extra :
  length (vmiValues vmi ++ extra) = length (baseLabels f) ->
  length ((vmiValues vmi ++ extra) ++ dynValues vmi) =
  length (variableLabels (descFor f vmi)).
Proof.
  intros H. unfold descFor. rewrite variableLabels_NewDesc. unfold labelsFor.
  rewrite !(length_app _ (dynValues vmi)), (length_app _ (dynLabels vmi)), length_dyn, H.
  reflexivity.
Qed.

Lemma rssOnly_events vmi vmStats :
  RSSSet (Memory vmStats) = true -> AvailableSet (Memory vmStats) = false ->
  SwapInSet (Memory vmStats) = false -> SwapOutSet (Memory vmStats) = false ->
  sends (memoryEvents vmi vmStats) =
  match err (descFor memoryResident vmi) with
  | None => [mkMetric (descFor memoryResident vmi) GaugeValue
               (float64 (RSS (Memory vmStats)) * 1024) (vmiValues vmi ++ dynValues vmi)]
  | Some _ => []
  end.
Proof.
  intros H1 H2 H3 H4. unfold memoryEvents. rewrite H1, H2, H3, H4.
  match goal with
  | |- _ = ?r =>
      change (sends [pushEvent (descFor memoryResident vmi) GaugeValue
                       (float64 (RSS (Memory vmStats)) * 1024)
                       (vmiValues vmi ++ dynValues vmi)] = r)
  end.
  unfold pushEvent, NewConstMetric.
  destruct (err (descFor memoryResident vmi)); [reflexivity|].
  pose proof (length_vmi_values memoryResident vmi [] eq_refl) as Hl.
  rewrite app_nil_r in Hl.
  apply Nat.eqb_eq in Hl. rewrite Hl. reflexivity.
Qed.

(** C5 (as amended): every sample that reaches the sink belongs to a field
    whose "is set" flag is true (for a vCPU both its state and its time,
    for a block device or an interface its name as well), so no sample
    stands for an absent field.  A record with only the RSS flag set
    yields at most one memory sample, the resident one, and none for
    available memory or swap; it yields exactly that one when the sink is
    open and the metrics library accepts the descriptor built from the
    VMI's metadata (see [NewDesc_accepts]).  It does not accept it when
    two metadata keys sanitize to the same label name: the sample is then
    dropped with a warning. *)
Theorem C5_absent_fields_omitted
    (vmi : VirtualMachineInstance) (vmStats : DomainStats) (s : GoState) :
  (forall mv, mv ∈ emitted (updateMemory vmi vmStats) s ->
     exists fam dir kib,
       (true, fam, dir, kib) ∈ memoryFields (Memory vmStats) /\
       fqName (desc mv) = familyName fam /\
       labelValues mv = (vmiValues vmi ++ option_list dir) ++ dynValues vmi /\
       val mv = float64 kib * 1024) /\
  (forall mv, mv ∈ emitted (updateVcpu vmi vmStats) s ->
     exists vcpuId vcpu,
       Vcpu vmStats !! vcpuId = Some vcpu /\
       StateSet vcpu = true /\ TimeSet vcpu = true /\
       labelValues mv !! 3%nat = Some (Sprintf_v (Z.of_nat vcpuId))) /\
  (forall mv, mv ∈ emitted (updateBlock vmi vmStats) s ->
     exists blockId block fam dir n,
       Block vmStats !! blockId = Some block /\ Block.NameSet block = true /\
       (true, fam, dir, n) ∈ blockFields block /\
       fqName (desc mv) = familyName fam /\
       labelValues mv = (vmiValues vmi ++ [Block.Name block; dir]) ++ dynValues vmi /\
       val mv = float64 n) /\
  (forall mv, mv ∈ emitted (updateNetwork vmi vmStats) s ->
     exists netId net fam dir n,
       Net vmStats !! netId = Some net /\ Net.NameSet net = true /\
       (true, fam, dir, n) ∈ netFields net /\
       fqName (desc mv) = familyName fam /\
       labelValues mv = (vmiValues vmi ++ [Net.Name net; dir]) ++ dynValues vmi /\
       val mv = float64 n) /\
  (RSSSet (Memory vmStats) = true -> AvailableSet (Memory vmStats) = false ->
   SwapInSet (Memory vmStats) = false -> SwapOutSet (Memory vmStats) = false ->
   (emitted (updateMemory vmi vmStats) s = [] \/
    emitted (updateMemory vmi vmStats) s =
      [mkMetric (descFor memoryResident vmi) GaugeValue
         (float64 (RSS (Memory vmStats)) * 1024) (vmiValues vmi ++ dynValues vmi)]) /\
   (sinkOpen s -> err (descFor memoryResident vmi) = None ->
    emitted (updateMemory vmi vmStats) s =
      [mkMetric (descFor memoryResident vmi) GaugeValue
         (float64 (RSS (Memory vmStats)) * 1024) (vmiValues vmi ++ dynValues vmi)])).
Proof.
  split; [|split; [|split; [|split]]].
  - intros mv H.
    apply memory_samples in H as (set & fam & dir & kib & Hin & -> & He & ->).
    exists fam, dir, kib. simpl. unfold descFor. rewrite fqName_NewDesc. repeat split; auto.
  - intros mv H.
    apply vcpu_samples in H as (vcpuId & vcpu & Hl & H1 & H2 & _ & ->).
    exists vcpuId, vcpu. repeat split; auto.
  - intros mv H.
    apply block_samples in H as (j & b & set & fam & dir & n & Hl & Hn & Hin & -> & _ & ->).
    exists j, b, fam, dir, n. simpl. unfold descFor. rewrite fqName_NewDesc. repeat split; auto.
  - intros mv H.
    apply net_samples in H as (j & b & set & fam & dir & n & Hl & Hn & Hin & -> & _ & ->).
    exists j, b, fam, dir, n. simpl. unfold descFor. rewrite fqName_NewDesc. repeat split; auto.
  - intros H1 H2 H3 H4. pose proof (rssOnly_events vmi vmStats H1 H2 H3 H4) as Hs. split.
    + destruct (emitted_updateMemory vmi vmStats s) as [k ->]. rewrite Hs.
      destruct (err (descFor memoryResident vmi)); [left; apply take_nil|].
      destruct k; [left; reflexivity|right]. simpl. rewrite take_nil. reflexivity.
    + intros Ho He. unfold emitted. rewrite updateMemory_play.
      rewrite He in Hs. rewrite <- Hs.
      apply (emitted_play_open _ (withPkg _ s)). exact Ho.
Qed.

(** C5, as stated, fails: the RSS flag is set and the sink is open, yet no
    memory sample is delivered, because the label keys [a.b] and [a-b]
    sanitize to one label name and the descriptor is refused. *)
Lemma C5_colliding_keys_no_sample :
  RSSSet (Memory (memoryStats (rssOnly 2048))) = true /\
  dynLabels collidingVMI = ["vmi_k8s_label_a_b"; "vmi_k8s_label_a_b"] /\
  emitted (updateMemory collidingVMI (memoryStats (rssOnly 2048))) initState = [] /\
  logged (updateMemory collidingVMI (memoryStats (rssOnly 2048))) initState
    = [mkLogOf (Some 4%nat) WARNING "Error creating the new const metric for %s: %s"
         [OpDesc (descFor memoryAvailable collidingVMI);
          OpError errDuplicateLabelNames]].
Proof. repeat split; vm_compute; reflexivity. Qed.

(** ** Phase aggregation *)

Lemma keys_of_map_Z (m : gmap string Z) :
  NoDup (map_to_list m).*1 /\
  (forall k, k ∈ (map_to_list m).*1 <-> is_Some (m !! k)).
Proof.
  split; [apply NoDup_fst_map_to_list|].
  intros k. rewrite list_elem_of_fmap. split.
  - intros ([k' v] & -> & H). apply elem_of_map_to_list in H. eauto.
  - intros [v H]. exists (k, v). split; [reflexivity|]. apply elem_of_map_to_list. exact H.
Qed.

Lemma incr_lookup k (m : gmap string Z) p :
  incr k m !! p =
  if decide (k = p) then Some ((default 0 (m !! k) + 1) mod 2 ^ 64) else m !! p.
Proof.
  unfold incr. destruct (decide (k = p)) as [->|Hne].
  - apply lookup_insert_eq.
  - apply lookup_insert_ne. exact Hne.
Qed.

Lemma countPhase_cons p vmi vmis :
  countPhase p (vmi :: vmis) =
  if decide (strings.ToLower (Phase (Status vmi)) = p)
  then S (countPhase p vmis) else countPhase p vmis.
Proof.
  unfold countPhase. rewrite filter_cons.
  destruct (decide (strings.ToLower (Phase (Status vmi)) = p)); reflexivity.
Qed.

Lemma phases_fold vmis (m : gmap string Z) p :
  fold_left (fun phasesMap vmi => incr (strings.ToLower (Phase (Status vmi))) phasesMap)
            vmis m !! p =
  if decide (countPhase p vmis = 0%nat) then m !! p
  else Some ((default 0 (m !! p) + Z.of_nat (countPhase p vmis)) mod 2 ^ 64).
Proof.
  revert m. induction vmis as [|vmi vmis IH]; intros m; [reflexivity|].
  simpl fold_left. rewrite IH, countPhase_cons, incr_lookup.
  destruct (decide (strings.ToLower (Phase (Status vmi)) = p)) as [->|Hne].
  - destruct (decide (countPhase _ vmis = 0%nat)) as [Hz|Hz].
    + rewrite Hz. destruct (decide (1%nat = 0%nat)); [discriminate|]. reflexivity.
    + destruct (decide (S _ = 0%nat)); [discriminate|]. simpl default.
      rewrite Zplus_mod_idemp_l. f_equal. f_equal. lia.
  - reflexivity.
Qed.

Lemma makeVMIsPhasesMap_lookup vmis p :
  Z.of_nat (length vmis) < 2 ^ 64 ->
  makeVMIsPhasesMap vmis !! p =
  if decide (countPhase p vmis = 0%nat) then None
  else Some (Z.of_nat (countPhase p vmis)).
Proof.
  intros Hlen. unfold makeVMIsPhasesMap. rewrite phases_fold, lookup_empty.
  destruct (decide (countPhase p vmis = 0%nat)); [reflexivity|]. simpl.
  assert (countPhase p vmis <= length vmis)%nat by apply length_filter.
  rewrite Z.mod_small by lia. reflexivity.
Qed.

Lemma countPhase_pos p vmis :
  countPhase p vmis <> 0%nat <->
  exists vmi, vmi ∈ vmis /\ strings.ToLower (Phase (Status vmi)) = p.
Proof.
  unfold countPhase. split.
  - intros H. destruct (filter _ vmis) as [|vmi l] eqn:E; [contradiction|].
    assert (vmi ∈ filter (fun vmi => strings.ToLower (Phase (Status vmi)) = p) vmis) as Hf
      by (rewrite E; left).
    apply list_elem_of_filter in Hf as [Hp Hin]. exists vmi. auto.
  - intros (vmi & Hin & Hp) H. apply length_zero_iff_nil in H.
    assert (vmi ∈ filter (fun vmi => strings.ToLower (Phase (Status vmi)) = p) vmis) as Hf
      by (apply list_elem_of_filter; auto).
    rewrite H in Hf. inversion Hf.
Qed.

Lemma vmiCountDesc_ok :
  err vmiCountDesc = None /\ variableLabels vmiCountDesc = ["node"; "phase"].
Proof. split; vm_compute; reflexivity. Qed.

Lemma phase_loop nodeName (l : list (string * Z)) i s :
  sinkOpen s ->
  forRangeFrom i l (fun _ '(phase, count) =>
    match NewConstMetric vmiCountDesc GaugeValue (float64 count) [nodeName; phase] with
    | inr _ => mret tt
    | inl mv => send mv
    end) s =
  Returned tt
    (mkState (pkg s)
       (mkChan (sent (ch s) ++
                ((fun pc => phaseSample nodeName pc.1 (float64 pc.2)) <$> l)) None)
       (logs s)).
Proof.
  destruct vmiCountDesc_ok as [He Hl].
  unfold sinkOpen. revert i s. induction l as [|[p c] l IH]; intros i [g [snt o] lg] Ho;
    simpl in Ho; subst o.
  - simpl. rewrite app_nil_r. reflexivity.
  - simpl forRangeFrom. rewrite bind_run. unfold NewConstMetric. rewrite He, Hl. simpl.
    unfold send. simpl. rewrite IH by reflexivity. simpl.
    rewrite <- app_assoc. reflexivity.
Qed.

Lemma updateVMIsPhase_open nodeName vmis s :
  sinkOpen s ->
  updateVMIsPhase nodeName vmis s =
  Returned tt
    (mkState (pkg s)
       (mkChan (sent (ch s) ++
                ((fun pc => phaseSample nodeName pc.1 (float64 pc.2))
                   <$> map_to_list (makeVMIsPhasesMap vmis))) None)
       (logs s)).
Proof. intros Ho. unfold updateVMIsPhase, forRange. apply phase_loop, Ho. Qed.

(** C7: on an open sink, phase aggregation delivers exactly one gauge
    sample for each lower-cased phase that occurs among the listed VMIs
    and none for any other; the sample is labelled with the node and the
    phase, and its value is the number of listed VMIs in that phase (for
    a list of fewer than [2^53] VMIs, whose counts a double holds
    exactly). *)
Theorem C7_phase_histogram
    (nodeName : string) (vmis : list VirtualMachineInstance) (s : GoState) :
  sinkOpen s ->
  Z.of_nat (length vmis) < 2 ^ 53 ->
  exists phases : list string,
    emitted (updateVMIsPhase nodeName vmis) s =
      (fun p => mkMetric vmiCountDesc GaugeValue (Z.of_nat (countPhase p vmis))
                         [nodeName; p]) <$> phases /\
    NoDup phases /\
    forall p, p ∈ phases <->
              exists vmi, vmi ∈ vmis /\ strings.ToLower (Phase (Status vmi)) = p.
Proof.
  intros Ho Hlen.
  assert (Hlk := fun p => makeVMIsPhasesMap_lookup vmis p ltac:(lia)).
  exists (map_to_list (makeVMIsPhasesMap vmis)).*1. split; [|split].
  - unfold emitted. rewrite updateVMIsPhase_open by exact Ho. simpl.
    rewrite drop_app_length, <- list_fmap_compose.
    apply list_fmap_ext. intros j [p c] Hj. simpl. unfold phaseSample. f_equal.
    apply list_elem_of_lookup_2, elem_of_map_to_list in Hj. rewrite Hlk in Hj.
    destruct (decide (countPhase p vmis = 0%nat)); [discriminate|].
    injection Hj as <-. apply float64_exact.
    assert (countPhase p vmis <= length vmis)%nat by apply length_filter. lia.
  - apply NoDup_fst_map_to_list.
  - intros p. rewrite <- countPhase_pos.
    destruct (keys_of_map_Z (makeVMIsPhasesMap vmis)) as (_ & K).
    rewrite K, Hlk. destruct (decide (countPhase p vmis = 0%nat)) as [Hz|Hz].
    + split; [intros [? ?]; discriminate | contradiction].
    + split; [auto | eauto].
Qed.

(** The example of the specification: phases Running, Running, Failed on
    [node-a] give two samples, (node-a, running) = 2 and
    (node-a, failed) = 1. *)
Lemma C7_phase_histogram_witness :
  (fun mv => (labelValues mv, val mv)) <$>
    emitted (updateVMIsPhase "node-a" threeVMIs) initState
    = [(["node-a"; "failed"], 1); (["node-a"; "running"], 2)] /\
  exists phases : list string,
    emitted (updateVMIsPhase "node-a" threeVMIs) initState =
      (fun p => mkMetric vmiCountDesc GaugeValue (Z.of_nat (countPhase p threeVMIs))
                         ["node-a"; p]) <$> phases /\
    NoDup phases /\
    forall p, p ∈ phases <->
              exists vmi, vmi ∈ threeVMIs /\ strings.ToLower (Phase (Status vmi)) = p.
Proof.
  split; [vm_compute; reflexivity|].
  apply (C7_phase_histogram "node-a" threeVMIs initState); reflexivity.
Defined.

(** ** The collection cycle *)

Lemma appends_ret : appends (mret tt).
Proof. intros s Ho. exists s. split; [reflexivity|]. split; [exact Ho | reflexivity]. Qed.

Lemma appends_logf v sev msg : appends (logf v sev msg).
Proof.
  intros s Ho. eexists. split; [reflexivity|]. split; [exact Ho | reflexivity].
Qed.

Lemma appends_bind (m1 m2 : M unit) :
  appends m1 -> appends m2 -> appends (m1 ;; m2).
Proof.
  intros H1 H2 s Ho. destruct (H1 s Ho) as (s1 & E1 & Ho1 & P1).
  destruct (H2 s1 Ho1) as (s2 & E2 & Ho2 & P2).
  exists s2. rewrite bind_run, E1. split; [exact E2|]. split; [exact Ho2|].
  etransitivity; eassumption.
Qed.

Lemma appends_play evs h : appends (fun s => play evs (withPkg h s)).
Proof.
  intros s Ho. eexists. split; [apply play_open; exact Ho|].
  split; [reflexivity|]. simpl. apply prefix_app_r. reflexivity.
Qed.

Lemma appends_playLoop {A} (l : list A) h ev : appends (playLoop l h ev).
Proof. destruct l; [apply appends_ret | apply appends_play]. Qed.

Lemma appends_ext (m m' : M unit) : (forall s, m s = m' s) -> appends m' -> appends m.
Proof. intros He H s Ho. rewrite He. apply H, Ho. Qed.

Lemma appends_Report socketFile vmi vmStats : appends (Report socketFile vmi vmStats).
Proof.
  assert (appends (updateMemory vmi vmStats ;; updateVcpu vmi vmStats ;;
                   updateBlock vmi vmStats ;; updateNetwork vmi vmStats)) as H.
  { apply appends_bind;
      [apply (appends_ext _ _ (updateMemory_play vmi vmStats)), appends_play|].
    apply appends_bind;
      [apply (appends_ext _ _ (updateVcpu_play vmi vmStats)), appends_playLoop|].
    apply appends_bind;
      [apply (appends_ext _ _ (updateBlock_play vmi vmStats)), appends_playLoop|].
    apply (appends_ext _ _ (updateNetwork_play vmi vmStats)), appends_playLoop. }
  intros s Ho. destruct (H s Ho) as (s' & E & Ho' & P).
  exists s'. unfold Report, deferRecover. rewrite E. auto.
Qed.

Lemma appends_Scrape tmo newc el socketFile vmi :
  appends (Scrape tmo newc el socketFile vmi).
Proof.
  unfold Scrape.
  destruct (newc socketFile) as [cli|e]; [|apply appends_logf].
  destruct (GetDomainStats cli) as [[vmStats ex]|e]; [|apply appends_logf].
  destruct (negb ex || (stats.Name vmStats =? "")%string); [apply appends_logf|].
  destruct (el socketFile >? statsMaxAge tmo); [apply appends_logf|].
  apply appends_Report.
Qed.

Lemma appends_forRangeFrom {A} (l : list A) (body : nat -> A -> M unit) i :
  (forall j x, appends (body j x)) -> appends (forRangeFrom i l body).
Proof.
  intros Hb. revert i. induction l as [|x l IH]; intros i; simpl.
  - apply appends_ret.
  - apply appends_bind; [apply Hb | apply IH].
Qed.

(** The scheduler that runs every task to its end is one [Collect] can
    rely on. *)
Lemma runAll_wellBehaved : wellBehaved runAll.
Proof.
  intros scr Hscr m t. unfold runAll, forRange.
  apply appends_forRangeFrom. intros j [socket vmi]. apply Hscr.
Qed.

Lemma versionDesc_ok :
  err versionDesc = None /\ variableLabels versionDesc = ["goversion"; "kubeversion"].
Proof. split; vm_compute; reflexivity. Qed.

Lemma updateVersion_open ver s :
  sinkOpen s ->
  updateVersion ver s =
  Returned tt (mkState (pkg s) (mkChan (sent (ch s) ++ [versionSample ver]) None) (logs s)).
Proof.
  destruct versionDesc_ok as [He Hl].
  unfold sinkOpen, updateVersion, NewConstMetric. rewrite He, Hl. simpl.
  unfold send. intros ->. reflexivity.
Qed.

Lemma Collect_nonempty ver tmo find newc el co vmis s :
  sinkOpen s -> wellBehaved (concCollector co) ->
  virtCli co (nodeName co) = inl vmis -> vmis <> [] ->
  exists scraped,
    emitted (Collect ver tmo find newc el co) s =
    [versionSample ver] ++ scraped ++
    ((fun pc => phaseSample (nodeName co) pc.1 (float64 pc.2))
       <$> map_to_list (makeVMIsPhasesMap vmis)).
Proof.
  intros Ho Hw Hv Hne. unfold Collect, emitted.
  rewrite bind_run, updateVersion_open by exact Ho. rewrite Hv.
  destruct vmis as [|vmi0 vmis0]; [contradiction|].
  change (Nat.eqb (length (vmi0 :: vmis0)) 0) with false. cbv iota.
  rewrite bind_run.
  match goal with
  | |- context [concCollector co ?m ?scr ?t ?s1] =>
      destruct (Hw scr (appends_Scrape tmo newc el) m t s1 eq_refl)
        as (s2 & -> & Ho2 & [scraped Hp])
  end.
  rewrite updateVMIsPhase_open by exact Ho2. simpl in Hp |- *.
  exists scraped. rewrite Hp, <- !app_assoc, drop_app_length. reflexivity.
Qed.

Lemma makeVMIsPhasesMap_nonempty vmis : vmis <> [] -> makeVMIsPhasesMap vmis <> ∅.
Proof.
  destruct vmis as [|vmi vmis]; [contradiction|]. intros _ He.
  pose proof (phases_fold (vmi :: vmis) ∅ (strings.ToLower (Phase (Status vmi)))) as H.
  fold (makeVMIsPhasesMap (vmi :: vmis)) in H. rewrite He, lookup_empty in H.
  rewrite countPhase_cons in H.
  destruct (decide (strings.ToLower (Phase (Status vmi)) =
                    strings.ToLower (Phase (Status vmi)))); [|contradiction].
  destruct (decide (S _ = 0%nat)); discriminate.
Qed.

Lemma no_socket_map find baseDir vmis :
  (forall vmi, vmi ∈ vmis -> exists e, find vmi = inr e) ->
  newvmiSocketMapFromVMIs find baseDir vmis = ∅.
Proof.
  intros H. unfold newvmiSocketMapFromVMIs.
  destruct (Nat.eqb (length vmis) 0); [reflexivity|].
  generalize (∅ : vmiSocketMap) as m.
  induction vmis as [|vmi vmis IH]; intros m; simpl.
  - reflexivity.
  - destruct (H vmi) as [e ->]; [left|]. apply IH. intros v Hv. apply H. right. exact Hv.
Qed.

(** C8: on an open sink every cycle first delivers the version sample,
    whose value is 1.  When the directory query fails, and when it
    returns no VMI, [Collect] returns right after it: the version sample
    is all the cycle delivers, one line is logged, and nothing else
    changes (no socket map is used, no task runs, no phase is counted). *)
Theorem C8_version_then_abort
    (ver : version.Info) (collectionTimeout : Z)
    (FindSocketOnHost : VirtualMachineInstance -> string + error)
    (NewClient : string -> LauncherClient + error) (elapsedOn : string -> Z)
    (co : Collector) (s : GoState) :
  sinkOpen s ->
  wellBehaved (concCollector co) ->
  val (versionSample ver) = 1 /\
  (exists rest,
     emitted (Collect ver collectionTimeout FindSocketOnHost NewClient elapsedOn co) s
     = versionSample ver :: rest) /\
  ((exists e, virtCli co (nodeName co) = inr e) ->
   Collect ver collectionTimeout FindSocketOnHost NewClient elapsedOn co s =
   Returned tt (mkState (pkg s)
                  (mkChan (sent (ch s) ++ [versionSample ver]) None)
                  (logs s ++ [mkLog None ERROR "failed to list all VMIs"]))) /\
  (virtCli co (nodeName co) = inl [] ->
   Collect ver collectionTimeout FindSocketOnHost NewClient elapsedOn co s =
   Returned tt (mkState (pkg s)
                  (mkChan (sent (ch s) ++ [versionSample ver]) None)
                  (logs s ++ [mkLog (Some 4%nat) INFO "No VMIs detected"]))).
Proof.
  intros Ho Hw. split; [reflexivity|].
  assert (Hfail : (exists e, virtCli co (nodeName co) = inr e) ->
    Collect ver collectionTimeout FindSocketOnHost NewClient elapsedOn co s =
    Returned tt (mkState (pkg s)
                   (mkChan (sent (ch s) ++ [versionSample ver]) None)
                   (logs s ++ [mkLog None ERROR "failed to list all VMIs"]))).
  { intros [e He]. unfold Collect. rewrite bind_run, updateVersion_open by exact Ho.
    rewrite He. reflexivity. }
  assert (Hempty : virtCli co (nodeName co) = inl [] ->
    Collect ver collectionTimeout FindSocketOnHost NewClient elapsedOn co s =
    Returned tt (mkState (pkg s)
                   (mkChan (sent (ch s) ++ [versionSample ver]) None)
                   (logs s ++ [mkLog (Some 4%nat) INFO "No VMIs detected"]))).
  { intros He. unfold Collect. rewrite bind_run, updateVersion_open by exact Ho.
    rewrite He. reflexivity. }
  split; [|split; assumption].
  destruct (virtCli co (nodeName co)) as [vmis|e] eqn:Hv.
  - destruct vmis as [|vmi0 vmis0].
    + exists []. unfold emitted. rewrite Hempty by reflexivity. simpl.
      apply drop_app_length.
    + destruct (Collect_nonempty ver collectionTimeout FindSocketOnHost NewClient
                  elapsedOn co (vmi0 :: vmis0) s Ho Hw Hv ltac:(discriminate))
        as [scraped ->].
      eexists. reflexivity.
  - exists []. unfold emitted. rewrite Hfail by eauto. simpl. apply drop_app_length.
Qed.

(** A cycle whose directory query fails delivers the version sample and
    nothing else. *)
Lemma C8_version_then_abort_witness :
  (fun mv => (fqName (desc mv), labelValues mv, val mv)) <$>
    emitted (Collect buildInfo tenSeconds socketOf answeringClient thirteenSeconds
               failingCollector) initState
    = [("kubevirt_info", ["go1.13"; "v0.26.0"], 1)] /\
  exists rest,
    emitted (Collect buildInfo tenSeconds socketOf answeringClient thirteenSeconds
               failingCollector) initState
    = versionSample buildInfo :: rest.
Proof.
  split; [vm_compute; reflexivity|].
  exact (proj1 (proj2 (C8_version_then_abort buildInfo tenSeconds socketOf answeringClient
                         thirteenSeconds failingCollector initState
                         eq_refl runAll_wellBehaved))).
Defined.

Lemma phase_samples_counts nodeName vmis :
  Z.of_nat (length vmis) < 2 ^ 53 ->
  exists phases : list string,
    (fun pc : string * Z => phaseSample nodeName pc.1 (float64 pc.2))
      <$> map_to_list (makeVMIsPhasesMap vmis) =
    (fun p => mkMetric vmiCountDesc GaugeValue (Z.of_nat (countPhase p vmis))
                       [nodeName; p]) <$> phases /\
    NoDup phases /\
    forall p, p ∈ phases <->
              exists vmi, vmi ∈ vmis /\ strings.ToLower (Phase (Status vmi)) = p.
Proof.
  intros Hlen.
  assert (Hlk := fun p => makeVMIsPhasesMap_lookup vmis p ltac:(lia)).
  exists (map_to_list (makeVMIsPhasesMap vmis)).*1. split; [|split].
  - rewrite <- list_fmap_compose.
    apply list_fmap_ext. intros j [p c] Hj. simpl. unfold phaseSample. f_equal.
    apply list_elem_of_lookup_2, elem_of_map_to_list in Hj. rewrite Hlk in Hj.
    destruct (decide (countPhase p vmis = 0%nat)); [discriminate|].
    injection Hj as <-. apply float64_exact.
    assert (countPhase p vmis <= length vmis)%nat by apply length_filter. lia.
  - apply NoDup_fst_map_to_list.
  - intros p. rewrite <- countPhase_pos.
    destruct (keys_of_map_Z (makeVMIsPhasesMap vmis)) as (_ & K).
    rewrite K, Hlk. destruct (decide (countPhase p vmis = 0%nat)) as [Hz|Hz].
    + split; [intros [? ?]; discriminate | contradiction].
    + split; [auto | eauto].
Qed.

(** C10: when the directory lists at least one VMI, the cycle ends with
    the phase samples, and these are computed from the whole directory
    list: there is one for each lower-cased phase that occurs in the list,
    its value is the number of listed VMIs in that phase, and so every
    listed VMI is counted in the sample of its phase.  This holds whatever
    the socket resolver answers and whatever the scrape tasks deliver; in
    particular when no socket resolves, so that the socket map is empty
    and no VMI is scraped.  (For a list of fewer than [2^53] VMIs, whose
    counts a double holds exactly.) *)
Theorem C10_phases_from_directory_list
    (ver : version.Info) (collectionTimeout : Z)
    (FindSocketOnHost : VirtualMachineInstance -> string + error)
    (NewClient : string -> LauncherClient + error) (elapsedOn : string -> Z)
    (co : Collector) (vmis : list VirtualMachineInstance) (s : GoState) :
  sinkOpen s ->
  wellBehaved (concCollector co) ->
  virtCli co (nodeName co) = inl vmis ->
  vmis <> [] ->
  Z.of_nat (length vmis) < 2 ^ 53 ->
  (exists (scraped : list Metric) (phases : list string),
     emitted (Collect ver collectionTimeout FindSocketOnHost NewClient elapsedOn co) s =
       [versionSample ver] ++ scraped ++
       ((fun p => mkMetric vmiCountDesc GaugeValue (Z.of_nat (countPhase p vmis))
                           [nodeName co; p]) <$> phases) /\
     NoDup phases /\
     (forall p, p ∈ phases <->
                exists vmi, vmi ∈ vmis /\ strings.ToLower (Phase (Status vmi)) = p)) /\
  (forall vmi,
     vmi ∈ vmis ->
     (0 < countPhase (strings.ToLower (Phase (Status vmi))) vmis)%nat /\
     mkMetric vmiCountDesc GaugeValue
       (Z.of_nat (countPhase (strings.ToLower (Phase (Status vmi))) vmis))
       [nodeName co; strings.ToLower (Phase (Status vmi))]
       ∈ emitted (Collect ver collectionTimeout FindSocketOnHost NewClient elapsedOn co) s) /\
  ((forall vmi, vmi ∈ vmis -> exists e, FindSocketOnHost vmi = inr e) ->
   newvmiSocketMapFromVMIs FindSocketOnHost (virtShareDir co) vmis = ∅).
Proof.
  intros Ho Hw Hv Hne Hlen.
  destruct (Collect_nonempty ver collectionTimeout FindSocketOnHost NewClient elapsedOn
              co vmis s Ho Hw Hv Hne) as [scraped E].
  destruct (phase_samples_counts (nodeName co) vmis Hlen) as (phases & Ep & Hnd & Hin).
  rewrite Ep in E.
  split; [|split].
  - exists scraped, phases. auto.
  - intros vmi Hvmi.
    assert (Hp : strings.ToLower (Phase (Status vmi)) ∈ phases)
      by (apply Hin; exists vmi; auto).
    split.
    + assert (countPhase (strings.ToLower (Phase (Status vmi))) vmis <> 0%nat)
        by (apply countPhase_pos; exists vmi; auto).
      lia.
    + rewrite E. apply elem_of_app. right. apply elem_of_app. right.
      apply list_elem_of_fmap. exists (strings.ToLower (Phase (Status vmi))). auto.
  - apply no_socket_map.
Qed.

(** Three VMIs whose launchers all answer too late (13 s against a
    threshold of 12 s): no VMI contributes a sample of its own, and the
    phases of all three are counted. *)
Lemma C10_phases_from_directory_list_witness :
  (fun mv => (fqName (desc mv), labelValues mv, val mv)) <$>
    emitted (Collect buildInfo tenSeconds socketOf answeringClient thirteenSeconds
               (collectorOf threeVMIs)) initState
    = [("kubevirt_info", ["go1.13"; "v0.26.0"], 1);
       ("kubevirt_vmi_phase_count", ["node-a"; "failed"], 1);
       ("kubevirt_vmi_phase_count", ["node-a"; "running"], 2)] /\
  exists (scraped : list Metric) (phases : list string),
    emitted (Collect buildInfo tenSeconds socketOf answeringClient thirteenSeconds
               (collectorOf threeVMIs)) initState =
      [versionSample buildInfo] ++ scraped ++
      ((fun p => mkMetric vmiCountDesc GaugeValue (Z.of_nat (countPhase p threeVMIs))
                          ["node-a"; p]) <$> phases) /\
    NoDup phases /\
    (forall p, p ∈ phases <->
               exists vmi, vmi ∈ threeVMIs /\ strings.ToLower (Phase (Status vmi)) = p).
Proof.
  split; [vm_compute; reflexivity|].
  refine (proj1 (C10_phases_from_directory_list buildInfo tenSeconds socketOf
                   answeringClient thirteenSeconds (collectorOf threeVMIs) threeVMIs
                   initState eq_refl runAll_wellBehaved eq_refl _ _)).
  - discriminate.
  - vm_compute. reflexivity.
Defined.

(** A launcher that answers at once with resident memory and one vCPU:
    [Scrape] delivers the two samples of the record. *)
Lemma C3_scrape_gates_witness :
  (fun mv => (fqName (desc mv), labelValues mv, val mv)) <$>
    emitted (Scrape tenSeconds answeringClient (fun _ => 0)
               "/var/run/kubevirt/sockets/testvmi" plainVMI) initState
    = [("kubevirt_vmi_memory_resident_bytes", ["node-a"; "default"; "testvmi"], 2097152);
       ("kubevirt_vmi_vcpu_seconds", ["node-a"; "default"; "testvmi"; "0"; "1"], 3)] /\
  Scrape tenSeconds answeringClient (fun _ => 0) "/var/run/kubevirt/sockets/testvmi"
         plainVMI initState =
    Report "/var/run/kubevirt/sockets/testvmi" plainVMI exampleStats initState /\
  emitted (Scrape tenSeconds answeringClient (fun _ => 0)
             "/var/run/kubevirt/sockets/testvmi" plainVMI) initState =
    emitted (updateMemory plainVMI exampleStats) initState ++
    emitted (updateVcpu plainVMI exampleStats) initState ++
    emitted (updateBlock plainVMI exampleStats) initState ++
    emitted (updateNetwork plainVMI exampleStats) initState.
Proof.
  split; [vm_compute; reflexivity|].
  pose proof (proj1 (proj2 (C3_scrape_gates tenSeconds answeringClient (fun _ => 0)
                              "/var/run/kubevirt/sockets/testvmi" plainVMI initState))
                _ exampleStats eq_refl eq_refl) as H.
  destruct H as [E Hopen]; [discriminate|discriminate|].
  split; [exact E|]. apply Hopen. reflexivity.
Defined.

(** C3, as stated, fails in its "if" direction: the connection succeeds,
    the fetch returns a record that exists and has a name, no time has
    passed and the sink is open, yet [Scrape] delivers nothing, because no
    statistic of the record is set. *)
Lemma C3_conditions_hold_nothing_delivered :
  quietClient "/var/run/kubevirt/sockets/testvmi"
    = inl {| GetDomainStats := inl (memoryStats noMemory, true) |} /\
  String.eqb (stats.Name (memoryStats noMemory)) "" = false /\
  0 <= tenSeconds + 2 * 1000000000 /\
  sinkOpen initState /\
  emitted (Scrape tenSeconds quietClient (fun _ => 0)
             "/var/run/kubevirt/sockets/testvmi" plainVMI) initState = [].
Proof. repeat split; vm_compute; try reflexivity; discriminate. Qed.

(** A record with only the RSS flag set, for a VMI with metadata whose
    keys do not collide, on an open sink: exactly the resident sample. *)
Lemma C5_absent_fields_omitted_witness :
  emitted (updateMemory labelledVMI (memoryStats (rssOnly 2048))) initState =
  [mkMetric (descFor memoryResident labelledVMI) GaugeValue
     (float64 2048 * 1024) (vmiValues labelledVMI ++ dynValues labelledVMI)].
Proof.
  refine (proj2 (proj2 (proj2 (proj2 (proj2
            (C5_absent_fields_omitted labelledVMI (memoryStats (rssOnly 2048)) initState))))
            eq_refl eq_refl eq_refl eq_refl) eq_refl _).
  vm_compute. reflexivity.
Defined.

(** * Further properties of the package *)

(** ** Sanitized metadata keys *)

Lemma replaceByte_spec c :
  strings.replaceByte labelFormatter c = if isReplaced c then "_"%char else c.
Proof. destruct c as [[] [] [] [] [] [] [] []]; reflexivity. Qed.

Lemma replaceByte_clean c : isReplaced (strings.replaceByte labelFormatter c) = false.
Proof. destruct c as [[] [] [] [] [] [] [] []]; reflexivity. Qed.

(** X1: [labelFormatter.Replace] keeps the length of a key, leaves none of
    the bytes [.], [/], [-] in it, changes nothing in a key that has none
    of them, and so changes nothing when applied a second time. *)
Theorem labelFormatter_Replace_clean (k : string) :
  String.length (strings.Replace labelFormatter k) = String.length k /\
  allChars (fun c => negb (isReplaced c)) (strings.Replace labelFormatter k) = true /\
  (allChars (fun c => negb (isReplaced c)) k = true -> strings.Replace labelFormatter k = k) /\
  strings.Replace labelFormatter (strings.Replace labelFormatter k) =
    strings.Replace labelFormatter k.
Proof.
  assert (Hlen : String.length (strings.Replace labelFormatter k) = String.length k).
  { induction k as [|c k IH]; cbn [strings.Replace String.length]; [reflexivity|].
    rewrite IH. reflexivity. }
  assert (Hclean : forall k,
            allChars (fun c => negb (isReplaced c)) (strings.Replace labelFormatter k) = true).
  { clear. intros k. induction k as [|c k IH]; cbn [strings.Replace allChars];
      [reflexivity|].
    rewrite replaceByte_clean, IH. reflexivity. }
  assert (Hid : forall k, allChars (fun c => negb (isReplaced c)) k = true ->
                          strings.Replace labelFormatter k = k).
  { clear. intros k. induction k as [|c k IH]; cbn [strings.Replace allChars];
      [reflexivity|].
    intros H. apply andb_prop in H as [Hc Hk]. rewrite (IH Hk), replaceByte_spec.
    destruct (isReplaced c); [discriminate|reflexivity]. }
  repeat split; auto.
Qed.

Lemma allChars_append p a b : allChars p (a +:+ b) = allChars p a && allChars p b.
Proof.
  induction a as [|c a IH]; [reflexivity|].
  change (String c a +:+ b) with (String c (a +:+ b)).
  cbn [allChars]. rewrite IH. apply andb_assoc.
Qed.

Lemma keyChar_sanitized c :
  isKeyChar c = true ->
  isLetter (strings.replaceByte labelFormatter c)
  || isDigit (strings.replaceByte labelFormatter c) = true.
Proof.
  destruct c as [[] [] [] [] [] [] [] []]; vm_compute; intros H;
    first [reflexivity | discriminate H].
Qed.

Lemma key_sanitized k :
  allChars isKeyChar k = true ->
  allChars (fun c => isLetter c || isDigit c) (strings.Replace labelFormatter k) = true.
Proof.
  induction k as [|c k IH]; cbn [strings.Replace allChars]; [reflexivity|].
  intros H. apply andb_prop in H as [Hc Hk].
  rewrite (keyChar_sanitized c Hc), (IH Hk). reflexivity.
Qed.

Lemma checkLabelName_dyn k :
  allChars isKeyChar k = true ->
  checkLabelName (labelPreffix +:+ strings.Replace labelFormatter k) = true /\
  checkLabelName (annotationPreffix +:+ strings.Replace labelFormatter k) = true.
Proof.
  intros H. apply key_sanitized in H.
  unfold checkLabelName, strings.HasPrefix, labelPreffix, annotationPreffix.
  split.
  - change ("vmi_k8s_label_" +:+ strings.Replace labelFormatter k)
      with (String "v" ("mi_k8s_label_" +:+ strings.Replace labelFormatter k)).
    cbn [IsValid]. rewrite allChars_append, H. reflexivity.
  - change ("vmi_k8s_annotation_" +:+ strings.Replace labelFormatter k)
      with (String "v" ("mi_k8s_annotation_" +:+ strings.Replace labelFormatter k)).
    cbn [IsValid]. rewrite allChars_append, H. reflexivity.
Qed.

(** X2: for a metadata key made of the bytes of a Kubernetes qualified
    name, the label name the update functions append (the prefix followed
    by the sanitized key) is a label name the metrics library accepts. *)
Theorem dynamic_label_name_accepted (k : string) :
  allChars isKeyChar k = true ->
  checkLabelName ("vmi_k8s_label_" +:+ strings.Replace labelFormatter k) = true /\
  checkLabelName ("vmi_k8s_annotation_" +:+ strings.Replace labelFormatter k) = true.
Proof. apply checkLabelName_dyn. Qed.

Lemma dynamic_label_name_accepted_witness :
  checkLabelName ("vmi_k8s_label_" +:+ strings.Replace labelFormatter "kubernetes.io/foo")
    = true /\
  checkLabelName ("vmi_k8s_annotation_" +:+ strings.Replace labelFormatter "kubernetes.io/foo")
    = true.
Proof. apply (dynamic_label_name_accepted "kubernetes.io/foo"). reflexivity. Defined.

(** ** When the descriptor of a VMI is accepted *)

Lemma append_inj (p x y : string) : p +:+ x = p +:+ y -> x = y.
Proof.
  induction p as [|c p IH]; [auto|].
  change (String c p +:+ x) with (String c (p +:+ x)).
  change (String c p +:+ y) with (String c (p +:+ y)).
  intros H. injection H as H. apply IH, H.
Qed.

Lemma prefix_append (p x : string) : String.prefix p (p +:+ x) = true.
Proof.
  induction p as [|c p IH]; [destruct x; reflexivity|].
  change (String c p +:+ x) with (String c (p +:+ x)). cbn [String.prefix].
  destruct (ascii_dec c c); [exact IH | contradiction].
Qed.

Lemma dynNames_NoDup (p : string) (m : gmap string string) :
  NoDup (dynName p <$> map_to_list m) <->
  NoDup (strings.Replace labelFormatter <$> rangeKeys m).
Proof.
  unfold rangeKeys.
  replace (dynName p <$> map_to_list m)
    with (String.append p <$> (strings.Replace labelFormatter <$> (map_to_list m).*1)).
  - split.
    + apply NoDup_fmap_1.
    + apply NoDup_fmap_2. intros x y. apply append_inj.
  - rewrite <- !list_fmap_compose. apply list_fmap_ext. intros ? [k v] _. reflexivity.
Qed.

Lemma dynNames_prefix (p : string) (m : gmap string string) x :
  x ∈ dynName p <$> map_to_list m -> String.prefix p x = true.
Proof.
  intros H. apply list_elem_of_fmap in H as ([k v] & -> & _). apply prefix_append.
Qed.

Lemma dynNames_valid (p : string) (m : gmap string string) :
  p = labelPreffix \/ p = annotationPreffix ->
  wellFormedKeys m ->
  Forall (fun x => checkLabelName x = true) (dynName p <$> map_to_list m).
Proof.
  intros Hp Hm. apply Forall_forall. intros x H.
  apply list_elem_of_fmap in H as ([k v] & -> & Hin).
  apply elem_of_map_to_list in Hin.
  assert (allChars isKeyChar k = true) as Hk by (apply Hm; eauto).
  destruct (checkLabelName_dyn k Hk) as [H1 H2].
  destruct Hp as [-> | ->]; assumption.
Qed.

Lemma baseLabels_ok f :
  IsValidMetricName (familyName f) = true /\
  Forall (fun x => checkLabelName x = true) (baseLabels f) /\
  NoDup (baseLabels f) /\
  forall x, x ∈ baseLabels f -> String.prefix "vmi_k8s_" x = false.
Proof.
  split; [destruct f; reflexivity|].
  split; [destruct f; repeat constructor|].
  split.
  - destruct f; apply (bool_decide_unpack _); vm_compute; exact I.
  - intros x Hx.
    destruct f; simpl in Hx;
      repeat (apply elem_of_cons in Hx as [-> | Hx]; [reflexivity|]);
      inversion Hx.
Qed.

Lemma prefix_decompose (p x : string) :
  String.prefix p x = true -> exists y, x = p +:+ y.
Proof.
  revert x. induction p as [|c p IH]; intros x; [exists x; reflexivity|].
  destruct x as [|d x]; [discriminate|]. cbn [String.prefix].
  destruct (ascii_dec c d) as [->|]; [|discriminate].
  intros H. destruct (IH x H) as [y ->]. exists y. reflexivity.
Qed.

Lemma prefix_trans_label x :
  String.prefix labelPreffix x = true ->
  String.prefix "vmi_k8s_" x = true /\ String.prefix annotationPreffix x = false.
Proof.
  intros H. apply prefix_decompose in H as [y ->]. split; reflexivity.
Qed.

Lemma prefix_trans_annotation x :
  String.prefix annotationPreffix x = true -> String.prefix "vmi_k8s_" x = true.
Proof.
  intros H. apply prefix_decompose in H as [y ->]. reflexivity.
Qed.

Lemma descFor_accepted f vmi :
  wellFormedKeys (Labels vmi) -> wellFormedKeys (Annotations vmi) ->
  (err (descFor f vmi) = None <->
   NoDup (strings.Replace labelFormatter <$> rangeKeys (Labels vmi)) /\
   NoDup (strings.Replace labelFormatter <$> rangeKeys (Annotations vmi))).
Proof.
  intros HL HA. unfold descFor. rewrite NewDesc_accepts.
  destruct (baseLabels_ok f) as (Hn & Hv & Hd & Hp).
  unfold labelsFor, dynLabels.
  rewrite <- (dynNames_NoDup labelPreffix), <- (dynNames_NoDup annotationPreffix).
  split.
  - intros (_ & _ & H). apply NoDup_app in H as (_ & _ & H).
    apply NoDup_app in H as (H1 & _ & H2). auto.
  - intros [H1 H2]. split; [exact Hn|]. split.
    + rewrite !Forall_app. split; [exact Hv|].
      split; apply dynNames_valid; auto.
    + apply NoDup_app. split; [exact Hd|]. split.
      * intros x Hx Hin. apply Hp in Hx. apply elem_of_app in Hin as [Hin|Hin].
        -- apply dynNames_prefix, prefix_trans_label in Hin as [Hin _]. congruence.
        -- apply dynNames_prefix, prefix_trans_annotation in Hin. congruence.
      * apply NoDup_app. split; [exact H1|]. split; [|exact H2].
        intros x Hx Hin.
        apply dynNames_prefix, prefix_trans_label in Hx as [_ Hx].
        apply dynNames_prefix in Hin. congruence.
Qed.

(** X3: for a VMI whose metadata keys are made of the bytes of Kubernetes
    qualified names, the descriptor that [updateMemory] leaves in a
    package variable of the memory families carries no error exactly when
    no two label keys sanitize to the same string and no two annotation
    keys do.  (A label never collides with an annotation or with a base
    label: the prefixes keep them apart.) *)
Theorem descriptor_accepted_iff_no_collision
    (vmi : VirtualMachineInstance) (vmStats : DomainStats) (s : GoState) (f : Family) :
  wellFormedKeys (Labels vmi) -> wellFormedKeys (Annotations vmi) ->
  f ∈ memoryFamilies ->
  (err (varDesc (get f (pkg (stateOf (updateMemory vmi vmStats s))))) = None <->
   NoDup (strings.Replace labelFormatter <$> rangeKeys (Labels vmi)) /\
   NoDup (strings.Replace labelFormatter <$> rangeKeys (Annotations vmi))).
Proof.
  intros HL HA Hf. rewrite pkg_updateMemory, get_refresh.
  destruct (decide (f ∈ memoryFamilies)); [|contradiction].
  apply descFor_accepted; assumption.
Qed.

Lemma singleton_wellFormed (k v : string) :
  allChars isKeyChar k = true -> wellFormedKeys {[ k := v ]}.
Proof.
  intros Hk k' [v' H]. apply lookup_singleton_Some in H as [<- _]. exact Hk.
Qed.

Lemma descriptor_accepted_iff_no_collision_witness :
  err (varDesc (get memoryResident
                  (pkg (stateOf (updateMemory labelledVMI exampleStats initState))))) = None <->
  NoDup (strings.Replace labelFormatter <$> rangeKeys (Labels labelledVMI)) /\
  NoDup (strings.Replace labelFormatter <$> rangeKeys (Annotations labelledVMI)).
Proof.
  apply (descriptor_accepted_iff_no_collision labelledVMI exampleStats initState
           memoryResident).
  - apply singleton_wellFormed. reflexivity.
  - apply singleton_wellFormed. reflexivity.
  - left.
Defined.

(** ** What [Report] delivers, and in which order *)

(** X4: the samples that [Report] delivers for one VMI are, in this order,
    those of [updateMemory], [updateVcpu], [updateBlock] and
    [updateNetwork]: all of them on an open sink, and on a sink that closes
    on the way a leading part of that sequence, nothing reordered and
    nothing altered. *)
Theorem Report_delivers_in_order
    (socketFile : string) (vmi : VirtualMachineInstance) (vmStats : DomainStats)
    (s s0 : GoState) :
  sinkOpen s0 ->
  emitted (Report socketFile vmi vmStats) s `prefix_of`
    (emitted (updateMemory vmi vmStats) s0 ++ emitted (updateVcpu vmi vmStats) s0 ++
     emitted (updateBlock vmi vmStats) s0 ++ emitted (updateNetwork vmi vmStats) s0) /\
  (sinkOpen s ->
   emitted (Report socketFile vmi vmStats) s =
     emitted (updateMemory vmi vmStats) s0 ++ emitted (updateVcpu vmi vmStats) s0 ++
     emitted (updateBlock vmi vmStats) s0 ++ emitted (updateNetwork vmi vmStats) s0).
Proof.
  intros Ho0.
  destruct (emitted_open_updates vmi vmStats s0 Ho0) as (-> & -> & -> & ->).
  rewrite <- !sends_app. fold (reportEvents vmi vmStats).
  rewrite emitted_Report. split.
  - destruct (emitted_play (reportEvents vmi vmStats) s) as [k ->].
    apply prefix_take.
  - intros Ho. apply emitted_play_open, Ho.
Qed.

Lemma Report_delivers_in_order_witness :
  sinkOpen initState /\
  length (emitted (Report "/var/run/kubevirt/sockets/testvmi" labelledVMI mixedStats)
            initState) = 5%nat /\
  emitted (Report "/var/run/kubevirt/sockets/testvmi" labelledVMI mixedStats) initState =
    emitted (updateMemory labelledVMI mixedStats) initState ++
    emitted (updateVcpu labelledVMI mixedStats) initState ++
    emitted (updateBlock labelledVMI mixedStats) initState ++
    emitted (updateNetwork labelledVMI mixedStats) initState /\
  length (emitted (Report "/var/run/kubevirt/sockets/testvmi" labelledVMI mixedStats)
            closingState) = 2%nat /\
  emitted (Report "/var/run/kubevirt/sockets/testvmi" labelledVMI mixedStats) closingState
    `prefix_of`
    (emitted (updateMemory labelledVMI mixedStats) initState ++
     emitted (updateVcpu labelledVMI mixedStats) initState ++
     emitted (updateBlock labelledVMI mixedStats) initState ++
     emitted (updateNetwork labelledVMI mixedStats) initState).
Proof.
  split; [reflexivity|]. split; [vm_compute; reflexivity|]. split.
  - apply (proj2 (Report_delivers_in_order "/var/run/kubevirt/sockets/testvmi"
                    labelledVMI mixedStats initState initState eq_refl)).
    reflexivity.
  - split; [vm_compute; reflexivity|].
    apply (proj1 (Report_delivers_in_order "/var/run/kubevirt/sockets/testvmi"
                    labelledVMI mixedStats closingState initState eq_refl)).
Defined.

(** ** Every delivered sample is well formed *)

Lemma wellFormed_pushEventIf set d t v values :
  Forall wellFormedEvent (pushEventIf set d t v values).
Proof.
  destruct set; [|constructor]. constructor; [|constructor].
  unfold pushEvent, NewConstMetric. destruct (err d) eqn:He; [exact I|].
  destruct (Nat.eqb_spec (length values) (length (variableLabels d))); [|exact I].
  split; assumption.
Qed.

Lemma wellFormed_eventsFrom {A} (l : list A) ev i :
  (forall j x, Forall wellFormedEvent (ev j x)) ->
  Forall wellFormedEvent (eventsFrom i l ev).
Proof.
  intros H. revert i. induction l as [|x l IH]; intros i; simpl; [constructor|].
  apply Forall_app_2; auto.
Qed.

Lemma wellFormed_reportEvents vmi vmStats :
  Forall wellFormedEvent (reportEvents vmi vmStats).
Proof.
  unfold reportEvents.
  apply Forall_app_2; [|apply Forall_app_2; [|apply Forall_app_2]].
  - unfold memoryEvents. repeat apply Forall_app_2; apply wellFormed_pushEventIf.
  - apply wellFormed_eventsFrom. intros j x. unfold vcpuEvents.
    destruct (negb (StateSet x) || negb (TimeSet x)).
    + repeat constructor.
    + apply (wellFormed_pushEventIf true).
  - apply wellFormed_eventsFrom. intros j x. unfold blockEvents.
    destruct (negb (Block.NameSet x)); [repeat constructor|].
    repeat apply Forall_app_2; apply wellFormed_pushEventIf.
  - apply wellFormed_eventsFrom. intros j x. unfold netEvents.
    destruct (negb (Net.NameSet x)); [constructor|].
    repeat apply Forall_app_2; apply wellFormed_pushEventIf.
Qed.

Lemma sends_wellFormed evs mv :
  Forall wellFormedEvent evs -> mv ∈ sends evs -> wellFormed mv.
Proof.
  intros H Hin. unfold sends in Hin. apply list_elem_of_omap in Hin as (e & He & Hs).
  rewrite Forall_forall in H. specialize (H e He).
  destruct e as [mv'| |]; [|discriminate..]. injection Hs as <-. exact H.
Qed.

Lemma Report_sample_of socketFile vmi vmStats s mv :
  mv ∈ emitted (Report socketFile vmi vmStats) s ->
  mv ∈ sends (reportEvents vmi vmStats).
Proof.
  rewrite emitted_Report. destruct (emitted_play (reportEvents vmi vmStats) s) as [k ->].
  apply elem_of_take_sends.
Qed.

Lemma baseLabels_start f :
  exists rest, baseLabels f = "node" :: "namespace" :: "name" :: rest.
Proof. destruct f; eexists; reflexivity. Qed.

Lemma Report_sample_shape socketFile vmi vmStats s mv :
  mv ∈ emitted (Report socketFile vmi vmStats) s ->
  err (desc mv) = None /\
  length (labelValues mv) = length (variableLabels (desc mv)) /\
  (exists rest, variableLabels (desc mv) = "node" :: "namespace" :: "name" :: rest) /\
  (exists rest, labelValues mv =
                NodeName (Status vmi) :: Namespace vmi :: k6tv1.Name vmi :: rest).
Proof.
  intros H. apply Report_sample_of in H.
  destruct (sends_wellFormed _ _ (wellFormed_reportEvents vmi vmStats) H) as [He Hl].
  split; [exact He|]. split; [exact Hl|].
  set (s0 := mkState (pkg s) (mkChan [] None) []).
  destruct (emitted_open_updates vmi vmStats s0 eq_refl) as (E1 & E2 & E3 & E4).
  unfold reportEvents in H. rewrite !sends_app, <- E1, <- E2, <- E3, <- E4 in H.
  rewrite !elem_of_app in H. destruct H as [H|[H|[H|H]]].
  - apply memory_samples in H as (? & f & dir & ? & _ & _ & _ & ->). simpl.
    unfold descFor. rewrite variableLabels_NewDesc. unfold labelsFor.
    destruct (baseLabels_start f) as [rest ->]. split; eexists; reflexivity.
  - apply vcpu_samples in H as (? & ? & _ & _ & _ & _ & ->). simpl.
    unfold descFor. rewrite variableLabels_NewDesc. unfold labelsFor.
    split; eexists; reflexivity.
  - apply block_samples in H as (? & ? & ? & f & ? & ? & _ & _ & _ & _ & _ & ->). simpl.
    unfold descFor. rewrite variableLabels_NewDesc. unfold labelsFor.
    destruct (baseLabels_start f) as [rest ->]. split; eexists; reflexivity.
  - apply net_samples in H as (? & ? & ? & f & ? & ? & _ & _ & _ & _ & _ & ->). simpl.
    unfold descFor. rewrite variableLabels_NewDesc. unfold labelsFor.
    destruct (baseLabels_start f) as [rest ->]. split; eexists; reflexivity.
Qed.

(** X5: whatever the statistics and the metadata, a sample that [Report]
    delivers has a descriptor without error and as many label values as
    the descriptor has label names; its first three label names are
    [node], [namespace], [name] and its first three values the node,
    namespace and name of the VMI. *)
Theorem Report_samples_well_formed
    (socketFile : string) (vmi : VirtualMachineInstance) (vmStats : DomainStats)
    (s : GoState) (mv : Metric) :
  mv ∈ emitted (Report socketFile vmi vmStats) s ->
  err (desc mv) = None /\
  length (labelValues mv) = length (variableLabels (desc mv)) /\
  (exists rest, variableLabels (desc mv) = "node" :: "namespace" :: "name" :: rest) /\
  (exists rest, labelValues mv =
                NodeName (Status vmi) :: Namespace vmi :: k6tv1.Name vmi :: rest).
Proof.
  apply Report_sample_shape.
Qed.

Lemma Report_samples_well_formed_witness :
  err (descFor memoryResident plainVMI) = None /\
  length ["node-a"; "default"; "testvmi"] =
    length (variableLabels (descFor memoryResident plainVMI)) /\
  (exists rest, variableLabels (descFor memoryResident plainVMI)
                = "node" :: "namespace" :: "name" :: rest) /\
  (exists rest, ["node-a"; "default"; "testvmi"]
                = NodeName (Status plainVMI) :: Namespace plainVMI
                    :: k6tv1.Name plainVMI :: rest).
Proof.
  apply (Report_samples_well_formed "/var/run/kubevirt/sockets/testvmi" plainVMI
           exampleStats initState
           (mkMetric (descFor memoryResident plainVMI) GaugeValue 2097152
                     ["node-a"; "default"; "testvmi"])).
  vm_compute. left.
Defined.

(** ** The exact output of the loops on an open sink *)

Lemma sends_eventsFrom_imap {A} (l : list A) ev (f : nat -> A -> list Metric) i :
  (forall j x, sends (ev j x) = f j x) ->
  sends (eventsFrom i l ev) = concat (imap (fun j => f (i + j)%nat) l).
Proof.
  intros H. revert i. induction l as [|x l IH]; intros i; [reflexivity|].
  cbn [eventsFrom imap concat]. rewrite sends_app, H, IH, Nat.add_0_r. f_equal. f_equal.
  apply imap_ext. intros j y _. simpl. f_equal. lia.
Qed.

Lemma pushEvent_accepted f vmi t v extra :
  err (descFor f vmi) = None ->
  length (vmiValues vmi ++ extra) = length (baseLabels f) ->
  pushEvent (descFor f vmi) t v ((vmiValues vmi ++ extra) ++ dynValues vmi) =
  EvSend (mkMetric (descFor f vmi) t v ((vmiValues vmi ++ extra) ++ dynValues vmi)).
Proof.
  intros He Hl. unfold pushEvent, NewConstMetric. rewrite He.
  apply (length_vmi_values f vmi extra) in Hl. apply Nat.eqb_eq in Hl. rewrite Hl.
  reflexivity.
Qed.

(** X6: on an open sink and with an accepted descriptor, [updateVcpu]
    delivers one sample for each vCPU whose state and time are both set,
    in the order of the list; the [id] label of a sample is the position
    of its vCPU in the whole list, the vCPUs passed over included. *)
Theorem updateVcpu_one_sample_per_ready_vcpu
    (vmi : VirtualMachineInstance) (vmStats : DomainStats) (s : GoState) :
  sinkOpen s ->
  err (descFor vcpuUsage vmi) = None ->
  emitted (updateVcpu vmi vmStats) s =
  concat (imap (fun vcpuId vcpu =>
                  if StateSet vcpu && TimeSet vcpu
                  then [vcpuSample vmi vcpuId vcpu] else [])
               (Vcpu vmStats)).
Proof.
  intros Ho He.
  destruct (emitted_open_updates vmi vmStats s Ho) as (_ & -> & _).
  rewrite (sends_eventsFrom_imap _ _
             (fun vcpuId vcpu => if StateSet vcpu && TimeSet vcpu
                                 then [vcpuSample vmi vcpuId vcpu] else [])).
  - apply f_equal, imap_ext. reflexivity.
  - intros j x. unfold vcpuEvents.
    destruct (StateSet x), (TimeSet x); try reflexivity. cbn [negb orb andb].
    rewrite (pushEvent_accepted vcpuUsage vmi GaugeValue _
               [Sprintf_v (Z.of_nat j); Sprintf_v (State x)] He eq_refl).
    reflexivity.
Qed.

Lemma updateVcpu_one_sample_per_ready_vcpu_witness :
  emitted (updateVcpu plainVMI exampleStats) initState =
  concat (imap (fun vcpuId vcpu =>
                  if StateSet vcpu && TimeSet vcpu
                  then [vcpuSample plainVMI vcpuId vcpu] else [])
               (Vcpu exampleStats)).
Proof.
  apply (updateVcpu_one_sample_per_ready_vcpu plainVMI exampleStats initState).
  - reflexivity.
  - vm_compute. reflexivity.
Defined.

Lemma dynValues_nil vmi :
  dynValues vmi = [] <-> Labels vmi = ∅ /\ Annotations vmi = ∅.
Proof.
  unfold dynValues. split.
  - intros H. apply app_eq_nil in H as [H1 H2].
    apply fmap_nil_inv in H1. apply fmap_nil_inv in H2.
    split; apply map_to_list_empty_iff; assumption.
  - intros [-> ->]. rewrite map_to_list_empty. reflexivity.
Qed.

(** X7: for a VMI that carries at least one label or annotation,
    [updateBlock] delivers no write-direction iops sample: every sample of
    the iops family that reaches the sink has [read] as its [type] value,
    whatever the write-requests flag says. *)
Theorem updateBlock_no_write_iops_with_metadata
    (vmi : VirtualMachineInstance) (vmStats : DomainStats) (s : GoState) (mv : Metric) :
  Labels vmi <> ∅ \/ Annotations vmi <> ∅ ->
  mv ∈ emitted (updateBlock vmi vmStats) s ->
  fqName (desc mv) = "kubevirt_vmi_storage_iops_total" ->
  labelValues mv !! 4%nat = Some "read".
Proof.
  intros Hm. apply iops_write_never_emitted.
  intros Hd. apply dynValues_nil in Hd as [H1 H2]. destruct Hm; contradiction.
Qed.

Lemma updateBlock_no_write_iops_with_metadata_witness :
  labelValues
    (mkMetric (descFor storageIops labelledVMI) CounterValue 5
              ["node-a"; "default"; "testvmi"; "vda"; "read"; "bar"; "42"])
    !! 4%nat = Some "read".
Proof.
  apply (updateBlock_no_write_iops_with_metadata labelledVMI blockStats initState).
  - left. intros H. apply (f_equal (fun m => m !! "kubernetes.io/foo")) in H.
    vm_compute in H. discriminate H.
  - vm_compute. left.
  - vm_compute. reflexivity.
Defined.

Lemma imap_concat_ext {A B} (f g : nat -> A -> list B) (l : list A) :
  (forall j x, f j x = g j x) -> concat (imap f l) = concat (imap g l).
Proof. intros H. f_equal. apply imap_ext. intros j x _. apply H. Qed.

(** X8: on an open sink and with accepted descriptors, [updateNetwork]
    delivers, interface after interface in list order, for each interface
    whose name is set one sample per set counter, in the order rx bytes,
    rx packets, rx errors, tx bytes, tx packets, tx errors; each has the
    raw counter as value and the interface name and [rx] or [tx] as its
    fourth and fifth label values.  An interface without name gives
    nothing. *)
Theorem updateNetwork_exact
    (vmi : VirtualMachineInstance) (vmStats : DomainStats) (s : GoState) :
  sinkOpen s ->
  err (descFor networkTrafficBytes vmi) = None ->
  err (descFor networkTrafficPkts vmi) = None ->
  err (descFor networkErrors vmi) = None ->
  emitted (updateNetwork vmi vmStats) s =
  concat (imap (fun _ net =>
                  if Net.NameSet net
                  then counterSamples vmi (Net.Name net) (netFields net)
                  else [])
               (Net vmStats)).
Proof.
  intros Ho Hb Hp He.
  destruct (emitted_open_updates vmi vmStats s Ho) as (_ & _ & _ & ->).
  rewrite (sends_eventsFrom_imap _ _
             (fun _ net => if Net.NameSet net
                           then counterSamples vmi (Net.Name net) (netFields net)
                           else [])).
  - apply imap_concat_ext. reflexivity.
  - intros j x. unfold netEvents, pushEventIf.
    destruct (Net.NameSet x); [|reflexivity]. cbn [negb].
    rewrite !(pushEvent_accepted networkTrafficBytes vmi CounterValue _
                [Net.Name x; "rx"] Hb eq_refl),
            !(pushEvent_accepted networkTrafficBytes vmi CounterValue _
                [Net.Name x; "tx"] Hb eq_refl),
            !(pushEvent_accepted networkTrafficPkts vmi CounterValue _
                [Net.Name x; "rx"] Hp eq_refl),
            !(pushEvent_accepted networkTrafficPkts vmi CounterValue _
                [Net.Name x; "tx"] Hp eq_refl),
            !(pushEvent_accepted networkErrors vmi CounterValue _
                [Net.Name x; "rx"] He eq_refl),
            !(pushEvent_accepted networkErrors vmi CounterValue _
                [Net.Name x; "tx"] He eq_refl).
    unfold counterSamples, netFields.
    destruct (Net.RxBytesSet x), (Net.RxPktsSet x), (Net.RxErrsSet x),
             (Net.TxBytesSet x), (Net.TxPktsSet x), (Net.TxErrsSet x); reflexivity.
Qed.

Lemma updateNetwork_exact_witness :
  (fun mv => (fqName (desc mv), labelValues mv, val mv)) <$>
    emitted (updateNetwork labelledVMI netStats) initState
    = [("kubevirt_vmi_network_traffic_bytes_total",
        ["node-a"; "default"; "testvmi"; "eth0"; "rx"; "bar"; "42"], 100);
       ("kubevirt_vmi_network_errors_total",
        ["node-a"; "default"; "testvmi"; "eth0"; "tx"; "bar"; "42"], 3)] /\
  emitted (updateNetwork labelledVMI netStats) initState =
  concat (imap (fun _ net =>
                  if Net.NameSet net
                  then counterSamples labelledVMI (Net.Name net) (netFields net)
                  else [])
               (Net netStats)).
Proof.
  split; [vm_compute; reflexivity|].
  apply (updateNetwork_exact labelledVMI netStats initState);
    [reflexivity | vm_compute; reflexivity ..].
Defined.

Lemma descFor_plain f vmi :
  Labels vmi = ∅ -> Annotations vmi = ∅ ->
  dynValues vmi = [] /\ err (descFor f vmi) = None /\
  variableLabels (descFor f vmi) = baseLabels f.
Proof.
  intros Hl Ha. split; [apply dynValues_nil; auto|].
  unfold descFor, labelsFor, dynLabels. rewrite Hl, Ha, map_to_list_empty.
  split; destruct f; vm_compute; reflexivity.
Qed.

(** X9: for a VMI without labels and annotations, on an open sink,
    [updateBlock] delivers, device after device in list order, for each
    block device whose name is set one sample per set counter, in the
    order read requests, write requests, read bytes, written bytes, read
    times, write times, the write-direction iops sample included; each has
    the raw counter as value and the drive name and [read] or [write] as
    its fourth and fifth label values.  A device without name gives
    nothing. *)
Theorem updateBlock_exact_without_metadata
    (vmi : VirtualMachineInstance) (vmStats : DomainStats) (s : GoState) :
  sinkOpen s ->
  Labels vmi = ∅ -> Annotations vmi = ∅ ->
  emitted (updateBlock vmi vmStats) s =
  concat (imap (fun _ block =>
                  if Block.NameSet block
                  then counterSamples vmi (Block.Name block) (blockFields block)
                  else [])
               (Block vmStats)).
Proof.
  intros Ho Hl Ha.
  destruct (descFor_plain storageIops vmi Hl Ha) as (Hd & Hi & _).
  destruct (descFor_plain storageTraffic vmi Hl Ha) as (_ & Ht & _).
  destruct (descFor_plain storageTimes vmi Hl Ha) as (_ & Hm & _).
  destruct (emitted_open_updates vmi vmStats s Ho) as (_ & _ & -> & _).
  rewrite (sends_eventsFrom_imap _ _
             (fun _ block => if Block.NameSet block
                             then counterSamples vmi (Block.Name block) (blockFields block)
                             else [])).
  - apply imap_concat_ext. reflexivity.
  - intros j x. unfold blockEvents, pushEventIf, iopsWriteValues.
    destruct (Block.NameSet x); [|reflexivity]. cbn [negb].
    replace (match last (dynValues vmi) with
             | Some v => ((vmiValues vmi ++ [Block.Name x; "read"]) ++ dynValues vmi) ++ [v]
             | None => vmiValues vmi ++ [Block.Name x; "write"]
             end)
      with ((vmiValues vmi ++ [Block.Name x; "write"]) ++ dynValues vmi)
      by (rewrite Hd, app_nil_r; reflexivity).
    rewrite !(pushEvent_accepted storageIops vmi CounterValue _
                [Block.Name x; "read"] Hi eq_refl),
            !(pushEvent_accepted storageIops vmi CounterValue _
                [Block.Name x; "write"] Hi eq_refl),
            !(pushEvent_accepted storageTraffic vmi CounterValue _
                [Block.Name x; "read"] Ht eq_refl),
            !(pushEvent_accepted storageTraffic vmi CounterValue _
                [Block.Name x; "write"] Ht eq_refl),
            !(pushEvent_accepted storageTimes vmi CounterValue _
                [Block.Name x; "read"] Hm eq_refl),
            !(pushEvent_accepted storageTimes vmi CounterValue _
                [Block.Name x; "write"] Hm eq_refl).
    unfold counterSamples, blockFields.
    destruct (Block.RdReqsSet x), (Block.WrReqsSet x), (Block.RdBytesSet x),
             (Block.WrBytesSet x), (Block.RdTimesSet x), (Block.WrTimesSet x); reflexivity.
Qed.

Lemma updateBlock_exact_without_metadata_witness :
  (fun mv => (fqName (desc mv), labelValues mv, val mv)) <$>
    emitted (updateBlock plainVMI blockStats) initState
    = [("kubevirt_vmi_storage_iops_total",
        ["node-a"; "default"; "testvmi"; "vda"; "read"], 5);
       ("kubevirt_vmi_storage_iops_total",
        ["node-a"; "default"; "testvmi"; "vda"; "write"], 7)] /\
  emitted (updateBlock plainVMI blockStats) initState =
  concat (imap (fun _ block =>
                  if Block.NameSet block
                  then counterSamples plainVMI (Block.Name block) (blockFields block)
                  else [])
               (Block blockStats)).
Proof.
  split; [vm_compute; reflexivity|].
  apply (updateBlock_exact_without_metadata plainVMI blockStats initState); reflexivity.
Defined.

(** ** The socket map *)

Lemma socketMap_fold find (vmis : list VirtualMachineInstance) (m : vmiSocketMap) sock :
  fold_left (fun ret vmi =>
               match find vmi with
               | inr _ => ret
               | inl socketPath => <[socketPath := vmi]> ret
               end) vmis m !! sock =
  match last (filter (fun vmi => resolvesTo find sock vmi = true) vmis) with
  | Some vmi => Some vmi
  | None => m !! sock
  end.
Proof.
  revert m. induction vmis as [|x l IH]; intros m; [reflexivity|].
  cbn [fold_left]. rewrite IH, filter_cons.
  destruct (decide (resolvesTo find sock x = true)) as [Hr|Hr].
  - rewrite last_cons. unfold resolvesTo in Hr.
    destruct (find x) as [p|e]; [|discriminate].
    apply String.eqb_eq in Hr as ->.
    destruct (last (filter _ l)); [reflexivity|].
    apply (lookup_insert_eq (M:=gmap string)).
  - destruct (last (filter _ l)); [reflexivity|].
    unfold resolvesTo in Hr. destruct (find x) as [p|e]; [|reflexivity].
    apply (lookup_insert_ne (M:=gmap string)).
    intros ->. apply Hr, String.eqb_refl.
Qed.

(** X10: the socket map sends a socket path to the last VMI of the list
    that resolves to it, and has no entry for a path that no listed VMI
    resolves to; so a VMI whose resolution fails is left out, and of two
    VMIs that resolve to the same path only the later one is kept. *)
Theorem newvmiSocketMapFromVMIs_lookup
    (FindSocketOnHost : VirtualMachineInstance -> string + error) (baseDir : string)
    (vmis : list VirtualMachineInstance) (socketPath : string) :
  newvmiSocketMapFromVMIs FindSocketOnHost baseDir vmis !! socketPath =
  last (filter (fun vmi => resolvesTo FindSocketOnHost socketPath vmi = true) vmis).
Proof.
  unfold newvmiSocketMapFromVMIs. destruct vmis as [|x l]; [reflexivity|].
  cbn [length Nat.eqb]. rewrite socketMap_fold.
  destruct (last _); [reflexivity|]. apply (lookup_empty (M:=gmap string)).
Qed.

Lemma resolvesTo_spec find sock vmi :
  resolvesTo find sock vmi = true <-> find vmi = inl sock.
Proof.
  unfold resolvesTo. destruct (find vmi) as [p|e].
  - destruct (String.eqb_spec p sock) as [->|Hne]; split; try congruence.
  - split; discriminate.
Qed.

Lemma socketMap_keys find baseDir vmis sock :
  is_Some (newvmiSocketMapFromVMIs find baseDir vmis !! sock) <->
  sock ∈ resolvedSockets find vmis.
Proof.
  rewrite newvmiSocketMapFromVMIs_lookup. unfold resolvedSockets.
  rewrite list_elem_of_omap. split.
  - intros [vmi H]. apply last_Some_elem_of in H.
    apply list_elem_of_filter in H as [Hr Hin]. apply resolvesTo_spec in Hr.
    exists vmi. rewrite Hr. auto.
  - intros (vmi & Hin & Hf).
    destruct (find vmi) as [p|e] eqn:E; [|discriminate]. injection Hf as ->.
    assert (vmi ∈ filter (fun v => resolvesTo find sock v = true) vmis) as Hv
      by (apply list_elem_of_filter; split; [apply resolvesTo_spec|]; assumption).
    destruct (filter _ vmis) as [|y l'] eqn:Ef; [inversion Hv|].
    rewrite last_cons. destruct (last l'); eauto.
Qed.

(** X11: every entry of the socket map pairs a listed VMI with the path
    it resolves to, and every listed VMI that resolves has its path among
    the keys.  The map has at most as many entries as VMIs resolve, and
    exactly as many when those resolve to pairwise distinct paths. *)
Theorem newvmiSocketMapFromVMIs_entries
    (FindSocketOnHost : VirtualMachineInstance -> string + error) (baseDir : string)
    (vmis : list VirtualMachineInstance) :
  (forall socketPath vmi,
     newvmiSocketMapFromVMIs FindSocketOnHost baseDir vmis !! socketPath = Some vmi ->
     vmi ∈ vmis /\ FindSocketOnHost vmi = inl socketPath) /\
  (forall socketPath vmi,
     vmi ∈ vmis -> FindSocketOnHost vmi = inl socketPath ->
     is_Some (newvmiSocketMapFromVMIs FindSocketOnHost baseDir vmis !! socketPath)) /\
  (size (newvmiSocketMapFromVMIs FindSocketOnHost baseDir vmis)
     <= length (resolvedSockets FindSocketOnHost vmis))%nat /\
  (length (resolvedSockets FindSocketOnHost vmis) <= length vmis)%nat /\
  (NoDup (resolvedSockets FindSocketOnHost vmis) ->
   size (newvmiSocketMapFromVMIs FindSocketOnHost baseDir vmis)
     = length (resolvedSockets FindSocketOnHost vmis)).
Proof.
  assert (Hdom : dom (newvmiSocketMapFromVMIs FindSocketOnHost baseDir vmis
                        : gmap string VirtualMachineInstance)
                 = (list_to_set (resolvedSockets FindSocketOnHost vmis) : gset string)).
  { apply set_eq. intros k. rewrite elem_of_dom, elem_of_list_to_set.
    apply socketMap_keys. }
  split; [|split; [|split; [|split]]].
  - intros sock vmi H. rewrite newvmiSocketMapFromVMIs_lookup in H.
    apply last_Some_elem_of, list_elem_of_filter in H as [Hr Hin].
    apply resolvesTo_spec in Hr. auto.
  - intros sock vmi Hin Hf. apply socketMap_keys. unfold resolvedSockets.
    apply list_elem_of_omap. exists vmi. rewrite Hf. auto.
  - unfold vmiSocketMap.
    rewrite <- (size_dom (M:=gmap string)), Hdom. apply size_list_to_set_le.
  - clear Hdom. unfold resolvedSockets. induction vmis as [|x l IH]; [apply le_n|].
    cbn [omap list_omap length]. destruct (FindSocketOnHost x); cbn [length]; lia.
  - intros Hn. unfold vmiSocketMap.
    rewrite <- (size_dom (M:=gmap string)), Hdom.
    apply size_list_to_set, Hn.
Qed.

(** ** The phase map *)

Lemma countPhase_Permutation p vmis vmis' :
  vmis ≡ₚ vmis' -> countPhase p vmis = countPhase p vmis'.
Proof.
  intros H. unfold countPhase. apply Permutation_length.
  apply filter_Permutation, H.
Qed.

(** X12: the phase map, and with it everything phase aggregation sends,
    does not depend on the order in which the VMIs are listed. *)
Theorem phases_order_irrelevant
    (nodeName : string) (vmis vmis' : list VirtualMachineInstance) :
  vmis ≡ₚ vmis' ->
  makeVMIsPhasesMap vmis = makeVMIsPhasesMap vmis' /\
  updateVMIsPhase nodeName vmis = updateVMIsPhase nodeName vmis'.
Proof.
  intros H.
  assert (E : makeVMIsPhasesMap vmis = makeVMIsPhasesMap vmis').
  { apply map_eq. intros p. unfold makeVMIsPhasesMap.
    rewrite !phases_fold, (countPhase_Permutation p _ _ H). reflexivity. }
  split; [exact E|]. unfold updateVMIsPhase. rewrite E. reflexivity.
Qed.

Lemma phases_order_irrelevant_witness :
  threeVMIs ≡ₚ rev threeVMIs /\
  makeVMIsPhasesMap threeVMIs = makeVMIsPhasesMap (rev threeVMIs) /\
  updateVMIsPhase "node-a" threeVMIs = updateVMIsPhase "node-a" (rev threeVMIs).
Proof.
  split; [apply Permutation_rev|].
  apply (phases_order_irrelevant "node-a" threeVMIs (rev threeVMIs)), Permutation_rev.
Defined.

Lemma makeVMIsPhasesMap_snoc vmis vmi :
  makeVMIsPhasesMap (vmis ++ [vmi]) =
  incr (strings.ToLower (Phase (Status vmi))) (makeVMIsPhasesMap vmis).
Proof. unfold makeVMIsPhasesMap. rewrite fold_left_app. reflexivity. Qed.

Lemma sumCounts_insert k v (m : gmap string Z) :
  sumCounts (<[k := v]> m) = v - default 0 (m !! k) + sumCounts m.
Proof.
  unfold sumCounts. destruct (m !! k) as [x|] eqn:E; cbv [default id].
  - rewrite <- (insert_delete_eq m).
    rewrite map_fold_insert_L; [|intros; lia|apply lookup_delete_eq].
    rewrite (map_fold_delete_L _ _ k x m); [cbv beta; lia|intros; lia|exact E].
  - rewrite map_fold_insert_L; [cbv beta; lia|intros; lia|exact E].
Qed.

Lemma sumCounts_phases vmis :
  Z.of_nat (length vmis) < 2 ^ 64 ->
  sumCounts (makeVMIsPhasesMap vmis) = Z.of_nat (length vmis).
Proof.
  induction vmis as [|vmi vmis IH] using rev_ind; intros Hlen.
  - reflexivity.
  - rewrite length_app in Hlen |- *. cbn [length] in Hlen |- *.
    rewrite makeVMIsPhasesMap_snoc. unfold incr. rewrite sumCounts_insert, IH by lia.
    rewrite makeVMIsPhasesMap_lookup by lia.
    assert (countPhase (strings.ToLower (Phase (Status vmi))) vmis <= length vmis)%nat
      by apply length_filter.
    destruct (decide (countPhase _ vmis = 0%nat)); cbv [default id];
      rewrite Z.mod_small by lia; lia.
Qed.

Lemma totalValue_phases nodeName (l : list (string * Z)) :
  Forall (fun pc => pc.2 < 2 ^ 53) l ->
  totalValue ((fun pc => phaseSample nodeName pc.1 (float64 pc.2)) <$> l) =
  foldr (uncurry (fun (_ : string) count acc => count + acc)) 0 l.
Proof.
  induction 1 as [|[p c] l Hc _ IH]; [reflexivity|].
  cbn [fmap list_fmap totalValue foldr uncurry phaseSample val fst snd] in *.
  fold (totalValue ((fun pc => phaseSample nodeName pc.1 (float64 pc.2)) <$> l)).
  rewrite IH, float64_exact by exact Hc. reflexivity.
Qed.

(** X13: every listed VMI is counted once: the counts of the phase map
    add up to the number of listed VMIs, and on an open sink so do the
    values of the phase samples of a cycle (for fewer than [2^53] VMIs,
    whose counts a double holds exactly). *)
Theorem phase_counts_add_up
    (nodeName : string) (vmis : list VirtualMachineInstance) (s : GoState) :
  sinkOpen s ->
  Z.of_nat (length vmis) < 2 ^ 53 ->
  sumCounts (makeVMIsPhasesMap vmis) = Z.of_nat (length vmis) /\
  totalValue (emitted (updateVMIsPhase nodeName vmis) s) = Z.of_nat (length vmis).
Proof.
  intros Ho Hlen.
  assert (Hs : sumCounts (makeVMIsPhasesMap vmis) = Z.of_nat (length vmis))
    by (apply sumCounts_phases; lia).
  split; [exact Hs|].
  unfold emitted. rewrite updateVMIsPhase_open by exact Ho. cbn [stateOf ch sent].
  rewrite drop_app_length, totalValue_phases.
  - rewrite <- Hs. unfold sumCounts. symmetry. apply map_fold_foldr.
  - apply Forall_forall. intros [p c] Hin. apply elem_of_map_to_list in Hin.
    rewrite makeVMIsPhasesMap_lookup in Hin by lia.
    destruct (decide (countPhase p vmis = 0%nat)); [discriminate|].
    injection Hin as <-. cbn [snd].
    assert (countPhase p vmis <= length vmis)%nat by apply length_filter. lia.
Qed.

Lemma phase_counts_add_up_witness :
  sinkOpen initState /\ Z.of_nat (length threeVMIs) < 2 ^ 53 /\
  sumCounts (makeVMIsPhasesMap threeVMIs) = 3 /\
  totalValue (emitted (updateVMIsPhase "node-a" threeVMIs) initState) = 3.
Proof.
  split; [reflexivity|]. split; [vm_compute; reflexivity|].
  apply (phase_counts_add_up "node-a" threeVMIs initState); [reflexivity|].
  vm_compute. reflexivity.
Defined.

(** ** What [Report] leaves in the package variables, and [Describe] *)

Lemma namesKept_refresh fs vmi g : namesKept g -> namesKept (refresh fs vmi g).
Proof.
  intros H f. rewrite get_refresh. destruct (decide (f ∈ fs)); [|apply H].
  apply fqName_NewDesc.
Qed.

Lemma namesKept_initPkg : namesKept initPkg.
Proof. intros []; reflexivity. Qed.

Lemma namesKept_bind (m k : M unit) :
  (forall s, namesKept (pkg s) -> namesKept (pkg (stateOf (m s)))) ->
  (forall s, namesKept (pkg s) -> namesKept (pkg (stateOf (k s)))) ->
  forall s, namesKept (pkg s) -> namesKept (pkg (stateOf ((m ;; k) s))).
Proof.
  intros Hm Hk s Hs. rewrite bind_run. specialize (Hm s Hs).
  destruct (m s) as [[] s'|r s']; [apply Hk|]; exact Hm.
Qed.

Lemma namesKept_playLoop {A} (l : list A) fs vmi ev s :
  namesKept (pkg s) -> namesKept (pkg (stateOf (playLoop l (refresh fs vmi) ev s))).
Proof.
  intros H. rewrite pkg_playLoop. destruct l; [exact H|]. apply namesKept_refresh, H.
Qed.

Lemma namesKept_updates vmi vmStats s :
  namesKept (pkg s) ->
  namesKept (pkg (stateOf ((updateMemory vmi vmStats ;; updateVcpu vmi vmStats ;;
                            updateBlock vmi vmStats ;; updateNetwork vmi vmStats) s))).
Proof.
  revert s. apply namesKept_bind.
  { intros s H. rewrite pkg_updateMemory. apply namesKept_refresh, H. }
  apply namesKept_bind.
  { intros s H. rewrite updateVcpu_play. apply namesKept_playLoop, H. }
  apply namesKept_bind.
  { intros s H. rewrite updateBlock_play. apply namesKept_playLoop, H. }
  intros s H. rewrite updateNetwork_play. apply namesKept_playLoop, H.
Qed.

Lemma pkg_Report socketFile vmi vmStats s :
  pkg (stateOf (Report socketFile vmi vmStats s)) =
  pkg (stateOf ((updateMemory vmi vmStats ;; updateVcpu vmi vmStats ;;
                 updateBlock vmi vmStats ;; updateNetwork vmi vmStats) s)).
Proof.
  unfold Report, deferRecover.
  destruct ((updateMemory vmi vmStats ;; updateVcpu vmi vmStats ;;
             updateBlock vmi vmStats ;; updateNetwork vmi vmStats) s) as [[] s'|r s'];
    reflexivity.
Qed.

(** X14: the metric names of the package-level descriptors never change:
    if they are those of the [var] block before [Report] (as they are at
    start-up), they are so after it, on any sink and whether or not the
    call panicked inside.  So [Describe] always announces the same ten
    metric names, and among them neither the swap-traffic nor the
    phase-count name, although the collector delivers samples of both. *)
Theorem Describe_names_fixed
    (socketFile : string) (vmi : VirtualMachineInstance) (vmStats : DomainStats)
    (s : GoState) :
  namesKept (pkg s) ->
  namesKept (pkg (stateOf (Report socketFile vmi vmStats s))) /\
  fqName <$> Describe (stateOf (Report socketFile vmi vmStats s)) =
    ["kubevirt_info";
     "kubevirt_vmi_storage_iops_total";
     "kubevirt_vmi_storage_traffic_bytes_total";
     "kubevirt_vmi_storage_times_ms_total";
     "kubevirt_vmi_vcpu_seconds";
     "kubevirt_vmi_network_traffic_bytes_total";
     "kubevirt_vmi_network_traffic_packets_total";
     "kubevirt_vmi_network_errors_total";
     "kubevirt_vmi_memory_available_bytes";
     "kubevirt_vmi_memory_resident_bytes"].
Proof.
  intros H.
  assert (K : namesKept (pkg (stateOf (Report socketFile vmi vmStats s))))
    by (rewrite pkg_Report; apply namesKept_updates, H).
  split; [exact K|]. unfold Describe. cbn [fmap list_fmap].
  apply (f_equal2 cons); [apply fqName_NewDesc|].
  rewrite (K storageIops), (K storageTraffic), (K storageTimes), (K vcpuUsage),
    (K networkTrafficBytes), (K networkTrafficPkts), (K networkErrors),
    (K memoryAvailable), (K memoryResident).
  reflexivity.
Qed.

Lemma Describe_names_fixed_witness :
  namesKept (pkg initState) /\
  namesKept (pkg (stateOf (Report "sock" labelledVMI mixedStats initState))) /\
  fqName <$> Describe (stateOf (Report "sock" labelledVMI mixedStats initState)) =
    ["kubevirt_info";
     "kubevirt_vmi_storage_iops_total";
     "kubevirt_vmi_storage_traffic_bytes_total";
     "kubevirt_vmi_storage_times_ms_total";
     "kubevirt_vmi_vcpu_seconds";
     "kubevirt_vmi_network_traffic_bytes_total";
     "kubevirt_vmi_network_traffic_packets_total";
     "kubevirt_vmi_network_errors_total";
     "kubevirt_vmi_memory_available_bytes";
     "kubevirt_vmi_memory_resident_bytes"].
Proof.
  split; [exact namesKept_initPkg|].
  apply (Describe_names_fixed "sock" labelledVMI mixedStats initState), namesKept_initPkg.
Defined.

Lemma playLoop_open {A} (l : list A) h ev s :
  sinkOpen s ->
  playLoop l h ev s =
  Returned tt (mkState (match l with [] => pkg s | _ => h (pkg s) end)
                       (mkChan (sent (ch s) ++ sends (eventsFrom 0 l ev)) None)
                       (logs s ++ logLines (varDesc (get memoryAvailable (h (pkg s))))
                                   (eventsFrom 0 l ev))).
Proof.
  intros Ho. destruct l as [|x l].
  - destruct s as [g [snt o] lg]. unfold sinkOpen in Ho. cbn in Ho. subst o.
    cbn. rewrite !app_nil_r. reflexivity.
  - unfold playLoop. rewrite play_open by exact Ho. reflexivity.
Qed.

Lemma logLines_app d a b : logLines d (a ++ b) = logLines d a ++ logLines d b.
Proof. apply omap_app. Qed.

(** The package variables after the four update functions have run. *)
Lemma updates_open vmi vmStats s :
  sinkOpen s ->
  exists g,
    (forall f, get f g = if assigned vmStats f then freshVar f vmi else get f (pkg s)) /\
    (updateMemory vmi vmStats ;; updateVcpu vmi vmStats ;;
     updateBlock vmi vmStats ;; updateNetwork vmi vmStats) s =
    Returned tt (mkState g
                   (mkChan (sent (ch s) ++ sends (reportEvents vmi vmStats)) None)
                   (logs s ++ logLines (descFor memoryAvailable vmi)
                               (reportEvents vmi vmStats))).
Proof.
  intros Ho.
  exists (match Net vmStats with
          | [] => fun g => g | _ => refresh netFamilies vmi end
            (match Block vmStats with
             | [] => fun g => g | _ => refresh blockFamilies vmi end
               (match Vcpu vmStats with
                | [] => fun g => g | _ => refresh vcpuFamilies vmi end
                  (refresh memoryFamilies vmi (pkg s))))).
  split.
  - intros f. unfold assigned.
    destruct (Net vmStats), (Block vmStats), (Vcpu vmStats), (pkg s), f; reflexivity.
  - rewrite bind_run, updateMemory_play, play_open by exact Ho.
    rewrite bind_run, updateVcpu_play, playLoop_open by reflexivity.
    rewrite bind_run, updateBlock_play, playLoop_open by reflexivity.
    rewrite updateNetwork_play, playLoop_open by reflexivity.
    unfold reportEvents. cbn [pkg ch sent logs withPkg].
    rewrite !sends_app, !logLines_app, <- !app_assoc.
    destruct (Net vmStats), (Block vmStats), (Vcpu vmStats), (pkg s); reflexivity.
Qed.

Lemma Report_open socketFile vmi vmStats s :
  sinkOpen s ->
  exists g,
    (forall f, get f g = if assigned vmStats f then freshVar f vmi else get f (pkg s)) /\
    Report socketFile vmi vmStats s =
    Returned tt (mkState g
                   (mkChan (sent (ch s) ++ sends (reportEvents vmi vmStats)) None)
                   (logs s ++ logLines (descFor memoryAvailable vmi)
                               (reportEvents vmi vmStats))).
Proof.
  intros Ho. destruct (updates_open vmi vmStats s Ho) as (g & Hg & E).
  exists g. split; [exact Hg|]. unfold Report, deferRecover. rewrite E. reflexivity.
Qed.

(** X15: on an open sink, [Report] leaves in the package variables of
    every family it assigns the label names and the descriptor built from
    the metadata of the VMI it reported, and leaves the others as they
    were; the vCPU, block and network families are assigned only when the
    record lists a vCPU, a block device or an interface.  So what
    [Describe] sends afterwards depends on the VMI reported last. *)
Theorem Describe_follows_last_report
    (socketFile : string) (vmi : VirtualMachineInstance) (vmStats : DomainStats)
    (s : GoState) :
  sinkOpen s ->
  (forall f, get f (pkg (stateOf (Report socketFile vmi vmStats s))) =
             if assigned vmStats f then freshVar f vmi else get f (pkg s)) /\
  Describe (stateOf (Report socketFile vmi vmStats s)) =
    versionDesc ::
    ((fun f => if assigned vmStats f then descFor f vmi else varDesc (get f (pkg s)))
       <$> describedFamilies).
Proof.
  intros Ho. destruct (Report_open socketFile vmi vmStats s Ho) as (g & Hg & ->).
  cbn [stateOf pkg]. split; [exact Hg|].
  unfold Describe, describedFamilies. cbn [fmap list_fmap pkg]. rewrite !Hg.
  assert (Hif : forall (b : bool) f v,
            varDesc (if b then freshVar f vmi else v) =
            if b then descFor f vmi else varDesc v) by (intros [] ? ?; reflexivity).
  rewrite !Hif. reflexivity.
Qed.

Lemma Describe_follows_last_report_witness :
  sinkOpen initState /\
  (forall f, get f (pkg (stateOf (Report "sock" labelledVMI exampleStats initState))) =
             if assigned exampleStats f then freshVar f labelledVMI
             else get f (pkg initState)) /\
  Describe (stateOf (Report "sock" labelledVMI exampleStats initState)) =
    versionDesc ::
    ((fun f => if assigned exampleStats f then descFor f labelledVMI
               else varDesc (get f (pkg initState)))
       <$> describedFamilies).
Proof.
  split; [reflexivity|].
  apply (Describe_follows_last_report "sock" labelledVMI exampleStats initState).
  reflexivity.
Defined.

(** ** Nothing is lost silently *)

Lemma length_sends_logLines d evs :
  (length (sends evs) + length (logLines d evs))%nat = length evs.
Proof.
  induction evs as [|[mv|e|e] evs IH]; [reflexivity| | |].
  - change (S (length (sends evs) + length (logLines d evs)) = S (length evs)).
    rewrite IH. reflexivity.
  - change ((length (sends evs) + S (length (logLines d evs)))%nat = S (length evs)).
    rewrite Nat.add_succ_r, IH. reflexivity.
  - change ((length (sends evs) + S (length (logLines d evs)))%nat = S (length evs)).
    rewrite Nat.add_succ_r, IH. reflexivity.
Qed.

Lemma length_eventsFrom {A} (l : list A) ev (n : A -> nat) i :
  (forall j x, length (ev j x) = n x) ->
  length (eventsFrom i l ev) = sum_list (n <$> l).
Proof.
  intros H. revert i. induction l as [|x l IH]; intros i; [reflexivity|].
  cbn [eventsFrom fmap list_fmap sum_list sum_list_with]. rewrite length_app, H, IH.
  reflexivity.
Qed.

Lemma sum_list_ones {A} (l : list A) : sum_list ((fun _ => 1%nat) <$> l) = length l.
Proof. induction l as [|x l IH]; [reflexivity|]. cbn in *. rewrite IH. reflexivity. Qed.

Lemma length_reportEvents vmi vmStats :
  length (reportEvents vmi vmStats) = reportSteps vmStats.
Proof.
  unfold reportEvents, reportSteps. rewrite !length_app, !Nat.add_assoc.
  f_equal; [f_equal; [f_equal|]|].
  - unfold memoryEvents, memoryFields, countSet.
    destruct (RSSSet _), (AvailableSet _), (SwapInSet _), (SwapOutSet _); reflexivity.
  - rewrite (length_eventsFrom _ _ (fun _ => 1%nat)); [apply sum_list_ones|].
    intros j vcpu. unfold vcpuEvents.
    destruct (negb (StateSet vcpu) || negb (TimeSet vcpu)); reflexivity.
  - apply length_eventsFrom. intros j block. unfold blockEvents, blockFields, countSet.
    destruct (Block.NameSet block); cbn [negb]; [|reflexivity].
    destruct (Block.RdReqsSet _), (Block.WrReqsSet _), (Block.RdBytesSet _),
      (Block.WrBytesSet _), (Block.RdTimesSet _), (Block.WrTimesSet _); reflexivity.
  - apply length_eventsFrom. intros j net. unfold netEvents, netFields, countSet.
    destruct (Net.NameSet net); cbn [negb]; [|reflexivity].
    destruct (Net.RxBytesSet _), (Net.RxPktsSet _), (Net.RxErrsSet _),
      (Net.TxBytesSet _), (Net.TxPktsSet _), (Net.TxErrsSet _); reflexivity.
Qed.

(** X16: on an open sink [Report] accounts for every statistic it acts
    on with exactly one sample or one warning: the samples it delivers and
    the log lines it writes are together as many as the set memory
    fields, the vCPUs, the set counters of the named block devices and
    interfaces and the block devices without name.  A sample that the
    metrics library refuses is not lost silently, it leaves a warning; an
    interface without name leaves nothing. *)
Theorem Report_sample_or_warning
    (socketFile : string) (vmi : VirtualMachineInstance) (vmStats : DomainStats)
    (s : GoState) :
  sinkOpen s ->
  (length (emitted (Report socketFile vmi vmStats) s) +
   length (logged (Report socketFile vmi vmStats) s))%nat = reportSteps vmStats.
Proof.
  intros Ho. destruct (Report_open socketFile vmi vmStats s Ho) as (g & _ & E).
  unfold emitted, logged. rewrite E. cbn [stateOf ch sent logs].
  rewrite !drop_app_length, length_sends_logLines. apply length_reportEvents.
Qed.

Lemma Report_sample_or_warning_witness :
  sinkOpen initState /\
  length (emitted (Report "sock" labelledVMI mixedStats) initState) = 5%nat /\
  length (logged (Report "sock" labelledVMI mixedStats) initState) = 3%nat /\
  (length (emitted (Report "sock" labelledVMI mixedStats) initState) +
   length (logged (Report "sock" labelledVMI mixedStats) initState))%nat
    = reportSteps mixedStats.
Proof.
  split; [reflexivity|]. split; [vm_compute; reflexivity|].
  split; [vm_compute; reflexivity|].
  apply (Report_sample_or_warning "sock" labelledVMI mixedStats initState). reflexivity.
Defined.

(** ** A sink that closes on the way *)

Lemma play_closing evs s n :
  open_for (ch s) = Some n ->
  sent (ch (stateOf (play evs s))) = sent (ch s) ++ take n (sends evs) /\
  panicked (play evs s) = (n <? length (sends evs))%nat /\
  exists k, logs (stateOf (play evs s)) =
            logs s ++ take k (logLines (varDesc (get memoryAvailable (pkg s))) evs).
Proof.
  revert s n. induction evs as [|[mv|e|e] evs IH]; intros [g [snt o] lg] n Ho;
    cbn [ch open_for] in Ho; subst o.
  - cbn. rewrite take_nil, app_nil_r. split; [reflexivity|].
    split; [reflexivity|]. exists 0%nat. rewrite app_nil_r. reflexivity.
  - change (play (EvSend mv :: evs)) with (send mv ;; play evs). rewrite bind_run.
    change (sends (EvSend mv :: evs)) with (mv :: sends evs).
    unfold send. cbn [ch open_for sent pkg logs]. destruct n as [|n].
    + cbn. rewrite app_nil_r. split; [reflexivity|]. split; [reflexivity|].
      exists 0%nat. rewrite take_0, app_nil_r. reflexivity.
    + destruct (IH (mkState g (mkChan (snt ++ [mv]) (Some n)) lg) n eq_refl)
        as (Hs & Hp & k & Hl).
      rewrite Hs, Hp. cbn [ch sent logs take length]. rewrite <- app_assoc.
      split; [reflexivity|]. split; [reflexivity|]. exists k. exact Hl.
  - change (play (EvLog e :: evs))
      with (logfOf (verbosity e) (severity e) (message e) (operands e) ;; play evs).
    rewrite bind_run.
    change (sends (EvLog e :: evs)) with (sends evs).
    unfold logfOf. cbn [ch open_for sent pkg logs].
    destruct (IH (mkState g (mkChan snt (Some n))
                    (lg ++ [mkLogOf (verbosity e) (severity e) (message e) (operands e)]))
                 n eq_refl)
      as (Hs & Hp & k & Hl).
    rewrite Hs, Hp. cbn [ch sent logs]. split; [reflexivity|]. split; [reflexivity|].
    exists (S k). rewrite Hl. destruct e as [v sev msg ops]. simpl.
    rewrite <- app_assoc. reflexivity.
  - cbn [play]. rewrite bind_run.
    change (sends (EvRefused e :: evs)) with (sends evs).
    unfold readDesc, logfOf. rewrite bind_run. cbn [ch open_for sent pkg logs].
    destruct (IH (mkState g (mkChan snt (Some n))
                    (lg ++ [refusal (varDesc (get memoryAvailable g)) e])) n eq_refl)
      as (Hs & Hp & k & Hl).
    unfold refusal in Hs, Hp, Hl. rewrite Hs, Hp. cbn [ch sent logs].
    split; [reflexivity|]. split; [reflexivity|].
    exists (S k). rewrite Hl. simpl. rewrite <- app_assoc. reflexivity.
Qed.

Lemma quiet_pushEventIf set d t v values :
  Forall quietEvent (pushEventIf set d t v values).
Proof.
  destruct set; [|constructor]. constructor; [|constructor].
  unfold pushEvent. destruct (NewConstMetric d t v values); exact I.
Qed.

Lemma quiet_eventsFrom {A} (l : list A) ev i :
  (forall j x, Forall quietEvent (ev j x)) -> Forall quietEvent (eventsFrom i l ev).
Proof.
  intros H. revert i. induction l as [|x l IH]; intros i; simpl; [constructor|].
  apply Forall_app_2; auto.
Qed.

Lemma quiet_reportEvents vmi vmStats : Forall quietEvent (reportEvents vmi vmStats).
Proof.
  unfold reportEvents.
  apply Forall_app_2; [|apply Forall_app_2; [|apply Forall_app_2]].
  - unfold memoryEvents. repeat apply Forall_app_2; apply quiet_pushEventIf.
  - apply quiet_eventsFrom. intros j x. unfold vcpuEvents.
    destruct (negb (StateSet x) || negb (TimeSet x)).
    + repeat constructor.
    + apply (quiet_pushEventIf true).
  - apply quiet_eventsFrom. intros j x. unfold blockEvents.
    destruct (negb (Block.NameSet x)); [repeat constructor|].
    repeat apply Forall_app_2; apply quiet_pushEventIf.
  - apply quiet_eventsFrom. intros j x. unfold netEvents.
    destruct (negb (Net.NameSet x)); [constructor|].
    repeat apply Forall_app_2; apply quiet_pushEventIf.
Qed.

Lemma logLines_quiet d evs e :
  Forall quietEvent evs -> e ∈ logLines d evs -> verbosity e = Some 4%nat.
Proof.
  intros H Hin. unfold logLines in Hin. apply list_elem_of_omap in Hin as (ev & He & Hs).
  rewrite Forall_forall in H. specialize (H ev He).
  destruct ev as [|l|err]; [discriminate| |]; injection Hs as <-; [exact H|reflexivity].
Qed.

(** X17: on a sink that closes after [n] more samples, [Report] delivers
    exactly the first [n] of the samples it delivers on an open sink (all
    of them if they are no more than [n]), and it writes the warning of
    the recovered panic exactly when some sample was left over. *)
Theorem Report_on_closing_sink
    (socketFile : string) (vmi : VirtualMachineInstance) (vmStats : DomainStats)
    (s s0 : GoState) (n : nat) :
  open_for (ch s) = Some n ->
  sinkOpen s0 ->
  emitted (Report socketFile vmi vmStats) s =
    take n (emitted (Report socketFile vmi vmStats) s0) /\
  (mkLog (Some 2%nat) WARNING "collector goroutine panicked for VM"
     ∈ logged (Report socketFile vmi vmStats) s <->
   (n < length (emitted (Report socketFile vmi vmStats) s0))%nat).
Proof.
  intros Hn Ho.
  rewrite (emitted_Report _ _ _ s0), (emitted_play_open _ _ Ho).
  split.
  - destruct (play_closing (reportEvents vmi vmStats) s n Hn) as (Hs & _).
    rewrite emitted_Report. unfold emitted. rewrite Hs. apply drop_app_length.
  - destruct (play_closing (reportEvents vmi vmStats)
                (withPkg (refresh memoryFamilies vmi) s) n Hn) as (_ & Hp & k & Hl).
    pose proof (updates_observe vmi vmStats s) as Hobs. unfold observe in Hobs.
    injection Hobs as Hpan _ Hlogs. rewrite Hp in Hpan. rewrite Hl in Hlogs.
    cbn [withPkg logs] in Hlogs.
    unfold logged, Report, deferRecover.
    destruct ((updateMemory vmi vmStats ;; updateVcpu vmi vmStats ;;
               updateBlock vmi vmStats ;; updateNetwork vmi vmStats) s)
      as [[] s'|r s']; cbn [panicked stateOf logf logs] in *; rewrite Hlogs.
    + rewrite drop_app_length. symmetry in Hpan. apply Nat.ltb_ge in Hpan. split; [|lia].
      intros Hin. apply (subseteq_take k _ _) in Hin.
      apply (logLines_quiet _ _ _ (quiet_reportEvents vmi vmStats)) in Hin. discriminate.
    + rewrite <- app_assoc, drop_app_length. symmetry in Hpan. apply Nat.ltb_lt in Hpan.
      split; [intros _; exact Hpan|]. intros _. apply elem_of_app. right. left.
Qed.

Lemma Report_on_closing_sink_witness :
  open_for (ch (mkState initPkg (mkChan [] (Some 2%nat)) [])) = Some 2%nat /\
  sinkOpen initState /\
  length (emitted (Report "sock" labelledVMI mixedStats) initState) = 5%nat /\
  emitted (Report "sock" labelledVMI mixedStats) (mkState initPkg (mkChan [] (Some 2%nat)) [])
    = take 2 (emitted (Report "sock" labelledVMI mixedStats) initState) /\
  (mkLog (Some 2%nat) WARNING "collector goroutine panicked for VM"
     ∈ logged (Report "sock" labelledVMI mixedStats)
         (mkState initPkg (mkChan [] (Some 2%nat)) []) <->
   (2 < length (emitted (Report "sock" labelledVMI mixedStats) initState))%nat).
Proof.
  split; [reflexivity|]. split; [reflexivity|]. split; [vm_compute; reflexivity|].
  apply (Report_on_closing_sink "sock" labelledVMI mixedStats
           (mkState initPkg (mkChan [] (Some 2%nat)) []) initState 2);
    reflexivity.
Defined.

(** ** The memory samples, exactly *)

(** X18: on an open sink and with accepted descriptors, [updateMemory]
    delivers one gauge for each memory field whose flag is set, in the
    order resident, available, swap in, swap out; its value is the KiB
    figure times 1024, and a swap sample carries [in] or [out] as fourth
    label value. *)
Theorem updateMemory_exact
    (vmi : VirtualMachineInstance) (vmStats : DomainStats) (s : GoState) :
  sinkOpen s ->
  err (descFor memoryResident vmi) = None ->
  err (descFor memoryAvailable vmi) = None ->
  err (descFor swapTraffic vmi) = None ->
  emitted (updateMemory vmi vmStats) s =
  memorySamples vmi (memoryFields (Memory vmStats)).
Proof.
  intros Ho Hr Ha Hs.
  destruct (emitted_open_updates vmi vmStats s Ho) as (-> & _).
  unfold memoryEvents, pushEventIf.
  change (vmiValues vmi ++ dynValues vmi) with ((vmiValues vmi ++ []) ++ dynValues vmi).
  rewrite (pushEvent_accepted memoryResident vmi GaugeValue _ [] Hr eq_refl),
          (pushEvent_accepted memoryAvailable vmi GaugeValue _ [] Ha eq_refl),
          (pushEvent_accepted swapTraffic vmi GaugeValue _ ["in"] Hs eq_refl),
          (pushEvent_accepted swapTraffic vmi GaugeValue _ ["out"] Hs eq_refl).
  unfold memorySamples, memoryFields.
  destruct (RSSSet _), (AvailableSet _), (SwapInSet _), (SwapOutSet _); reflexivity.
Qed.

Lemma updateMemory_exact_witness :
  (fun mv => (fqName (desc mv), labelValues mv, val mv)) <$>
    emitted (updateMemory labelledVMI swapStats) initState
    = [("kubevirt_vmi_memory_resident_bytes",
        ["node-a"; "default"; "testvmi"; "bar"; "42"], 2097152);
       ("kubevirt_vmi_memory_swap_traffic_bytes_total",
        ["node-a"; "default"; "testvmi"; "out"; "bar"; "42"], 16384)] /\
  emitted (updateMemory labelledVMI swapStats) initState =
  memorySamples labelledVMI (memoryFields (Memory swapStats)).
Proof.
  split; [vm_compute; reflexivity|].
  apply (updateMemory_exact labelledVMI swapStats initState);
    [reflexivity | vm_compute; reflexivity ..].
Defined.

(** ** What a scrape delivers *)

Lemma emitted_logf v sev msg s : emitted (logf v sev msg) s = [].
Proof. apply emitted_nothing. reflexivity. Qed.

Lemma Report_withName socketFile vmi vmStats name :
  Report socketFile vmi (withName name vmStats) = Report socketFile vmi vmStats.
Proof. reflexivity. Qed.

Lemma Scrape_clientWith collectionTimeout elapsedOn socketFile vmi vmStats s :
  stats.Name vmStats <> "" ->
  Scrape collectionTimeout (clientWith vmStats) elapsedOn socketFile vmi s =
  if elapsedOn socketFile >? statsMaxAge collectionTimeout
  then logf None INFO "took too long to collect stats: ignored" s
  else Report socketFile vmi vmStats s.
Proof.
  intros Hn. unfold Scrape, clientWith. cbn [GetDomainStats negb orb].
  apply String.eqb_neq in Hn. rewrite Hn.
  destruct (elapsedOn socketFile >? statsMaxAge collectionTimeout); reflexivity.
Qed.

(** X19: a sample that [Scrape] delivers comes from [Report] on a record
    that the client returned as existing and with a non-empty name.  It is
    labelled with the node, namespace and name of the VMI that was passed
    with the socket.  The name in the record is tested for emptiness only
    and is never used, as a label or otherwise: had the client returned
    the same record under any other non-empty name, [Scrape] would have
    done exactly the same (same samples, same log, same package
    variables). *)
Theorem Scrape_samples_carry_listed_vmi
    (collectionTimeout : Z) (NewClient : string -> LauncherClient + error)
    (elapsedOn : string -> Z)
    (socketFile : string) (vmi : VirtualMachineInstance) (s : GoState) (mv : Metric) :
  mv ∈ emitted (Scrape collectionTimeout NewClient elapsedOn socketFile vmi) s ->
  (exists cli vmStats,
     NewClient socketFile = inl cli /\
     GetDomainStats cli = inl (vmStats, true) /\
     stats.Name vmStats <> "" /\
     mv ∈ emitted (Report socketFile vmi vmStats) s /\
     forall name,
       name <> "" ->
       Scrape collectionTimeout (clientWith (withName name vmStats)) elapsedOn
              socketFile vmi s =
       Scrape collectionTimeout NewClient elapsedOn socketFile vmi s) /\
  err (desc mv) = None /\
  length (labelValues mv) = length (variableLabels (desc mv)) /\
  (exists rest, labelValues mv =
                NodeName (Status vmi) :: Namespace vmi :: k6tv1.Name vmi :: rest).
Proof.
  intros H.
  assert (Hname : forall vmStats name,
            name <> "" ->
            Scrape collectionTimeout (clientWith (withName name vmStats)) elapsedOn
                   socketFile vmi s =
            if elapsedOn socketFile >? statsMaxAge collectionTimeout
            then logf None INFO "took too long to collect stats: ignored" s
            else Report socketFile vmi vmStats s).
  { intros vmStats name Hn. rewrite Scrape_clientWith by exact Hn.
    rewrite Report_withName. reflexivity. }
  assert (Horig : forall cli vmStats,
            NewClient socketFile = inl cli ->
            GetDomainStats cli = inl (vmStats, true) ->
            stats.Name vmStats <> "" ->
            Scrape collectionTimeout NewClient elapsedOn socketFile vmi s =
            if elapsedOn socketFile >? statsMaxAge collectionTimeout
            then logf None INFO "took too long to collect stats: ignored" s
            else Report socketFile vmi vmStats s).
  { intros cli vmStats Ec Eg En. unfold Scrape. rewrite Ec, Eg. cbn [negb orb].
    apply String.eqb_neq in En. rewrite En.
    destruct (elapsedOn socketFile >? statsMaxAge collectionTimeout); reflexivity. }
  unfold Scrape in H.
  destruct (NewClient socketFile) as [cli|e] eqn:Ec;
    [|rewrite emitted_logf in H; inversion H].
  destruct (GetDomainStats cli) as [[vmStats exists_]|e] eqn:Eg;
    [|rewrite emitted_logf in H; inversion H].
  destruct exists_; cbn [negb orb] in H; [|rewrite emitted_logf in H; inversion H].
  destruct (String.eqb_spec (stats.Name vmStats) "") as [En|En];
    [rewrite emitted_logf in H; inversion H|].
  destruct (elapsedOn socketFile >? statsMaxAge collectionTimeout) eqn:El;
    [rewrite emitted_logf in H; inversion H|].
  destruct (Report_sample_shape _ _ _ _ _ H) as (He & Hl & _ & Hv).
  split; [|auto].
  exists cli, vmStats. repeat split; auto.
  intros name Hn. rewrite (Hname vmStats name Hn), (Horig cli vmStats eq_refl Eg En).
  reflexivity.
Qed.

Lemma Scrape_samples_carry_listed_vmi_witness :
  (exists cli vmStats,
     answeringClient "/var/run/kubevirt/sockets/testvmi" = inl cli /\
     GetDomainStats cli = inl (vmStats, true) /\
     stats.Name vmStats <> "" /\
     mkMetric (descFor memoryResident plainVMI) GaugeValue 2097152
              ["node-a"; "default"; "testvmi"]
       ∈ emitted (Report "/var/run/kubevirt/sockets/testvmi" plainVMI vmStats)
           initState /\
     forall name,
       name <> "" ->
       Scrape tenSeconds (clientWith (withName name vmStats)) (fun _ => 0)
              "/var/run/kubevirt/sockets/testvmi" plainVMI initState =
       Scrape tenSeconds answeringClient (fun _ => 0)
              "/var/run/kubevirt/sockets/testvmi" plainVMI initState) /\
  err (descFor memoryResident plainVMI) = None /\
  length ["node-a"; "default"; "testvmi"] =
    length (variableLabels (descFor memoryResident plainVMI)) /\
  (exists rest, ["node-a"; "default"; "testvmi"]
                = NodeName (Status plainVMI) :: Namespace plainVMI
                    :: k6tv1.Name plainVMI :: rest).
Proof.
  apply (Scrape_samples_carry_listed_vmi tenSeconds answeringClient (fun _ => 0)
           "/var/run/kubevirt/sockets/testvmi" plainVMI initState
           (mkMetric (descFor memoryResident plainVMI) GaugeValue 2097152
                     ["node-a"; "default"; "testvmi"])).
  vm_compute. left.
Defined.
